(** * Local persistence and sync-state model of the offline-first app

    A shallow embedding of the storage client ([db/client.ts]), the
    migrations ([db/migrations.ts]), the two repositories
    ([repositories/sales.repo.ts], [repositories/products.repo.ts]) and the
    two services ([services/sales.service.ts],
    [services/products.service.ts]) with their checks, their sale totals and
    their sync placeholders.

    Conventions of the embedding.
    - A JavaScript call that may [throw] returns an [outcome]; the thrown
      [Error] is represented by its [message].
    - An [async] function is run up to the point where its caller gets its
      result. The promise that [initializeDatabase] stores is [pending],
      with the answers the platform is going to give it, until something
      awaits it; the [await] runs its body and leaves it [fulfilled], or
      nulled by the body's [catch]. Calls are taken one at a time.
    - A number column gives back what SQLite keeps of the JavaScript number
      written to it: NaN is bound as NULL and refused by a NOT NULL column,
      a zero of either sign is read back as 0, any other number as written.
    - What the platform decides (the result of opening the database file, of
      executing a statement, the value of [uuid.v4()], of [new Date()] and of
      SQLite's [datetime('now')]) is an explicit argument of the function
      that asks for it.
    - A table is the list of its rows; [WHERE] is [filter], [UPDATE .. SET]
      is [map], [LIMIT 1] followed by [[0]] is the head of the list. *)

From Stdlib Require Import Ascii String List Bool PrimFloat.
From Stdlib Require FloatOps FloatAxioms SpecFloat BinInt BinPos.
Import ListNotations.
Local Open Scope string_scope.
#[local] Set Warnings "-inexact-float".

(** ** Results of calls that may throw *)

Inductive outcome (A : Type) : Type :=
| Returns (value : A)
| Throws (message : string).
Arguments Returns {A} value.
Arguments Throws {A} message.

Definition isNone {A : Type} (o : option A) : bool :=
  match o with
  | None => true
  | Some _ => false
  end.

(** ** db/migrations.ts *)

Module Migrations.

(** The seven statements of [runMigrations], in the order they are run. *)
Inductive statement : Type :=
| create_table_products
| create_table_sales
| idx_products_deleted_at
| idx_products_sync_status
| idx_sales_deleted_at
| idx_sales_sync_status
| idx_sales_product_id.

Definition statements : list statement :=
  [ create_table_products; create_table_sales;
    idx_products_deleted_at; idx_products_sync_status;
    idx_sales_deleted_at; idx_sales_sync_status; idx_sales_product_id ].

(** [await db.execAsync(..)] for each statement in turn; the [catch] logs
    and rethrows the first failure. *)
Fixpoint execAll (execAsync : statement -> outcome unit)
                 (todo : list statement) : outcome unit :=
  match todo with
  | [] => Returns tt
  | st :: rest =>
      match execAsync st with
      | Returns _ => execAll execAsync rest
      | Throws m => Throws m
      end
  end.

Definition runMigrations (execAsync : statement -> outcome unit)
  : outcome unit :=
  execAll execAsync statements.

End Migrations.

(** ** db/client.ts *)

Module Client.

(** The handle returned by [SQLite.openDatabaseAsync]: the file it opened. *)
Definition SQLiteDatabase : Type := string.

(** What the platform answers during one initialization attempt. *)
Record platform : Type := {
  openDatabaseAsync : string -> outcome SQLiteDatabase;
  execAsync : Migrations.statement -> outcome unit
}.

(** The promise of the [async] arrow function of [initializeDatabase]:
    [pending] while nothing has awaited it, with what the platform will
    answer to its body; [fulfilled] once its body has run to its end. A
    rejected promise is never in the variable: the body's [catch] nulls the
    variable before the promise rejects. *)
Inductive promise : Type :=
| pending (answers : platform)
| fulfilled.

(** The four module-level variables. *)
Record state : Type := {
  sqliteDb : option SQLiteDatabase;
  drizzleDb : option SQLiteDatabase;
  isInitialized : bool;
  initializationPromise : option promise
}.

(** The values the variables are declared with, which are also the values
    the [catch] block of [initializeDatabase] writes back. *)
Definition initial : state :=
  {| sqliteDb := None; drizzleDb := None;
     isInitialized := false; initializationPromise := None |}.

(** The body of the [async] arrow function inside [initializeDatabase], run
    to its end: it assigns [sqliteDb], [drizzleDb] and, after the
    migrations, [isInitialized], and its promise is then fulfilled; its
    [catch] writes the initial values back, nulling the variable that held
    its promise, and rethrows. *)
Definition runInitialization (p : platform) : outcome unit * state :=
  match openDatabaseAsync p "app.db" with
  | Throws _ => (Throws "Failed to initialize database", initial)
  | Returns h =>
      match Migrations.runMigrations (execAsync p) with
      | Throws _ => (Throws "Failed to initialize database", initial)
      | Returns _ =>
          (Returns tt,
           {| sqliteDb := Some h; drizzleDb := Some h;
              isInitialized := true;
              initializationPromise := Some fulfilled |})
      end
  end.

(** [await initializationPromise]: a pending promise runs its body to the
    end, which leaves the variables as the body sets them; a fulfilled one
    gives its value at once. *)
Definition awaitInitialization (s : state) : outcome unit * state :=
  match initializationPromise s with
  | Some (pending answers) => runInitialization answers
  | Some fulfilled => (Returns tt, s)
  | None => (Returns tt, s)
  end.

(** A call of [initializeDatabase] up to its [return]: the stored promise
    if there is one, nothing new if the client is initialized, and else a
    new promise, stored, whose body will get the answers [p]. *)
Definition startInitialization (p : platform) (s : state) : state :=
  match initializationPromise s with
  | Some _ => s
  | None =>
      if isInitialized s then s
      else {| sqliteDb := sqliteDb s; drizzleDb := drizzleDb s;
              isInitialized := isInitialized s;
              initializationPromise := Some (pending p) |}
  end.

(** [await initializeDatabase()], as [App.tsx] calls it. *)
Definition initializeDatabase (p : platform) (s : state)
  : outcome unit * state :=
  awaitInitialization (startInitialization p s).

(** The first statement of [ensureDBReady]: the wait for an initialization
    in progress. *)
Definition waitIfInProgress (s : state) : outcome unit * state :=
  match initializationPromise s with
  | Some _ =>
      if negb (isInitialized s) then awaitInitialization s
      else (Returns tt, s)
  | None => (Returns tt, s)
  end.

(** [ensureDBReady]: its result; the variables after it are those after
    [waitIfInProgress]. *)
Definition ensureDBReady (s : state) : outcome unit :=
  match waitIfInProgress s with
  | (Throws m, _) => Throws m
  | (Returns _, s') =>
      if negb (isInitialized s') || isNone (drizzleDb s')
      then Throws "[Database] Not ready. Call initializeDatabase() in App.tsx first."
      else Returns tt
  end.

Definition getDB (s : state) : outcome SQLiteDatabase :=
  match drizzleDb s with
  | Some d =>
      if isInitialized s then Returns d
      else Throws "[Database] Not initialized. Call ensureDBReady() before getDB()."
  | None => Throws "[Database] Not initialized. Call ensureDBReady() before getDB()."
  end.

Definition getSQLiteDB (s : state) : outcome SQLiteDatabase :=
  match sqliteDb s with
  | Some d =>
      if isInitialized s then Returns d
      else Throws "[Database] Not initialized"
  | None => Throws "[Database] Not initialized"
  end.


(** Platforms used in examples. *)
Definition working : platform :=
  {| openDatabaseAsync := fun name => Returns name;
     execAsync := fun _ => Returns tt |}.

Definition broken_migrations : platform :=
  {| openDatabaseAsync := fun name => Returns name;
     execAsync := fun st =>
       match st with
       | Migrations.create_table_sales => Throws "disk I/O error"
       | _ => Returns tt
       end |}.

Definition broken_open : platform :=
  {| openDatabaseAsync := fun _ => Throws "unable to open database file";
     execAsync := fun _ => Returns tt |}.

End Client.

(** ** Numbers in the database *)

Module Number.

(** SQLite binds the JavaScript number NaN as NULL. *)
Definition is_null (x : float) : bool := PrimFloat.is_nan x.

(** What a column gives back for a number written to it: a zero of either
    sign is kept as the integer 0 and read as +0; any other number is read
    as written. *)
Definition stored (x : float) : float :=
  if PrimFloat.eqb 0 x then 0%float else x.

(** The number an optional key holds, if any, is not bound as NULL. *)
Definition given_not_null (o : option float) : bool :=
  match o with
  | Some x => negb (is_null x)
  | None => true
  end.

End Number.

(** ** db/schema.ts *)

Inductive SyncStatus : Type := pending | synced.

Definition SyncStatus_eqb (a b : SyncStatus) : bool :=
  match a, b with
  | pending, pending | synced, synced => true
  | _, _ => false
  end.

(** [o ?? d]: the value of an optional key of an object literal, [d] when the
    key is absent. *)
Definition or_else {A : Type} (o : option A) (d : A) : A :=
  match o with
  | Some a => a
  | None => d
  end.

(** A row of [products]. [real] columns and JavaScript [number]s are binary64
    floats; [text] columns are strings; the nullable [deleted_at] is an
    option. *)
Module Product.

Record t : Type := {
  id : string;
  name : string;
  price : float;
  created_at : string;
  updated_at : string;
  deleted_at : option string;
  sync_status : SyncStatus
}.

(** [Omit<NewProduct, 'id' | 'created_at' | 'updated_at' | 'deleted_at' |
    'sync_status'>]: what [createProduct] is given. *)
Module New.
Record t : Type := { name : string; price : float }.
End New.

(** [Partial<Omit<Product, 'id' | 'created_at' | 'deleted_at'>>]: what
    [updateProduct] is given. *)
Module Patch.
Record t : Type := {
  name : option string;
  price : option float;
  updated_at : option string;
  sync_status : option SyncStatus
}.
End Patch.

(** [.set(values)] applied to one row: the keys present in [values]
    replace the row's columns. *)
Definition set (values : Patch.t) (r : t) : t :=
  {| id := id r;
     name := or_else (Patch.name values) (name r);
     price := or_else (Patch.price values) (price r);
     created_at := created_at r;
     updated_at := or_else (Patch.updated_at values) (updated_at r);
     deleted_at := deleted_at r;
     sync_status := or_else (Patch.sync_status values) (sync_status r) |}.

(** The NOT NULL constraint of [price]. *)
Definition not_null (r : t) : bool := negb (Number.is_null (price r)).

(** The row as the table keeps it. *)
Definition stored (r : t) : t :=
  {| id := id r;
     name := name r;
     price := Number.stored (price r);
     created_at := created_at r;
     updated_at := updated_at r;
     deleted_at := deleted_at r;
     sync_status := sync_status r |}.

(** The same for the values of a [.set(values)]. *)
Definition values_not_null (values : Patch.t) : bool :=
  Number.given_not_null (Patch.price values).

Definition stored_values (values : Patch.t) : Patch.t :=
  {| Patch.name := Patch.name values;
     Patch.price := option_map Number.stored (Patch.price values);
     Patch.updated_at := Patch.updated_at values;
     Patch.sync_status := Patch.sync_status values |}.

End Product.

(** A row of [sales]. [quantity] is an [integer] column that the code reads
    and writes as a JavaScript [number]. *)
Module Sale.

Record t : Type := {
  id : string;
  product_id : string;
  quantity : float;
  total : float;
  created_at : string;
  updated_at : string;
  deleted_at : option string;
  sync_status : SyncStatus
}.

Module New.
Record t : Type := {
  product_id : string;
  quantity : float;
  total : float
}.
End New.

Module Patch.
Record t : Type := {
  product_id : option string;
  quantity : option float;
  total : option float;
  updated_at : option string;
  sync_status : option SyncStatus
}.
End Patch.

Definition set (values : Patch.t) (r : t) : t :=
  {| id := id r;
     product_id := or_else (Patch.product_id values) (product_id r);
     quantity := or_else (Patch.quantity values) (quantity r);
     total := or_else (Patch.total values) (total r);
     created_at := created_at r;
     updated_at := or_else (Patch.updated_at values) (updated_at r);
     deleted_at := deleted_at r;
     sync_status := or_else (Patch.sync_status values) (sync_status r) |}.

(** The NOT NULL constraints of [quantity] and [total]. *)
Definition not_null (r : t) : bool :=
  negb (Number.is_null (quantity r)) && negb (Number.is_null (total r)).

(** The row as the table keeps it. *)
Definition stored (r : t) : t :=
  {| id := id r;
     product_id := product_id r;
     quantity := Number.stored (quantity r);
     total := Number.stored (total r);
     created_at := created_at r;
     updated_at := updated_at r;
     deleted_at := deleted_at r;
     sync_status := sync_status r |}.

(** The same for the values of a [.set(values)]. *)
Definition values_not_null (values : Patch.t) : bool :=
  Number.given_not_null (Patch.quantity values)
  && Number.given_not_null (Patch.total values).

Definition stored_values (values : Patch.t) : Patch.t :=
  {| Patch.product_id := Patch.product_id values;
     Patch.quantity := option_map Number.stored (Patch.quantity values);
     Patch.total := option_map Number.stored (Patch.total values);
     Patch.updated_at := Patch.updated_at values;
     Patch.sync_status := Patch.sync_status values |}.

End Sale.

(** ** The query builder, on tables as lists of rows *)

Module Sql.
Section Rows.
Context {R : Type}.

(** [db.select().from(t).where(cond)] *)
Definition select (cond : R -> bool) (t : list R) : list R :=
  filter cond t.

(** [.limit(n)] *)
Definition limit (n : nat) (rows : list R) : list R := firstn n rows.

(** [rows[0]], [undefined] on an empty array. *)
Definition first (rows : list R) : option R := hd_error rows.

(** [db.update(t).set(..).where(cond)], [change] being the effect of the
    [set] on one row. *)
Definition update (change : R -> R) (cond : R -> bool) (t : list R)
  : list R :=
  map (fun r => if cond r then change r else r) t.

(** [db.update(t).set(values).where(cond)] when [values] holds numbers:
    [not_null] tells whether none of them is bound as NULL. A NULL makes
    the statement fail on the first row it has to write, and the statement
    then writes nothing; with no row to write there is nothing to fail.
    The message stands for the text of the driver's error. *)
Definition update_set (not_null : bool) (change : R -> R) (cond : R -> bool)
    (t : list R) : outcome (list R) :=
  if not_null then Returns (update change cond t)
  else if existsb cond t then Throws "NOT NULL constraint failed"
  else Returns t.

(** [db.delete(t).where(cond)] *)
Definition delete (cond : R -> bool) (t : list R) : list R :=
  filter (fun r => negb (cond r)) t.

(** [db.insert(t).values(row)] into a table whose primary key is [key],
    whose NOT NULL constraints [row] meets when [not_null row], and which
    keeps [row] as [stored row]. The message stands for the text of the
    driver's error, which no caller inspects. *)
Definition insert (key : R -> string) (not_null : R -> bool)
    (stored : R -> R) (row : R) (t : list R) : outcome (list R) :=
  if negb (not_null row) then Throws "NOT NULL constraint failed"
  else if existsb (fun r => String.eqb (key r) (key row)) t
  then Throws "UNIQUE constraint failed"
  else Returns (t ++ [stored row])%list.
End Rows.
End Sql.

(** ** The process and its database file *)

Record World : Type := {
  client : Client.state;
  products : list Product.t;
  sales : list Sale.t
}.

Definition with_sales (w : World) (t : list Sale.t) : World :=
  {| client := client w; products := products w; sales := t |}.

Definition with_products (w : World) (t : list Product.t) : World :=
  {| client := client w; products := t; sales := sales w |}.

Definition with_client (w : World) (c : Client.state) : World :=
  {| client := c; products := products w; sales := sales w |}.

(** A computation that reads and writes the world and may throw; what it
    wrote before throwing stays written. *)
Definition M (A : Type) : Type := World -> outcome A * World.

Definition ret {A : Type} (a : A) : M A := fun w => (Returns a, w).

Definition throw {A : Type} (message : string) : M A :=
  fun w => (Throws message, w).

Definition bind {A B : Type} (c : M A) (k : A -> M B) : M B :=
  fun w =>
    match c w with
    | (Returns a, w') => k a w'
    | (Throws m, w') => (Throws m, w')
    end.

(** [try { c } catch (error) { handler error.message }] *)
Definition try_catch {A : Type} (c : M A) (handler : string -> M A) : M A :=
  fun w =>
    match c w with
    | (Returns a, w') => (Returns a, w')
    | (Throws m, w') => handler m w'
    end.

Declare Scope js_scope.
Delimit Scope js_scope with js.
Notation "x <- c ;; k" := (bind c (fun x => k))
  (at level 61, c at next level, right associativity) : js_scope.
Notation "c ;; k" := (bind c (fun _ => k))
  (at level 61, right associativity) : js_scope.
Local Open Scope js_scope.

Definition ensureDBReady : M unit :=
  fun w =>
    (Client.ensureDBReady (client w),
     with_client w (snd (Client.waitIfInProgress (client w)))).

Definition getDB : M Client.SQLiteDatabase :=
  fun w => (Client.getDB (client w), w).

Definition initializeDatabase (p : Client.platform) : M unit :=
  fun w =>
    let (r, c) := Client.initializeDatabase p (client w) in
    (r, {| client := c; products := products w; sales := sales w |}).

(** ** repositories/sales.repo.ts *)

Module SalesRepo.

(** Running a query against the [sales] table. *)
Definition query {A : Type} (q : list Sale.t -> A) : M A :=
  fun w => (Returns (q (sales w)), w).

Definition execute (stmt : list Sale.t -> outcome (list Sale.t)) : M unit :=
  fun w =>
    match stmt (sales w) with
    | Returns t' => (Returns tt, with_sales w t')
    | Throws m => (Throws m, w)
    end.

(** [eq(sales.id, id)] *)
Definition id_is (id : string) (r : Sale.t) : bool :=
  String.eqb (Sale.id r) id.

(** [isNull(sales.deleted_at)] *)
Definition not_deleted (r : Sale.t) : bool := isNone (Sale.deleted_at r).

(** The row [insert] is given for [{ id: uuid.v4(), ...data, sync_status:
    'pending' }]: the columns left out take their defaults, both timestamps
    [datetime('now')] and [deleted_at] NULL. *)
Definition newSale (uuid_v4 datetime_now : string) (data : Sale.New.t)
  : Sale.t :=
  {| Sale.id := uuid_v4;
     Sale.product_id := Sale.New.product_id data;
     Sale.quantity := Sale.New.quantity data;
     Sale.total := Sale.New.total data;
     Sale.created_at := datetime_now;
     Sale.updated_at := datetime_now;
     Sale.deleted_at := None;
     Sale.sync_status := pending |}.

Definition createSale (uuid_v4 datetime_now : string) (data : Sale.New.t)
  : M (option Sale.t) :=
  ensureDBReady ;;
  _ <- getDB ;;
  let row := newSale uuid_v4 datetime_now data in
  execute (Sql.insert Sale.id Sale.not_null Sale.stored row) ;;
  created <- query (fun t => Sql.limit 1 (Sql.select (id_is (Sale.id row)) t)) ;;
  ret (Sql.first created).

Definition getAllSales : M (list Sale.t) :=
  ensureDBReady ;;
  _ <- getDB ;;
  query (Sql.select not_deleted).

Definition getSaleById (id : string) (includeDeleted : bool)
  : M (option Sale.t) :=
  ensureDBReady ;;
  _ <- getDB ;;
  result <-
    (if includeDeleted
     then query (fun t => Sql.limit 1 (Sql.select (id_is id) t))
     else query (fun t =>
            Sql.limit 1
              (Sql.select (fun r => id_is id r && not_deleted r) t))) ;;
  ret (Sql.first result).

Definition getSalesByProductId (productId : string) : M (list Sale.t) :=
  ensureDBReady ;;
  _ <- getDB ;;
  query (Sql.select
           (fun r => String.eqb (Sale.product_id r) productId
                     && not_deleted r)).

(** [{ ...data, updated_at: new Date().toISOString(), sync_status:
    'pending' }]: the two keys written last win over the ones of [data]. *)
Definition stamped (data : Sale.Patch.t) (now : string) : Sale.Patch.t :=
  {| Sale.Patch.product_id := Sale.Patch.product_id data;
     Sale.Patch.quantity := Sale.Patch.quantity data;
     Sale.Patch.total := Sale.Patch.total data;
     Sale.Patch.updated_at := Some now;
     Sale.Patch.sync_status := Some pending |}.

Definition updateSale (now : string) (id : string) (data : Sale.Patch.t)
  : M Sale.t :=
  ensureDBReady ;;
  _ <- getDB ;;
  execute
    (Sql.update_set (Sale.values_not_null (stamped data now))
       (Sale.set (Sale.stored_values (stamped data now))) (id_is id)) ;;
  updated <- getSaleById id false ;;
  match updated with
  | None => throw ("Sale " ++ id ++ " not found after update")
  | Some r => ret r
  end.

(** [.set({ deleted_at: .., updated_at: .., sync_status: 'pending' })] on
    one row; the two timestamps come from two readings of the clock. *)
Definition mark_deleted (now1 now2 : string) (r : Sale.t) : Sale.t :=
  {| Sale.id := Sale.id r;
     Sale.product_id := Sale.product_id r;
     Sale.quantity := Sale.quantity r;
     Sale.total := Sale.total r;
     Sale.created_at := Sale.created_at r;
     Sale.updated_at := now2;
     Sale.deleted_at := Some now1;
     Sale.sync_status := pending |}.

Definition deleteSale (now1 now2 : string) (id : string) : M unit :=
  ensureDBReady ;;
  _ <- getDB ;;
  execute (fun t => Returns (Sql.update (mark_deleted now1 now2) (id_is id) t)).

Definition hardDeleteSale (id : string) : M unit :=
  ensureDBReady ;;
  _ <- getDB ;;
  execute (fun t => Returns (Sql.delete (id_is id) t)).

Definition getUnsyncedSales : M (list Sale.t) :=
  ensureDBReady ;;
  _ <- getDB ;;
  query (Sql.select (fun r => SyncStatus_eqb (Sale.sync_status r) pending)).

(** [{ sync_status: 'synced' }] *)
Definition synced_only : Sale.Patch.t :=
  {| Sale.Patch.product_id := None;
     Sale.Patch.quantity := None;
     Sale.Patch.total := None;
     Sale.Patch.updated_at := None;
     Sale.Patch.sync_status := Some synced |}.

Definition markSaleAsSynced (id : string) : M unit :=
  ensureDBReady ;;
  _ <- getDB ;;
  execute (fun t => Returns (Sql.update (Sale.set synced_only) (id_is id) t)).

(** The [product] object of a joined row: the three selected columns of the
    matching [products] row. *)
Record ProductInfo : Type := {
  info_id : string;
  info_name : string;
  info_price : float
}.

(** A row of [getAllSalesWithProducts]: the columns of the sale and, under
    [product], those of the joined product; [None] stands for the NULL
    columns of a sale that the [LEFT JOIN] matched with no product. *)
Record SaleWithProduct : Type := {
  sale : Sale.t;
  product : option ProductInfo
}.

(** [.from(sales).leftJoin(products, eq(sales.product_id, products.id))]:
    every sale paired with each product whose id it references, or with
    NULLs when there is none. *)
Definition leftJoin (ss : list Sale.t) (ps : list Product.t)
  : list (Sale.t * option Product.t) :=
  flat_map
    (fun s =>
       match Sql.select
               (fun p => String.eqb (Sale.product_id s) (Product.id p)) ps
       with
       | [] => [(s, None)]
       | matches => map (fun p => (s, Some p)) matches
       end)
    ss.

(** [sales.deleted_at IS NULL AND products.deleted_at IS NULL], on a joined
    row; the columns of a missing product are NULL. *)
Definition both_not_deleted (row : Sale.t * option Product.t) : bool :=
  not_deleted (fst row) &&
  match snd row with
  | Some p => isNone (Product.deleted_at p)
  | None => true
  end.

(** The [.select({ .. })] projection of a joined row. *)
Definition project (row : Sale.t * option Product.t) : SaleWithProduct :=
  {| sale := fst row;
     product :=
       match snd row with
       | Some p =>
           Some {| info_id := Product.id p;
                   info_name := Product.name p;
                   info_price := Product.price p |}
       | None => None
       end |}.

Definition getAllSalesWithProducts : M (list SaleWithProduct) :=
  ensureDBReady ;;
  _ <- getDB ;;
  fun w =>
    (Returns
       (map project
          (Sql.select both_not_deleted (leftJoin (sales w) (products w)))),
     w).

End SalesRepo.

(** ** repositories/products.repo.ts *)

Module ProductsRepo.

(** Running a query against the [products] table. *)
Definition query {A : Type} (q : list Product.t -> A) : M A :=
  fun w => (Returns (q (products w)), w).

Definition execute (stmt : list Product.t -> outcome (list Product.t)) : M unit :=
  fun w =>
    match stmt (products w) with
    | Returns t' => (Returns tt, with_products w t')
    | Throws m => (Throws m, w)
    end.

(** [eq(products.id, id)] *)
Definition id_is (id : string) (r : Product.t) : bool :=
  String.eqb (Product.id r) id.

(** [isNull(products.deleted_at)] *)
Definition not_deleted (r : Product.t) : bool := isNone (Product.deleted_at r).

(** The row [insert] is given for [{ id: uuid.v4(), ...data, sync_status:
    'pending' }]: the columns left out take their defaults, both timestamps
    [datetime('now')] and [deleted_at] NULL. *)
Definition newProduct (uuid_v4 datetime_now : string) (data : Product.New.t)
  : Product.t :=
  {| Product.id := uuid_v4;
     Product.name := Product.New.name data;
     Product.price := Product.New.price data;
     Product.created_at := datetime_now;
     Product.updated_at := datetime_now;
     Product.deleted_at := None;
     Product.sync_status := pending |}.

Definition createProduct (uuid_v4 datetime_now : string) (data : Product.New.t)
  : M (option Product.t) :=
  ensureDBReady ;;
  _ <- getDB ;;
  let row := newProduct uuid_v4 datetime_now data in
  execute (Sql.insert Product.id Product.not_null Product.stored row) ;;
  created <- query (fun t => Sql.limit 1 (Sql.select (id_is (Product.id row)) t)) ;;
  ret (Sql.first created).

Definition getAllProducts : M (list Product.t) :=
  ensureDBReady ;;
  _ <- getDB ;;
  query (Sql.select not_deleted).

Definition getProductById (id : string) (includeDeleted : bool)
  : M (option Product.t) :=
  ensureDBReady ;;
  _ <- getDB ;;
  result <-
    (if includeDeleted
     then query (fun t => Sql.limit 1 (Sql.select (id_is id) t))
     else query (fun t =>
            Sql.limit 1
              (Sql.select (fun r => id_is id r && not_deleted r) t))) ;;
  ret (Sql.first result).

(** [{ ...data, updated_at: new Date().toISOString(), sync_status:
    'pending' }]: the two keys written last win over the ones of [data]. *)
Definition stamped (data : Product.Patch.t) (now : string) : Product.Patch.t :=
  {| Product.Patch.name := Product.Patch.name data;
     Product.Patch.price := Product.Patch.price data;
     Product.Patch.updated_at := Some now;
     Product.Patch.sync_status := Some pending |}.

Definition updateProduct (now : string) (id : string) (data : Product.Patch.t)
  : M Product.t :=
  ensureDBReady ;;
  _ <- getDB ;;
  execute
    (Sql.update_set (Product.values_not_null (stamped data now))
       (Product.set (Product.stored_values (stamped data now)))
       (id_is id)) ;;
  updated <- getProductById id false ;;
  match updated with
  | None => throw ("Product " ++ id ++ " not found after update")
  | Some r => ret r
  end.

(** [.set({ deleted_at: .., updated_at: .., sync_status: 'pending' })] on
    one row; the two timestamps come from two readings of the clock. *)
Definition mark_deleted (now1 now2 : string) (r : Product.t) : Product.t :=
  {| Product.id := Product.id r;
     Product.name := Product.name r;
     Product.price := Product.price r;
     Product.created_at := Product.created_at r;
     Product.updated_at := now2;
     Product.deleted_at := Some now1;
     Product.sync_status := pending |}.

Definition deleteProduct (now1 now2 : string) (id : string) : M unit :=
  ensureDBReady ;;
  _ <- getDB ;;
  execute (fun t => Returns (Sql.update (mark_deleted now1 now2) (id_is id) t)).

Definition hardDeleteProduct (id : string) : M unit :=
  ensureDBReady ;;
  _ <- getDB ;;
  execute (fun t => Returns (Sql.delete (id_is id) t)).

Definition getUnsyncedProducts : M (list Product.t) :=
  ensureDBReady ;;
  _ <- getDB ;;
  query (Sql.select (fun r => SyncStatus_eqb (Product.sync_status r) pending)).

(** [{ sync_status: 'synced' }] *)
Definition synced_only : Product.Patch.t :=
  {| Product.Patch.name := None;
     Product.Patch.price := None;
     Product.Patch.updated_at := None;
     Product.Patch.sync_status := Some synced |}.

Definition markProductAsSynced (id : string) : M unit :=
  ensureDBReady ;;
  _ <- getDB ;;
  execute (fun t => Returns (Sql.update (Product.set synced_only) (id_is id) t)).

End ProductsRepo.

(** ** The service layer: sale totals and the sync placeholders *)

Module SalesService.

Definition createSale (uuid_v4 datetime_now : string)
                      (productId : string) (quantity : float)
  : M (option Sale.t) :=
  if PrimFloat.leb quantity 0 then throw "Quantity must be greater than 0"
  else
    try_catch
      (product <- ProductsRepo.getProductById productId false ;;
       match product with
       | None => throw "Product not found"
       | Some p =>
           let total := PrimFloat.mul quantity (Product.price p) in
           SalesRepo.createSale uuid_v4 datetime_now
             {| Sale.New.product_id := productId;
                Sale.New.quantity := quantity;
                Sale.New.total := total |}
       end)
      (fun message =>
         if String.eqb message "Product not found" then throw message
         else throw "Failed to create sale. Please try again.").

Definition getAllSales : M (list Sale.t) :=
  try_catch SalesRepo.getAllSales
    (fun _ => throw "Failed to load sales. Please try again.").

Definition getAllSalesWithProducts : M (list SalesRepo.SaleWithProduct) :=
  try_catch SalesRepo.getAllSalesWithProducts
    (fun _ => throw "Failed to load sales. Please try again.").

(** The [throw new Error('Sale not found')] sits inside the [try]; the
    [catch] replaces whatever was thrown. *)
Definition getSaleById (id : string) : M Sale.t :=
  try_catch
    (sale <- SalesRepo.getSaleById id false ;;
     match sale with
     | None => throw "Sale not found"
     | Some s => ret s
     end)
    (fun _ => throw "Failed to load sale. Please try again.").

Definition getSalesByProductId (productId : string) : M (list Sale.t) :=
  try_catch (SalesRepo.getSalesByProductId productId)
    (fun _ => throw "Failed to load product sales. Please try again.").

(** [updates: { product_id?: string; quantity?: number }] *)
Record SaleUpdates : Type := {
  upd_product_id : option string;
  upd_quantity : option float
}.

(** [updates.product_id || currentSale.product_id]: an absent or empty
    string gives way to the current product. *)
Definition product_for (updates : SaleUpdates) (currentSale : Sale.t)
  : string :=
  match upd_product_id updates with
  | Some pid => if String.eqb pid "" then Sale.product_id currentSale else pid
  | None => Sale.product_id currentSale
  end.

(** The [updateData] object built for the repository. *)
Definition updateData (updates : SaleUpdates) (currentSale : Sale.t)
    (p : Product.t) : Sale.Patch.t :=
  {| Sale.Patch.product_id := upd_product_id updates;
     Sale.Patch.quantity := upd_quantity updates;
     Sale.Patch.total :=
       if negb (isNone (upd_quantity updates))
          || negb (isNone (upd_product_id updates))
       then Some (PrimFloat.mul
                    (or_else (upd_quantity updates)
                             (Sale.quantity currentSale))
                    (Product.price p))
       else None;
     Sale.Patch.updated_at := None;
     Sale.Patch.sync_status := None |}.

Definition updateSale (now : string) (id : string) (updates : SaleUpdates)
  : M Sale.t :=
  if match upd_quantity updates with
     | Some q => PrimFloat.leb q 0
     | None => false
     end
  then throw "Quantity must be greater than 0"
  else
    try_catch
      (currentSale <- SalesRepo.getSaleById id false ;;
       match currentSale with
       | None => throw "Sale not found"
       | Some cur =>
           product <-
             ProductsRepo.getProductById (product_for updates cur) false ;;
           match product with
           | None => throw "Product not found"
           | Some p => SalesRepo.updateSale now id (updateData updates cur p)
           end
       end)
      (fun message =>
         if String.eqb message "Sale not found"
            || String.eqb message "Product not found"
         then throw message
         else throw "Failed to update sale. Please try again.").

Definition deleteSale (now1 now2 : string) (id : string) : M unit :=
  try_catch (SalesRepo.deleteSale now1 now2 id)
    (fun _ => throw "Failed to delete sale. Please try again.").

Definition getUnsyncedSales : M (list Sale.t) :=
  try_catch SalesRepo.getUnsyncedSales
    (fun _ => throw "Failed to load unsynced sales.").

(** The placeholder: logs that sync is not implemented and returns 0. *)
Definition syncSales : M float := ret 0%float.

End SalesService.

Module ProductsService.

(** [String.prototype.trim] is the platform's; the functions that call it
    take it as [trim]. *)
Definition createProduct (trim : string -> string)
    (uuid_v4 datetime_now : string) (name : string) (price : float)
  : M (option Product.t) :=
  if String.eqb name "" || String.eqb (trim name) ""
  then throw "Product name is required"
  else if PrimFloat.leb price 0
  then throw "Product price must be greater than 0"
  else
    try_catch
      (ProductsRepo.createProduct uuid_v4 datetime_now
         {| Product.New.name := trim name; Product.New.price := price |})
      (fun _ => throw "Failed to create product. Please try again.").

Definition getAllProducts : M (list Product.t) :=
  try_catch ProductsRepo.getAllProducts
    (fun _ => throw "Failed to load products. Please try again.").

Definition getProductById (id : string) : M Product.t :=
  try_catch
    (product <- ProductsRepo.getProductById id false ;;
     match product with
     | None => throw "Product not found"
     | Some p => ret p
     end)
    (fun _ => throw "Failed to load product. Please try again.").

(** [updates: { name?: string; price?: number }] *)
Record ProductUpdates : Type := {
  upd_name : option string;
  upd_price : option float
}.

Definition updateProduct (trim : string -> string) (now : string)
    (id : string) (updates : ProductUpdates) : M Product.t :=
  if match upd_name updates with
     | Some n => String.eqb (trim n) ""
     | None => false
     end
  then throw "Product name cannot be empty"
  else if match upd_price updates with
          | Some pr => PrimFloat.leb pr 0
          | None => false
          end
  then throw "Product price must be greater than 0"
  else
    try_catch
      (ProductsRepo.updateProduct now id
         {| Product.Patch.name := option_map trim (upd_name updates);
            Product.Patch.price := upd_price updates;
            Product.Patch.updated_at := None;
            Product.Patch.sync_status := None |})
      (fun _ => throw "Failed to update product. Please try again.").

Definition deleteProduct (now1 now2 : string) (id : string) : M unit :=
  try_catch (ProductsRepo.deleteProduct now1 now2 id)
    (fun _ => throw "Failed to delete product. Please try again.").

Definition getUnsyncedProducts : M (list Product.t) :=
  try_catch ProductsRepo.getUnsyncedProducts
    (fun _ => throw "Failed to load unsynced products.").

Definition syncProducts : M float := ret 0%float.

End ProductsService.

(** ** States of the client reached by calls to [initializeDatabase] *)

(** Each call is awaited before the next one. *)
Inductive reachable : Client.state -> Prop :=
| reachable_initial : reachable Client.initial
| reachable_init (p : Client.platform) (s : Client.state) :
    reachable s -> reachable (snd (Client.initializeDatabase p s)).

(** The client is ready: [isInitialized] is set and [drizzleDb] is not null. *)
Definition is_ready (s : Client.state) : bool :=
  Client.isInitialized s && negb (isNone (Client.drizzleDb s)).

Definition ready (w : World) : Prop := is_ready (client w) = true.

(** The world once the readiness wait is over: an initialization that was
    in progress has run to its end; the tables are those of [w]. *)
Definition settled (w : World) : World :=
  with_client w (snd (Client.waitIfInProgress (client w))).

(** No initialization is in progress: [settled w] is then [w]. *)
Definition idle (w : World) : Prop :=
  forall answers,
    Client.initializationPromise (client w) <> Some (Client.pending answers).


(** Worlds used in examples: a ready client over a small database. *)
Module Demo.

Definition ready_client : Client.state :=
  snd (Client.initializeDatabase Client.working Client.initial).

Definition widget : Product.t :=
  {| Product.id := "p1"; Product.name := "Widget"; Product.price := 9.99;
     Product.created_at := "2024-01-01 09:00:00";
     Product.updated_at := "2024-01-01 09:00:00";
     Product.deleted_at := None; Product.sync_status := synced |}.

Definition gadget : Product.t :=
  {| Product.id := "p2"; Product.name := "Gadget"; Product.price := 10;
     Product.created_at := "2024-01-02 09:00:00";
     Product.updated_at := "2024-01-03T08:00:00.000Z";
     Product.deleted_at := Some "2024-01-03T08:00:00.000Z";
     Product.sync_status := pending |}.

Definition sale1 : Sale.t :=
  {| Sale.id := "s1"; Sale.product_id := "p1"; Sale.quantity := 2;
     Sale.total := 19.98;
     Sale.created_at := "2024-01-01 10:00:00";
     Sale.updated_at := "2024-01-01 10:00:00";
     Sale.deleted_at := None; Sale.sync_status := pending |}.

Definition sale2 : Sale.t :=
  {| Sale.id := "s2"; Sale.product_id := "p1"; Sale.quantity := 3;
     Sale.total := 29.97;
     Sale.created_at := "2024-01-02 10:00:00";
     Sale.updated_at := "2024-01-04T12:00:00.000Z";
     Sale.deleted_at := Some "2024-01-04T12:00:00.000Z";
     Sale.sync_status := synced |}.

Definition world : World :=
  {| client := ready_client;
     products := [widget; gadget];
     sales := [sale1; sale2] |}.

End Demo.

(** ** Vocabulary of the statements *)

(** No row of the table carries this id. *)
Definition sale_absent (w : World) (id : string) : Prop :=
  forall r, In r (sales w) -> Sale.id r <> id.

Definition product_absent (w : World) (id : string) : Prop :=
  forall r, In r (products w) -> Product.id r <> id.

(** [new] keeps every column of [old] except, possibly, [sync_status]. *)
Definition sale_kept_but_sync (old new : Sale.t) : Prop :=
  Sale.id new = Sale.id old /\
  Sale.product_id new = Sale.product_id old /\
  Sale.quantity new = Sale.quantity old /\
  Sale.total new = Sale.total old /\
  Sale.created_at new = Sale.created_at old /\
  Sale.updated_at new = Sale.updated_at old /\
  Sale.deleted_at new = Sale.deleted_at old.

Definition product_kept_but_sync (old new : Product.t) : Prop :=
  Product.id new = Product.id old /\
  Product.name new = Product.name old /\
  Product.price new = Product.price old /\
  Product.created_at new = Product.created_at old /\
  Product.updated_at new = Product.updated_at old /\
  Product.deleted_at new = Product.deleted_at old.

(** [new] keeps every column of [old] except, possibly, [deleted_at] and
    [updated_at]. *)
Definition sale_kept_but_stamps (old new : Sale.t) : Prop :=
  Sale.id new = Sale.id old /\
  Sale.product_id new = Sale.product_id old /\
  Sale.quantity new = Sale.quantity old /\
  Sale.total new = Sale.total old /\
  Sale.created_at new = Sale.created_at old /\
  Sale.sync_status new = Sale.sync_status old.

Definition product_kept_but_stamps (old new : Product.t) : Prop :=
  Product.id new = Product.id old /\
  Product.name new = Product.name old /\
  Product.price new = Product.price old /\
  Product.created_at new = Product.created_at old /\
  Product.sync_status new = Product.sync_status old.

(** The rows after a first soft delete of [id] (clock readings [a1], [a2])
    against the rows after a second one (clock readings [b1], [b2]): a row
    with that id keeps every column but the two stamps, which go from the
    first call's readings to the second call's; any other row is kept. *)
Definition sale_restamped (id a1 a2 b1 b2 : string) (first second : Sale.t)
  : Prop :=
  sale_kept_but_stamps first second /\
  (Sale.id first = id ->
   Sale.deleted_at first = Some a1 /\ Sale.updated_at first = a2 /\
   Sale.deleted_at second = Some b1 /\ Sale.updated_at second = b2) /\
  (Sale.id first <> id -> second = first).

Definition product_restamped (id a1 a2 b1 b2 : string)
    (first second : Product.t) : Prop :=
  product_kept_but_stamps first second /\
  (Product.id first = id ->
   Product.deleted_at first = Some a1 /\ Product.updated_at first = a2 /\
   Product.deleted_at second = Some b1 /\ Product.updated_at second = b2) /\
  (Product.id first <> id -> second = first).

(** Timestamps are compared as the strings they are stored as. *)
Definition not_before (earlier later : string) : Prop :=
  String.leb earlier later = true.

(** What a mutation of the rows with [id] at the clock reading [stamp]
    does to one row: a row with that id becomes pending with
    [updated_at = stamp], which is not before the value it replaces when
    the reading is not; any other row is kept. *)
Definition sale_refreshed (id stamp : string) (old new : Sale.t) : Prop :=
  (Sale.id old = id ->
   Sale.sync_status new = pending /\
   Sale.updated_at new = stamp /\
   (not_before (Sale.updated_at old) stamp ->
    not_before (Sale.updated_at old) (Sale.updated_at new))) /\
  (Sale.id old <> id -> new = old).

Definition product_refreshed (id stamp : string) (old new : Product.t)
  : Prop :=
  (Product.id old = id ->
   Product.sync_status new = pending /\
   Product.updated_at new = stamp /\
   (not_before (Product.updated_at old) stamp ->
    not_before (Product.updated_at old) (Product.updated_at new))) /\
  (Product.id old <> id -> new = old).

(** [read] is what a number column gives back for the number [written]:
    the same number, a zero of either sign being read as 0. *)
Definition read_back (written read : float) : Prop :=
  PrimFloat.eqb read written = true /\
  (PrimFloat.eqb 0 written = false -> read = written) /\
  (PrimFloat.eqb 0 written = true -> read = 0%float).

(** Inputs used in examples. *)
Module DemoInput.

Definition sale_fields : Sale.New.t :=
  {| Sale.New.product_id := "p1"; Sale.New.quantity := 5;
     Sale.New.total := 49.95 |}.

Definition product_fields : Product.New.t :=
  {| Product.New.name := "Gizmo"; Product.New.price := 2.5 |}.

(** A patch that tries to set [updated_at] and [sync_status] itself. *)
Definition sale_patch : Sale.Patch.t :=
  {| Sale.Patch.product_id := None;
     Sale.Patch.quantity := Some 7%float;
     Sale.Patch.total := Some 69.93%float;
     Sale.Patch.updated_at := Some "1999-12-31T23:59:59.000Z";
     Sale.Patch.sync_status := Some synced |}.

Definition product_patch : Product.Patch.t :=
  {| Product.Patch.name := Some "Widget v2";
     Product.Patch.price := None;
     Product.Patch.updated_at := None;
     Product.Patch.sync_status := Some synced |}.

(** A stand-in for [String.prototype.trim] on strings whose only white
    space is the ASCII space. *)
Fixpoint drop_spaces (s : string) : string :=
  match s with
  | String " "%char rest => drop_spaces rest
  | _ => s
  end.

Definition reverse (s : string) : string :=
  string_of_list_ascii (rev (list_ascii_of_string s)).

Definition trim (s : string) : string :=
  reverse (drop_spaces (reverse (drop_spaces s))).

Definition product_updates : ProductsService.ProductUpdates :=
  {| ProductsService.upd_name := Some " Widget v2 ";
     ProductsService.upd_price := None |}.

(** A world whose client was never initialized. *)
Definition cold_world : World :=
  {| client := Client.initial; products := [Demo.widget];
     sales := [] |}.

(** The demo database while [initializeDatabase] is in progress: called,
    not yet awaited, on a platform that works and on one that does not. *)
Definition starting_world : World :=
  with_client Demo.world
    (Client.startInitialization Client.working Client.initial).

Definition failing_world : World :=
  with_client Demo.world
    (Client.startInitialization Client.broken_migrations Client.initial).

Definition sale_updates : SalesService.SaleUpdates :=
  {| SalesService.upd_product_id := None;
     SalesService.upd_quantity := Some 5%float |}.


End DemoInput.

(** [new] is [old] with the same identity: same [id], same [created_at],
    and still soft-deleted if [old] was. *)
Definition sale_identity_kept (old new : Sale.t) : Prop :=
  Sale.id new = Sale.id old /\
  Sale.created_at new = Sale.created_at old /\
  (Sale.deleted_at old <> None -> Sale.deleted_at new <> None).

Definition product_identity_kept (old new : Product.t) : Prop :=
  Product.id new = Product.id old /\
  Product.created_at new = Product.created_at old /\
  (Product.deleted_at old <> None -> Product.deleted_at new <> None).

(** The primary key holds: no two rows of a table share an id. *)
Definition sales_keyed (w : World) : Prop := NoDup (map Sale.id (sales w)).

Definition products_keyed (w : World) : Prop :=
  NoDup (map Product.id (products w)).

(** * Properties *)

(** ** The client *)

Lemma runInitialization_cases (p : Client.platform) :
  (exists m, Client.runInitialization p = (Throws m, Client.initial)) \/
  (exists h, Client.runInitialization p =
     (Returns tt,
      {| Client.sqliteDb := Some h; Client.drizzleDb := Some h;
         Client.isInitialized := true;
         Client.initializationPromise := Some Client.fulfilled |})).
Proof.
  unfold Client.runInitialization.
  destruct (Client.openDatabaseAsync p "app.db") as [h | m].
  - destruct (Migrations.runMigrations (Client.execAsync p)) as [[] | m].
    + right. now exists h.
    + left. now eexists.
  - left. now eexists.
Qed.

(** Every reachable state is either the reset state or a ready state whose
    stored promise is fulfilled. *)
Lemma reachable_inv (s : Client.state) :
  reachable s ->
  s = Client.initial \/
  (Client.isInitialized s = true /\
   Client.initializationPromise s = Some Client.fulfilled /\
   exists h, Client.drizzleDb s = Some h).
Proof.
  induction 1 as [| p s Hs IH].
  - now left.
  - destruct IH as [-> | (Hi & Hp & h & Hd)].
    + cbn. destruct (runInitialization_cases p)
        as [[m ->] | [h ->]]; cbn.
      * now left.
      * right. repeat split. now exists h.
    + right.
      unfold Client.initializeDatabase, Client.startInitialization.
      rewrite Hp. unfold Client.awaitInitialization. rewrite Hp. cbn.
      repeat split; trivial. now exists h.
Qed.

(** With a fulfilled promise stored, [initializeDatabase] returns it. *)
Lemma initializeDatabase_fulfilled (p : Client.platform) (s : Client.state) :
  Client.initializationPromise s = Some Client.fulfilled ->
  Client.initializeDatabase p s = (Returns tt, s).
Proof.
  intros Hp.
  unfold Client.initializeDatabase, Client.startInitialization.
  rewrite Hp. unfold Client.awaitInitialization. now rewrite Hp.
Qed.

Lemma ensureDBReady_initial :
  Client.ensureDBReady Client.initial =
  Throws "[Database] Not ready. Call initializeDatabase() in App.tsx first.".
Proof. reflexivity. Qed.

(** A ready client has nothing to wait for. *)
Lemma waitIfInProgress_is_ready (s : Client.state) :
  is_ready s = true -> Client.waitIfInProgress s = (Returns tt, s).
Proof.
  unfold is_ready, Client.waitIfInProgress. intros H.
  apply andb_true_iff in H as [Hi _]. rewrite Hi.
  now destruct (Client.initializationPromise s).
Qed.

Lemma ensureDBReady_is_ready (s : Client.state) :
  is_ready s = true -> Client.ensureDBReady s = Returns tt.
Proof.
  intros H. unfold Client.ensureDBReady.
  rewrite (waitIfInProgress_is_ready _ H).
  unfold is_ready in H. apply andb_true_iff in H as [Hi Hd]. rewrite Hi.
  apply negb_true_iff in Hd. now rewrite Hd.
Qed.

Lemma getDB_is_ready (s : Client.state) :
  is_ready s = true -> exists d, Client.getDB s = Returns d.
Proof.
  unfold is_ready, Client.getDB. intros H.
  apply andb_true_iff in H as [Hi Hd]. rewrite Hi.
  destruct (Client.drizzleDb s) as [d |]; [now exists d | discriminate].
Qed.

(** The readiness wait ends with the client ready or with an error; what
    throws in the wait is a failed initialization, which has reset the
    client. *)
Lemma waitIfInProgress_throws (s : Client.state) (m : string) :
  fst (Client.waitIfInProgress s) = Throws m ->
  snd (Client.waitIfInProgress s) = Client.initial.
Proof.
  unfold Client.waitIfInProgress, Client.awaitInitialization.
  destruct (Client.initializationPromise s) as [[answers |] |];
    cbn; try discriminate.
  all: destruct (negb (Client.isInitialized s)); cbn; try discriminate.
  destruct (runInitialization_cases answers) as [[m' ->] | [h ->]];
    [reflexivity | discriminate].
Qed.

Lemma ensureDBReady_cases (s : Client.state) :
  (is_ready (snd (Client.waitIfInProgress s)) = true /\
   Client.ensureDBReady s = Returns tt) \/
  (is_ready (snd (Client.waitIfInProgress s)) = false /\
   exists m, Client.ensureDBReady s = Throws m).
Proof.
  unfold Client.ensureDBReady.
  destruct (Client.waitIfInProgress s) as [[[] | m] s'] eqn:E.
  - cbn [snd]. unfold is_ready.
    destruct (Client.isInitialized s'); cbn.
    + destruct (isNone (Client.drizzleDb s')); cbn.
      * right. split; [reflexivity | now eexists].
      * now left.
    + right. split; [reflexivity | now eexists].
  - right. split; [| now eexists].
    pose proof (waitIfInProgress_throws s m) as X. rewrite E in X.
    cbn [fst snd] in *. now rewrite X.
Qed.

(** ** Numbers *)

Lemma is_nan_spec (x : float) :
  PrimFloat.is_nan x = true <-> FloatOps.Prim2SF x = SpecFloat.S754_nan.
Proof.
  unfold PrimFloat.is_nan. rewrite negb_true_iff, FloatAxioms.eqb_spec.
  unfold SpecFloat.SFeqb.
  destruct (FloatOps.Prim2SF x) as [s | s | | s m e]; cbn.
  - destruct s; split; discriminate.
  - destruct s; split; discriminate.
  - split; reflexivity.
  - rewrite BinInt.Z.compare_refl, BinPos.Pos.compare_refl.
    destruct s; split; discriminate.
Qed.

(** A product is NaN when its first factor is. *)
Lemma mul_not_nan (x y : float) :
  PrimFloat.is_nan (PrimFloat.mul x y) = false -> PrimFloat.is_nan x = false.
Proof.
  intros H. destruct (PrimFloat.is_nan x) eqn:E; [| reflexivity].
  apply is_nan_spec in E.
  assert (X : PrimFloat.is_nan (PrimFloat.mul x y) = true).
  { apply is_nan_spec. rewrite FloatAxioms.mul_spec, E. reflexivity. }
  congruence.
Qed.

(** A zero, of either sign, does not pass the services' test [x <= 0]. *)
Lemma zero_is_not_positive (x : float) :
  PrimFloat.eqb 0 x = true -> PrimFloat.leb x 0 = true.
Proof.
  rewrite FloatAxioms.eqb_spec, FloatAxioms.leb_spec.
  unfold SpecFloat.SFeqb, SpecFloat.SFleb.
  change (FloatOps.Prim2SF 0) with (SpecFloat.S754_zero false).
  destruct (FloatOps.Prim2SF x) as [s | s | | s m e]; cbn;
    try discriminate; try reflexivity.
  all: destruct s; discriminate.
Qed.

Lemma stored_positive (x : float) :
  PrimFloat.leb x 0 = false -> Number.stored x = x.
Proof.
  intros H. unfold Number.stored.
  destruct (PrimFloat.eqb 0 x) eqn:E; [| reflexivity].
  apply zero_is_not_positive in E. congruence.
Qed.

Lemma stored_read_back (x : float) :
  Number.is_null x = false -> read_back x (Number.stored x).
Proof.
  unfold Number.is_null, PrimFloat.is_nan, Number.stored, read_back.
  intros H. apply negb_false_iff in H.
  destruct (PrimFloat.eqb 0 x) eqn:E.
  - split; [exact E |]. split; [discriminate | reflexivity].
  - split; [exact H |]. split; [reflexivity | discriminate].
Qed.

(** ** Tables *)

Section SqlFacts.
Context {R : Type}.
Implicit Types (t : list R) (cond : R -> bool) (change : R -> R).

Lemma update_no_match change cond t :
  (forall r, In r t -> cond r = false) -> Sql.update change cond t = t.
Proof.
  unfold Sql.update. induction t as [| r t IH]; intros H; cbn.
  - reflexivity.
  - rewrite (H r (or_introl eq_refl)), IH; [reflexivity |].
    intros r' Hr'. apply H. now right.
Qed.

Lemma delete_no_match cond t :
  (forall r, In r t -> cond r = false) -> Sql.delete cond t = t.
Proof.
  unfold Sql.delete. induction t as [| r t IH]; intros H; cbn.
  - reflexivity.
  - rewrite (H r (or_introl eq_refl)). cbn. rewrite IH; [reflexivity |].
    intros r' Hr'. apply H. now right.
Qed.

Lemma select_no_match cond t :
  (forall r, In r t -> cond r = false) -> Sql.select cond t = [].
Proof.
  unfold Sql.select. induction t as [| r t IH]; intros H; cbn.
  - reflexivity.
  - rewrite (H r (or_introl eq_refl)). apply IH.
    intros r' Hr'. apply H. now right.
Qed.

(** Row by row, an [UPDATE] changes the rows that satisfy its [WHERE] and
    keeps the others. *)
Lemma update_rows change cond t :
  Forall2 (fun old new => new = if cond old then change old else old)
          t (Sql.update change cond t).
Proof.
  unfold Sql.update. induction t as [| r t IH]; cbn; constructor; auto.
Qed.

Lemma update_update change1 change2 cond t :
  (forall r, cond (change1 r) = cond r) ->
  Sql.update change2 cond (Sql.update change1 cond t) =
  Sql.update (fun r => change2 (change1 r)) cond t.
Proof.
  intros Hc. unfold Sql.update. rewrite map_map. apply map_ext.
  intros r. destruct (cond r) eqn:E; [rewrite Hc |]; now rewrite E.
Qed.

Lemma Forall2_weaken (P Q : R -> R -> Prop) t t' :
  (forall a b, In a t -> P a b -> Q a b) ->
  Forall2 P t t' -> Forall2 Q t t'.
Proof.
  intros H F. induction F as [| a b l l' Hab F IH]; constructor.
  - apply H; [now left | exact Hab].
  - apply IH. intros a' b' Ha'. apply H. now right.
Qed.

Lemma insert_fresh (key : R -> string) (not_null : R -> bool)
    (stored : R -> R) (row : R) t :
  not_null row = true ->
  (forall r, In r t -> String.eqb (key r) (key row) = false) ->
  Sql.insert key not_null stored row t = Returns (t ++ [stored row])%list.
Proof.
  intros Hn H. unfold Sql.insert. rewrite Hn. cbn [negb].
  destruct (existsb (fun r => String.eqb (key r) (key row)) t) eqn:E;
    [| reflexivity].
  apply existsb_exists in E as (r & Hr & Er).
  rewrite (H r Hr) in Er. discriminate.
Qed.

Lemma select_appended cond (row : R) t :
  (forall r, In r t -> cond r = false) -> cond row = true ->
  Sql.select cond (t ++ [row]) = [row].
Proof.
  intros H Hrow. unfold Sql.select. rewrite filter_app.
  fold (Sql.select cond t). rewrite (select_no_match _ _ H).
  cbn. now rewrite Hrow.
Qed.

End SqlFacts.

(** ** The repositories on a ready client *)

Lemma with_client_same (w : World) : with_client w (client w) = w.
Proof. now destruct w. Qed.

Lemma settled_ready (w : World) : ready w -> settled w = w.
Proof.
  intros H. unfold settled. rewrite (waitIfInProgress_is_ready _ H).
  apply with_client_same.
Qed.

Lemma settled_idle (w : World) : idle w -> settled w = w.
Proof.
  intros H. unfold settled, Client.waitIfInProgress,
    Client.awaitInitialization.
  destruct (Client.initializationPromise (client w)) as [[answers |] |] eqn:E.
  - now destruct (H answers).
  - destruct (negb (Client.isInitialized (client w)));
      apply with_client_same.
  - apply with_client_same.
Qed.

Lemma ready_prelude {A : Type} (w : World) (k : M A) :
  ready w -> (ensureDBReady ;; _ <- getDB ;; k) w = k w.
Proof.
  intros H. unfold bind, ensureDBReady, getDB.
  rewrite (ensureDBReady_is_ready _ H). fold (settled w).
  rewrite (settled_ready w H).
  destruct (getDB_is_ready _ H) as [d ->]. reflexivity.
Qed.

(** A repository function waits for the client, then either runs its
    queries, on a ready client, or throws without touching the tables. *)
Lemma prelude_cases {A : Type} (w : World) (k : M A) :
  (ready (settled w) /\
   (ensureDBReady ;; _ <- getDB ;; k) w = k (settled w)) \/
  (is_ready (client (settled w)) = false /\
   exists m, (ensureDBReady ;; _ <- getDB ;; k) w = (Throws m, settled w)).
Proof.
  unfold bind, ensureDBReady. fold (settled w).
  destruct (ensureDBReady_cases (client w)) as [[H ->] | [H [m ->]]].
  - left. split; [exact H |]. unfold getDB.
    destruct (getDB_is_ready _ H) as [d Hd]. cbn [client settled with_client].
    now rewrite Hd.
  - right. split; [exact H | now exists m].
Qed.

Lemma ready_with_sales (w : World) (t : list Sale.t) :
  ready w -> ready (with_sales w t).
Proof. exact (fun H => H). Qed.

Lemma ready_with_products (w : World) (t : list Product.t) :
  ready w -> ready (with_products w t).
Proof. exact (fun H => H). Qed.

Lemma with_sales_same (w : World) : with_sales w (sales w) = w.
Proof. now destruct w. Qed.

Lemma with_products_same (w : World) : with_products w (products w) = w.
Proof. now destruct w. Qed.

Lemma ready_demo : ready Demo.world.
Proof. reflexivity. Qed.

Module SalesFacts.
Import SalesRepo.

Lemma deleteSale_run w now1 now2 id :
  ready w ->
  deleteSale now1 now2 id w =
  (Returns tt,
   with_sales w (Sql.update (mark_deleted now1 now2) (id_is id) (sales w))).
Proof. intros H. unfold deleteSale. now rewrite ready_prelude. Qed.

Lemma hardDeleteSale_run w id :
  ready w ->
  hardDeleteSale id w =
  (Returns tt, with_sales w (Sql.delete (id_is id) (sales w))).
Proof. intros H. unfold hardDeleteSale. now rewrite ready_prelude. Qed.

Lemma markSaleAsSynced_run w id :
  ready w ->
  markSaleAsSynced id w =
  (Returns tt,
   with_sales w (Sql.update (Sale.set synced_only) (id_is id) (sales w))).
Proof. intros H. unfold markSaleAsSynced. now rewrite ready_prelude. Qed.

Lemma getUnsyncedSales_run w :
  ready w ->
  getUnsyncedSales w =
  (Returns
     (Sql.select (fun r => SyncStatus_eqb (Sale.sync_status r) pending)
        (sales w)), w).
Proof. intros H. unfold getUnsyncedSales. now rewrite ready_prelude. Qed.

Lemma getSaleById_run w id :
  ready w ->
  getSaleById id false w =
  (Returns
     (Sql.first
        (Sql.limit 1
           (Sql.select (fun r => id_is id r && not_deleted r) (sales w)))),
   w).
Proof. intros H. unfold getSaleById. now rewrite ready_prelude. Qed.

Lemma updateSale_run w now id data :
  ready w ->
  Sale.values_not_null (stamped data now) = true ->
  let w' := with_sales w
              (Sql.update (Sale.set (Sale.stored_values (stamped data now)))
                 (id_is id) (sales w)) in
  updateSale now id data w =
  match Sql.first
          (Sql.limit 1
             (Sql.select (fun r => id_is id r && not_deleted r) (sales w')))
  with
  | Some r => (Returns r, w')
  | None => (Throws ("Sale " ++ id ++ " not found after update"), w')
  end.
Proof.
  intros H Hn w'. unfold updateSale. rewrite ready_prelude by exact H.
  unfold bind at 1. unfold execute, Sql.update_set. rewrite Hn. fold w'.
  unfold bind. rewrite getSaleById_run by exact H.
  now destruct (Sql.first _).
Qed.

(** A patch with a number the database binds as NULL: the [UPDATE] fails
    on a row with the id, and without such a row the read-back finds
    nothing; either way [updateSale] throws and nothing is written. *)
Lemma updateSale_refused w now id data :
  ready w ->
  Sale.values_not_null (stamped data now) = false ->
  updateSale now id data w =
  (Throws (if existsb (id_is id) (sales w)
           then "NOT NULL constraint failed"
           else "Sale " ++ id ++ " not found after update"), w).
Proof.
  intros H Hn. unfold updateSale. rewrite ready_prelude by exact H.
  unfold bind at 1. unfold execute, Sql.update_set. rewrite Hn.
  destruct (existsb (id_is id) (sales w)) eqn:E; [reflexivity |].
  rewrite with_sales_same. unfold bind.
  rewrite getSaleById_run by exact H.
  rewrite select_no_match; [reflexivity |].
  intros r Hr. destruct (id_is id r) eqn:Er; [| reflexivity].
  assert (X : existsb (id_is id) (sales w) = true)
    by (apply existsb_exists; now exists r).
  congruence.
Qed.

(** The table after [updateSale]: rewritten where the id matches, or, when
    the database refuses the patch, as it was. *)
Lemma updateSale_table w now id data :
  ready w ->
  snd (updateSale now id data w) =
  with_sales w
    (if Sale.values_not_null (stamped data now)
     then Sql.update (Sale.set (Sale.stored_values (stamped data now)))
            (id_is id) (sales w)
     else sales w).
Proof.
  intros H. destruct (Sale.values_not_null (stamped data now)) eqn:Hn.
  - pose proof (updateSale_run w now id data H Hn) as E. cbn zeta in E.
    rewrite E. now destruct (Sql.first _).
  - rewrite (updateSale_refused w now id data H Hn). cbn [snd].
    now rewrite with_sales_same.
Qed.

Lemma createSale_run w uuid_v4 datetime_now data :
  ready w ->
  Sale.not_null (newSale uuid_v4 datetime_now data) = true ->
  (forall r, In r (sales w) -> Sale.id r <> uuid_v4) ->
  let row := Sale.stored (newSale uuid_v4 datetime_now data) in
  createSale uuid_v4 datetime_now data w =
  (Returns (Some row), with_sales w (sales w ++ [row])).
Proof.
  intros H Hn Hfresh row. unfold createSale.
  rewrite ready_prelude by exact H.
  unfold bind, execute, query.
  assert (Hno : forall r, In r (sales w) -> id_is (Sale.id row) r = false).
  { intros r Hr. apply String.eqb_neq. now apply Hfresh. }
  rewrite (insert_fresh Sale.id Sale.not_null Sale.stored _ (sales w) Hn Hno).
  fold row. cbn [sales with_sales].
  change (Sale.id (newSale uuid_v4 datetime_now data)) with (Sale.id row).
  rewrite (select_appended _ row _ Hno); [reflexivity |].
  apply String.eqb_refl.
Qed.

End SalesFacts.

Module ProductsFacts.
Import ProductsRepo.

Lemma deleteProduct_run w now1 now2 id :
  ready w ->
  deleteProduct now1 now2 id w =
  (Returns tt,
   with_products w (Sql.update (mark_deleted now1 now2) (id_is id) (products w))).
Proof. intros H. unfold deleteProduct. now rewrite ready_prelude. Qed.

Lemma hardDeleteProduct_run w id :
  ready w ->
  hardDeleteProduct id w =
  (Returns tt, with_products w (Sql.delete (id_is id) (products w))).
Proof. intros H. unfold hardDeleteProduct. now rewrite ready_prelude. Qed.

Lemma markProductAsSynced_run w id :
  ready w ->
  markProductAsSynced id w =
  (Returns tt,
   with_products w (Sql.update (Product.set synced_only) (id_is id) (products w))).
Proof. intros H. unfold markProductAsSynced. now rewrite ready_prelude. Qed.

Lemma getUnsyncedProducts_run w :
  ready w ->
  getUnsyncedProducts w =
  (Returns
     (Sql.select (fun r => SyncStatus_eqb (Product.sync_status r) pending)
        (products w)), w).
Proof. intros H. unfold getUnsyncedProducts. now rewrite ready_prelude. Qed.

Lemma getProductById_run w id :
  ready w ->
  getProductById id false w =
  (Returns
     (Sql.first
        (Sql.limit 1
           (Sql.select (fun r => id_is id r && not_deleted r) (products w)))),
   w).
Proof. intros H. unfold getProductById. now rewrite ready_prelude. Qed.

Lemma updateProduct_run w now id data :
  ready w ->
  Product.values_not_null (stamped data now) = true ->
  let w' := with_products w
              (Sql.update (Product.set (Product.stored_values (stamped data now)))
                 (id_is id) (products w)) in
  updateProduct now id data w =
  match Sql.first
          (Sql.limit 1
             (Sql.select (fun r => id_is id r && not_deleted r) (products w')))
  with
  | Some r => (Returns r, w')
  | None => (Throws ("Product " ++ id ++ " not found after update"), w')
  end.
Proof.
  intros H Hn w'. unfold updateProduct. rewrite ready_prelude by exact H.
  unfold bind at 1. unfold execute, Sql.update_set. rewrite Hn. fold w'.
  unfold bind. rewrite getProductById_run by exact H.
  now destruct (Sql.first _).
Qed.

(** A patch with a number the database binds as NULL: the [UPDATE] fails
    on a row with the id, and without such a row the read-back finds
    nothing; either way [updateProduct] throws and nothing is written. *)
Lemma updateProduct_refused w now id data :
  ready w ->
  Product.values_not_null (stamped data now) = false ->
  updateProduct now id data w =
  (Throws (if existsb (id_is id) (products w)
           then "NOT NULL constraint failed"
           else "Product " ++ id ++ " not found after update"), w).
Proof.
  intros H Hn. unfold updateProduct. rewrite ready_prelude by exact H.
  unfold bind at 1. unfold execute, Sql.update_set. rewrite Hn.
  destruct (existsb (id_is id) (products w)) eqn:E; [reflexivity |].
  rewrite with_products_same. unfold bind.
  rewrite getProductById_run by exact H.
  rewrite select_no_match; [reflexivity |].
  intros r Hr. destruct (id_is id r) eqn:Er; [| reflexivity].
  assert (X : existsb (id_is id) (products w) = true)
    by (apply existsb_exists; now exists r).
  congruence.
Qed.

(** The table after [updateProduct]: rewritten where the id matches, or, when
    the database refuses the patch, as it was. *)
Lemma updateProduct_table w now id data :
  ready w ->
  snd (updateProduct now id data w) =
  with_products w
    (if Product.values_not_null (stamped data now)
     then Sql.update (Product.set (Product.stored_values (stamped data now)))
            (id_is id) (products w)
     else products w).
Proof.
  intros H. destruct (Product.values_not_null (stamped data now)) eqn:Hn.
  - pose proof (updateProduct_run w now id data H Hn) as E. cbn zeta in E.
    rewrite E. now destruct (Sql.first _).
  - rewrite (updateProduct_refused w now id data H Hn). cbn [snd].
    now rewrite with_products_same.
Qed.

Lemma createProduct_run w uuid_v4 datetime_now data :
  ready w ->
  Product.not_null (newProduct uuid_v4 datetime_now data) = true ->
  (forall r, In r (products w) -> Product.id r <> uuid_v4) ->
  let row := Product.stored (newProduct uuid_v4 datetime_now data) in
  createProduct uuid_v4 datetime_now data w =
  (Returns (Some row), with_products w (products w ++ [row])).
Proof.
  intros H Hn Hfresh row. unfold createProduct.
  rewrite ready_prelude by exact H.
  unfold bind, execute, query.
  assert (Hno : forall r, In r (products w) -> id_is (Product.id row) r = false).
  { intros r Hr. apply String.eqb_neq. now apply Hfresh. }
  rewrite (insert_fresh Product.id Product.not_null Product.stored _ (products w) Hn Hno).
  fold row. cbn [products with_products].
  change (Product.id (newProduct uuid_v4 datetime_now data)) with (Product.id row).
  rewrite (select_appended _ row _ Hno); [reflexivity |].
  apply String.eqb_refl.
Qed.

End ProductsFacts.

(** ** Operations on an id that matches no row *)

(** C10: on a ready client, when no row of [sales] has the given id,
    [deleteSale], [markSaleAsSynced] and [hardDeleteSale] each return
    without throwing and leave the whole world as it was. *)
Theorem C10_missing_id_is_a_silent_noop
    (w : World) (now1 now2 id : string) :
  ready w ->
  sale_absent w id ->
  SalesRepo.deleteSale now1 now2 id w = (Returns tt, w) /\
  SalesRepo.markSaleAsSynced id w = (Returns tt, w) /\
  SalesRepo.hardDeleteSale id w = (Returns tt, w).
Proof.
  intros H Habs.
  assert (Hno : forall r, In r (sales w) -> SalesRepo.id_is id r = false).
  { intros r Hr. apply String.eqb_neq. now apply Habs. }
  rewrite SalesFacts.deleteSale_run, SalesFacts.markSaleAsSynced_run,
    SalesFacts.hardDeleteSale_run by exact H.
  rewrite !(update_no_match _ _ _ Hno), (delete_no_match _ _ Hno),
    with_sales_same.
  repeat split.
Qed.

Lemma C10_missing_id_is_a_silent_noop_witness :
  SalesRepo.deleteSale "2024-02-01T00:00:00.000Z" "2024-02-01T00:00:00.001Z"
    "s9" Demo.world = (Returns tt, Demo.world) /\
  SalesRepo.markSaleAsSynced "s9" Demo.world = (Returns tt, Demo.world) /\
  SalesRepo.hardDeleteSale "s9" Demo.world = (Returns tt, Demo.world).
Proof.
  apply C10_missing_id_is_a_silent_noop.
  - exact ready_demo.
  - intros r [<- | [<- | []]]; discriminate.
Defined.

(** ** markSynced *)

(** C7: on a ready client [markSaleAsSynced] / [markProductAsSynced] return
    without throwing; row by row, the table afterwards keeps every column of
    every row except [sync_status] (so [updated_at] is kept), the rows with
    the given id have [sync_status = synced], the other rows are what they
    were, and the other table is untouched. *)
Theorem C7_markSynced_only_sets_sync_status (w : World) (id : string) :
  ready w ->
  (fst (SalesRepo.markSaleAsSynced id w) = Returns tt /\
   products (snd (SalesRepo.markSaleAsSynced id w)) = products w /\
   Forall2
     (fun old new =>
        sale_kept_but_sync old new /\
        (Sale.id old = id -> Sale.sync_status new = synced) /\
        (Sale.id old <> id -> new = old))
     (sales w) (sales (snd (SalesRepo.markSaleAsSynced id w)))) /\
  (fst (ProductsRepo.markProductAsSynced id w) = Returns tt /\
   sales (snd (ProductsRepo.markProductAsSynced id w)) = sales w /\
   Forall2
     (fun old new =>
        product_kept_but_sync old new /\
        (Product.id old = id -> Product.sync_status new = synced) /\
        (Product.id old <> id -> new = old))
     (products w) (products (snd (ProductsRepo.markProductAsSynced id w)))).
Proof.
  intros H. split.
  - rewrite SalesFacts.markSaleAsSynced_run by exact H. cbn.
    repeat split.
    eapply Forall2_weaken; [| apply update_rows].
    intros old new _ ->. unfold SalesRepo.id_is.
    destruct (String.eqb (Sale.id old) id) eqn:E.
    + cbn. unfold sale_kept_but_sync. cbn. repeat split.
      apply String.eqb_eq in E. now intros [].
    + apply String.eqb_neq in E. unfold sale_kept_but_sync.
      repeat split. now intros.
  - rewrite ProductsFacts.markProductAsSynced_run by exact H. cbn.
    repeat split.
    eapply Forall2_weaken; [| apply update_rows].
    intros old new _ ->. unfold ProductsRepo.id_is.
    destruct (String.eqb (Product.id old) id) eqn:E.
    + cbn. unfold product_kept_but_sync. cbn. repeat split.
      apply String.eqb_eq in E. now intros [].
    + apply String.eqb_neq in E. unfold product_kept_but_sync.
      repeat split. now intros.
Qed.

Lemma C7_markSynced_only_sets_sync_status_witness :
  sales (snd (SalesRepo.markSaleAsSynced "s1" Demo.world)) =
  [ {| Sale.id := "s1"; Sale.product_id := "p1"; Sale.quantity := 2;
       Sale.total := 19.98;
       Sale.created_at := "2024-01-01 10:00:00";
       Sale.updated_at := "2024-01-01 10:00:00";
       Sale.deleted_at := None; Sale.sync_status := synced |};
    Demo.sale2 ] /\
  Forall2
    (fun old new =>
       sale_kept_but_sync old new /\
       (Sale.id old = "s1" -> Sale.sync_status new = synced) /\
       (Sale.id old <> "s1" -> new = old))
    (sales Demo.world)
    (sales (snd (SalesRepo.markSaleAsSynced "s1" Demo.world))).
Proof.
  split; [reflexivity |].
  exact (proj2 (proj2 (proj1
    (C7_markSynced_only_sets_sync_status Demo.world "s1" ready_demo)))).
Defined.

(** ** getPending *)

(** C6: on a ready client [getUnsyncedSales] / [getUnsyncedProducts] return,
    without changing anything, exactly the rows whose [sync_status] is
    [pending]: the active pending rows together with the soft-deleted pending
    rows, and no row whose [sync_status] is [synced]. *)
Theorem C6_getPending_returns_exactly_the_pending_rows (w : World) :
  ready w ->
  (exists result,
     SalesRepo.getUnsyncedSales w = (Returns result, w) /\
     (forall r, In r result <->
                In r (sales w) /\ Sale.sync_status r = pending) /\
     (forall r, In r result <->
                (In r (sales w) /\ Sale.deleted_at r = None /\
                 Sale.sync_status r = pending) \/
                (In r (sales w) /\ Sale.deleted_at r <> None /\
                 Sale.sync_status r = pending)) /\
     (forall r, In r result -> Sale.sync_status r <> synced)) /\
  (exists result,
     ProductsRepo.getUnsyncedProducts w = (Returns result, w) /\
     (forall r, In r result <->
                In r (products w) /\ Product.sync_status r = pending) /\
     (forall r, In r result <->
                (In r (products w) /\ Product.deleted_at r = None /\
                 Product.sync_status r = pending) \/
                (In r (products w) /\ Product.deleted_at r <> None /\
                 Product.sync_status r = pending)) /\
     (forall r, In r result -> Product.sync_status r <> synced)).
Proof.
  intros H. split.
  - eexists. split; [apply SalesFacts.getUnsyncedSales_run, H |].
    assert (E : forall r,
      In r (Sql.select (fun r => SyncStatus_eqb (Sale.sync_status r) pending)
              (sales w)) <->
      In r (sales w) /\ Sale.sync_status r = pending).
    { intros r. unfold Sql.select. rewrite filter_In.
      destruct (Sale.sync_status r); cbn; intuition discriminate. }
    split; [exact E |]. split.
    + intros r. rewrite E.
      destruct (Sale.deleted_at r); intuition (discriminate || congruence).
    + intros r Hr. apply E in Hr as [_ ->]. discriminate.
  - eexists. split; [apply ProductsFacts.getUnsyncedProducts_run, H |].
    assert (E : forall r,
      In r (Sql.select
              (fun r => SyncStatus_eqb (Product.sync_status r) pending)
              (products w)) <->
      In r (products w) /\ Product.sync_status r = pending).
    { intros r. unfold Sql.select. rewrite filter_In.
      destruct (Product.sync_status r); cbn; intuition discriminate. }
    split; [exact E |]. split.
    + intros r. rewrite E.
      destruct (Product.deleted_at r); intuition (discriminate || congruence).
    + intros r Hr. apply E in Hr as [_ ->]. discriminate.
Qed.

Lemma C6_getPending_returns_exactly_the_pending_rows_witness :
  SalesRepo.getUnsyncedSales Demo.world = (Returns [Demo.sale1], Demo.world) /\
  ProductsRepo.getUnsyncedProducts Demo.world
    = (Returns [Demo.gadget], Demo.world) /\
  (exists result,
     SalesRepo.getUnsyncedSales Demo.world = (Returns result, Demo.world) /\
     forall r, In r result -> Sale.sync_status r <> synced).
Proof.
  split; [reflexivity |]. split; [reflexivity |].
  destruct (proj1 (C6_getPending_returns_exactly_the_pending_rows
                     Demo.world ready_demo)) as (result & E & _ & _ & Hs).
  exists result. split; [exact E | exact Hs].
Defined.

(** ** create *)



Lemma demo_sale_absent (id : string) :
  id <> "s1" -> id <> "s2" -> sale_absent Demo.world id.
Proof. intros H1 H2 r [<- | [<- | []]]; cbn; congruence. Qed.

Lemma demo_product_absent (id : string) :
  id <> "p1" -> id <> "p2" -> product_absent Demo.world id.
Proof. intros H1 H2 r [<- | [<- | []]]; cbn; congruence. Qed.


(** ** Mutations mark the row pending and refresh its timestamp *)

Lemma sale_update_refreshes (w : World) (now id : string)
    (data : Sale.Patch.t) :
  ready w ->
  if Sale.values_not_null data
  then Forall2 (sale_refreshed id now) (sales w)
         (sales (snd (SalesRepo.updateSale now id data w)))
  else snd (SalesRepo.updateSale now id data w) = w.
Proof.
  intros H. rewrite SalesFacts.updateSale_table by exact H.
  change (Sale.values_not_null (SalesRepo.stamped data now))
    with (Sale.values_not_null data).
  destruct (Sale.values_not_null data); [| apply with_sales_same].
  cbn [snd sales with_sales].
  eapply Forall2_weaken; [| apply update_rows].
  intros old new Hin ->; unfold SalesRepo.id_is, sale_refreshed.
  destruct (String.eqb (Sale.id old) id) eqn:Eid.
  - apply String.eqb_eq in Eid; cbn; split; [| congruence].
    intros _. split; [reflexivity |]. split; [reflexivity |]. exact (fun X => X).
  - apply String.eqb_neq in Eid; split; [congruence | reflexivity].
Qed.

Lemma sale_delete_refreshes (w : World) (now1 now2 id : string) :
  ready w ->
  Forall2 (sale_refreshed id now2) (sales w)
          (sales (snd (SalesRepo.deleteSale now1 now2 id w))).
Proof.
  intros H. rewrite SalesFacts.deleteSale_run by exact H.
  cbn [snd sales with_sales].
  eapply Forall2_weaken; [| apply update_rows].
  intros old new Hin ->; unfold SalesRepo.id_is, sale_refreshed.
  destruct (String.eqb (Sale.id old) id) eqn:Eid.
  - apply String.eqb_eq in Eid; cbn; split; [| congruence].
    intros _. split; [reflexivity |]. split; [reflexivity |]. exact (fun X => X).
  - apply String.eqb_neq in Eid; split; [congruence | reflexivity].
Qed.

Lemma product_update_refreshes (w : World) (now id : string)
    (data : Product.Patch.t) :
  ready w ->
  if Product.values_not_null data
  then Forall2 (product_refreshed id now) (products w)
         (products (snd (ProductsRepo.updateProduct now id data w)))
  else snd (ProductsRepo.updateProduct now id data w) = w.
Proof.
  intros H. rewrite ProductsFacts.updateProduct_table by exact H.
  change (Product.values_not_null (ProductsRepo.stamped data now))
    with (Product.values_not_null data).
  destruct (Product.values_not_null data); [| apply with_products_same].
  cbn [snd products with_products].
  eapply Forall2_weaken; [| apply update_rows].
  intros old new Hin ->; unfold ProductsRepo.id_is, product_refreshed.
  destruct (String.eqb (Product.id old) id) eqn:Eid.
  - apply String.eqb_eq in Eid; cbn; split; [| congruence].
    intros _. split; [reflexivity |]. split; [reflexivity |]. exact (fun X => X).
  - apply String.eqb_neq in Eid; split; [congruence | reflexivity].
Qed.

Lemma product_delete_refreshes (w : World) (now1 now2 id : string) :
  ready w ->
  Forall2 (product_refreshed id now2) (products w)
          (products (snd (ProductsRepo.deleteProduct now1 now2 id w))).
Proof.
  intros H. rewrite ProductsFacts.deleteProduct_run by exact H.
  cbn [snd products with_products].
  eapply Forall2_weaken; [| apply update_rows].
  intros old new Hin ->; unfold ProductsRepo.id_is, product_refreshed.
  destruct (String.eqb (Product.id old) id) eqn:Eid.
  - apply String.eqb_eq in Eid; cbn; split; [| congruence].
    intros _. split; [reflexivity |]. split; [reflexivity |]. exact (fun X => X).
  - apply String.eqb_neq in Eid; split; [congruence | reflexivity].
Qed.

(** C4, as stated, fails: the new [updated_at] is the reading of the
    device clock at the call, and the code does not compare it with the
    stored one. Sale [s1] carries [updated_at = "2024-01-01 10:00:00"]; an
    [updateSale] while the clock reads the last second of 2023 succeeds and
    stores that reading, which is before the value it replaces. *)
Lemma C4_update_with_the_clock_set_back :
  let updated :=
    {| Sale.id := "s1"; Sale.product_id := "p1"; Sale.quantity := 7;
       Sale.total := 69.93;
       Sale.created_at := "2024-01-01 10:00:00";
       Sale.updated_at := "2023-12-31T23:59:59.000Z";
       Sale.deleted_at := None; Sale.sync_status := pending |} in
  fst (SalesRepo.getSaleById "s1" false Demo.world)
    = Returns (Some Demo.sale1) /\
  Sale.updated_at Demo.sale1 = "2024-01-01 10:00:00" /\
  SalesRepo.updateSale "2023-12-31T23:59:59.000Z" "s1" DemoInput.sale_patch
    Demo.world
    = (Returns updated, with_sales Demo.world [updated; Demo.sale2]) /\
  String.leb (Sale.updated_at Demo.sale1) (Sale.updated_at updated) = false.
Proof.
  cbn zeta. split; [reflexivity |]. split; [reflexivity |].
  split; reflexivity.
Qed.

(** C4, amended: on a ready client every mutation the database accepts
    leaves the rows it touches with [sync_status = pending] and with
    [updated_at] set to the clock reading of the call. [create], given an
    unused id and fields without NaN, stores a pending row stamped by the
    database. [update] with a patch the database accepts, whatever keys it
    holds (even [updated_at] or [sync_status]), and [softDelete] make each
    row with the given id pending with [updated_at] equal to the reading of
    the call, which is not before the value it replaces when the reading is
    not before it; all other rows are kept. An [update] whose patch holds a
    NaN is refused and changes nothing. *)
Theorem C4_mutations_set_pending_and_refresh_updated_at
    (w : World)
    (sale_uuid product_uuid datetime_now now now1 now2 : string)
    (sale_id product_id : string)
    (sale_fields : Sale.New.t) (product_fields : Product.New.t)
    (sale_patch : Sale.Patch.t) (product_patch : Product.Patch.t) :
  ready w ->
  sale_absent w sale_uuid ->
  product_absent w product_uuid ->
  Number.is_null (Sale.New.quantity sale_fields) = false ->
  Number.is_null (Sale.New.total sale_fields) = false ->
  Number.is_null (Product.New.price product_fields) = false ->
  (exists row,
     fst (SalesRepo.createSale sale_uuid datetime_now sale_fields w)
       = Returns (Some row) /\
     In row (sales (snd (SalesRepo.createSale sale_uuid datetime_now
                           sale_fields w))) /\
     Sale.id row = sale_uuid /\
     Sale.sync_status row = pending /\
     Sale.updated_at row = datetime_now) /\
  (exists row,
     fst (ProductsRepo.createProduct product_uuid datetime_now
            product_fields w) = Returns (Some row) /\
     In row (products (snd (ProductsRepo.createProduct product_uuid
                              datetime_now product_fields w))) /\
     Product.id row = product_uuid /\
     Product.sync_status row = pending /\
     Product.updated_at row = datetime_now) /\
  (if Sale.values_not_null sale_patch
   then Forall2 (sale_refreshed sale_id now) (sales w)
          (sales (snd (SalesRepo.updateSale now sale_id sale_patch w)))
   else snd (SalesRepo.updateSale now sale_id sale_patch w) = w) /\
  (if Product.values_not_null product_patch
   then Forall2 (product_refreshed product_id now) (products w)
          (products (snd (ProductsRepo.updateProduct now product_id
                            product_patch w)))
   else snd (ProductsRepo.updateProduct now product_id product_patch w)
        = w) /\
  Forall2 (sale_refreshed sale_id now2) (sales w)
    (sales (snd (SalesRepo.deleteSale now1 now2 sale_id w))) /\
  Forall2 (product_refreshed product_id now2) (products w)
    (products (snd (ProductsRepo.deleteProduct now1 now2 product_id w))).
Proof.
  intros H Hs Hp Hq Ht Hpr.
  split; [| split; [| split; [| split; [| split]]]].
  - rewrite (SalesFacts.createSale_run w sale_uuid datetime_now sale_fields H);
      [| unfold Sale.not_null; cbn; now rewrite Hq, Ht | exact Hs].
    eexists. split; [reflexivity |]. cbn. split; [| now repeat split].
    apply in_or_app. right. now left.
  - rewrite (ProductsFacts.createProduct_run w product_uuid datetime_now
               product_fields H);
      [| unfold Product.not_null; cbn; now rewrite Hpr | exact Hp].
    eexists. split; [reflexivity |]. cbn. split; [| now repeat split].
    apply in_or_app. right. now left.
  - now apply sale_update_refreshes.
  - now apply product_update_refreshes.
  - now apply sale_delete_refreshes.
  - now apply product_delete_refreshes.
Qed.

Lemma C4_mutations_set_pending_and_refresh_updated_at_witness :
  Forall2 (sale_refreshed "s1" "2024-02-01T00:00:00.000Z")
    (sales Demo.world)
    (sales (snd (SalesRepo.updateSale "2024-02-01T00:00:00.000Z" "s1"
                   DemoInput.sale_patch Demo.world))) /\
  Forall2 (product_refreshed "p1" "2024-02-01T00:00:00.002Z")
    (products Demo.world)
    (products (snd (ProductsRepo.deleteProduct "2024-02-01T00:00:00.001Z"
                      "2024-02-01T00:00:00.002Z" "p1" Demo.world))).
Proof.
  assert (Hs : sale_absent Demo.world "s3")
    by (apply demo_sale_absent; discriminate).
  assert (Hp : product_absent Demo.world "p3")
    by (apply demo_product_absent; discriminate).
  pose proof (C4_mutations_set_pending_and_refresh_updated_at Demo.world
    "s3" "p3" "2024-02-01 00:00:00" "2024-02-01T00:00:00.000Z"
    "2024-02-01T00:00:00.001Z" "2024-02-01T00:00:00.002Z" "s1" "p1"
    DemoInput.sale_fields DemoInput.product_fields
    DemoInput.sale_patch DemoInput.product_patch
    ready_demo Hs Hp eq_refl eq_refl eq_refl) as C.
  split; [exact (proj1 (proj2 (proj2 C))) |].
  exact (proj2 (proj2 (proj2 (proj2 (proj2 C))))).
Defined.

(** ** softDelete twice *)

Lemma update_image {R : Type} (change : R -> R) (cond : R -> bool)
    (t : list R) (r : R) :
  (forall x, cond (change x) = cond x) ->
  In r (Sql.update change cond t) -> cond r = true ->
  exists r0, In r0 t /\ r = change r0.
Proof.
  intros Hc Hin Hr. unfold Sql.update in Hin.
  apply in_map_iff in Hin as (r0 & E & Hr0). exists r0. split; [exact Hr0 |].
  destruct (cond r0) eqn:E0; [now symmetry |].
  subst r. congruence.
Qed.

(** C2, as stated, fails: two soft deletes of the same sale at different
    clock readings leave different [deleted_at] and [updated_at], so the
    table after the second call is not the table after the first. *)
Lemma C2_second_softDelete_restamps :
  let w1 := snd (SalesRepo.deleteSale "2024-02-01T00:00:00.000Z"
                   "2024-02-01T00:00:00.000Z" "s1" Demo.world) in
  let w2 := snd (SalesRepo.deleteSale "2024-02-02T00:00:00.000Z"
                   "2024-02-02T00:00:00.000Z" "s1" w1) in
  fst (SalesRepo.getSaleById "s1" true w1) =
    Returns (Some
      {| Sale.id := "s1"; Sale.product_id := "p1"; Sale.quantity := 2;
         Sale.total := 19.98;
         Sale.created_at := "2024-01-01 10:00:00";
         Sale.updated_at := "2024-02-01T00:00:00.000Z";
         Sale.deleted_at := Some "2024-02-01T00:00:00.000Z";
         Sale.sync_status := pending |}) /\
  fst (SalesRepo.getSaleById "s1" true w2) =
    Returns (Some
      {| Sale.id := "s1"; Sale.product_id := "p1"; Sale.quantity := 2;
         Sale.total := 19.98;
         Sale.created_at := "2024-01-01 10:00:00";
         Sale.updated_at := "2024-02-02T00:00:00.000Z";
         Sale.deleted_at := Some "2024-02-02T00:00:00.000Z";
         Sale.sync_status := pending |}) /\
  fst (SalesRepo.getSaleById "s1" true w2)
    <> fst (SalesRepo.getSaleById "s1" true w1).
Proof.
  cbn. split; [reflexivity |]. split; [reflexivity |]. discriminate.
Qed.

Lemma sale_delete_twice (w : World) (a1 a2 b1 b2 id : string) :
  ready w ->
  let w1 := snd (SalesRepo.deleteSale a1 a2 id w) in
  let w2 := snd (SalesRepo.deleteSale b1 b2 id w1) in
  fst (SalesRepo.deleteSale a1 a2 id w) = Returns tt /\
  fst (SalesRepo.deleteSale b1 b2 id w1) = Returns tt /\
  Forall2 (sale_restamped id a1 a2 b1 b2) (sales w1) (sales w2) /\
  (b1 = a1 -> b2 = a2 -> w2 = w1).
Proof.
  intros H w1 w2. subst w2 w1.
  rewrite (SalesFacts.deleteSale_run w a1 a2 id H). cbn [fst snd].
  rewrite SalesFacts.deleteSale_run by (apply ready_with_sales, H).
  cbn [fst snd sales with_sales]. repeat split.
  - eapply Forall2_weaken; [| apply update_rows].
    intros first second Hin ->. unfold sale_restamped, SalesRepo.id_is.
    destruct (String.eqb (Sale.id first) id) eqn:Eid.
    + destruct (update_image (SalesRepo.mark_deleted a1 a2)
                  (SalesRepo.id_is id) _ _ (fun x => eq_refl) Hin Eid)
        as (r0 & _ & ->).
      apply String.eqb_eq in Eid. cbn in Eid.
      unfold sale_kept_but_stamps. cbn.
      split; [repeat split | split; [intros _; repeat split | congruence]].
    + apply String.eqb_neq in Eid. unfold sale_kept_but_stamps.
      repeat split; congruence.
  - intros -> ->. unfold with_sales. cbn. f_equal.
    rewrite update_update by reflexivity. reflexivity.
Qed.

Lemma product_delete_twice (w : World) (a1 a2 b1 b2 id : string) :
  ready w ->
  let w1 := snd (ProductsRepo.deleteProduct a1 a2 id w) in
  let w2 := snd (ProductsRepo.deleteProduct b1 b2 id w1) in
  fst (ProductsRepo.deleteProduct a1 a2 id w) = Returns tt /\
  fst (ProductsRepo.deleteProduct b1 b2 id w1) = Returns tt /\
  Forall2 (product_restamped id a1 a2 b1 b2) (products w1) (products w2) /\
  (b1 = a1 -> b2 = a2 -> w2 = w1).
Proof.
  intros H w1 w2. subst w2 w1.
  rewrite (ProductsFacts.deleteProduct_run w a1 a2 id H). cbn [fst snd].
  rewrite ProductsFacts.deleteProduct_run by (apply ready_with_products, H).
  cbn [fst snd products with_products]. repeat split.
  - eapply Forall2_weaken; [| apply update_rows].
    intros first second Hin ->.
    unfold product_restamped, ProductsRepo.id_is.
    destruct (String.eqb (Product.id first) id) eqn:Eid.
    + destruct (update_image (ProductsRepo.mark_deleted a1 a2)
                  (ProductsRepo.id_is id) _ _ (fun x => eq_refl) Hin Eid)
        as (r0 & _ & ->).
      apply String.eqb_eq in Eid. cbn in Eid.
      unfold product_kept_but_stamps. cbn.
      split; [repeat split | split; [intros _; repeat split | congruence]].
    + apply String.eqb_neq in Eid. unfold product_kept_but_stamps.
      repeat split; congruence.
  - intros -> ->. unfold with_products. cbn. f_equal.
    rewrite update_update by reflexivity. reflexivity.
Qed.

(** C2, amended: on a ready client, a second [deleteSale] /
    [deleteProduct] of the same id returns without throwing and leaves every
    column of every row as after the first call, except [deleted_at] and
    [updated_at] of the rows with that id, which are overwritten with the
    second call's clock readings; the row stays soft-deleted and pending,
    and the state after the second call is the state after the first when
    the clock readings of the two calls are the same. *)
Theorem C2_softDelete_twice_keeps_all_but_the_stamps
    (w : World) (a1 a2 b1 b2 id : string) :
  ready w ->
  (let w1 := snd (SalesRepo.deleteSale a1 a2 id w) in
   let w2 := snd (SalesRepo.deleteSale b1 b2 id w1) in
   fst (SalesRepo.deleteSale a1 a2 id w) = Returns tt /\
   fst (SalesRepo.deleteSale b1 b2 id w1) = Returns tt /\
   Forall2 (sale_restamped id a1 a2 b1 b2) (sales w1) (sales w2) /\
   (b1 = a1 -> b2 = a2 -> w2 = w1)) /\
  (let w1 := snd (ProductsRepo.deleteProduct a1 a2 id w) in
   let w2 := snd (ProductsRepo.deleteProduct b1 b2 id w1) in
   fst (ProductsRepo.deleteProduct a1 a2 id w) = Returns tt /\
   fst (ProductsRepo.deleteProduct b1 b2 id w1) = Returns tt /\
   Forall2 (product_restamped id a1 a2 b1 b2) (products w1) (products w2) /\
   (b1 = a1 -> b2 = a2 -> w2 = w1)).
Proof.
  intros H. split.
  - now apply sale_delete_twice.
  - now apply product_delete_twice.
Qed.

Lemma C2_softDelete_twice_keeps_all_but_the_stamps_witness :
  let w1 := snd (SalesRepo.deleteSale "2024-02-01T00:00:00.000Z"
                   "2024-02-01T00:00:00.001Z" "s1" Demo.world) in
  let w2 := snd (SalesRepo.deleteSale "2024-02-02T00:00:00.000Z"
                   "2024-02-02T00:00:00.001Z" "s1" w1) in
  Forall2
    (sale_restamped "s1"
       "2024-02-01T00:00:00.000Z" "2024-02-01T00:00:00.001Z"
       "2024-02-02T00:00:00.000Z" "2024-02-02T00:00:00.001Z")
    (sales w1) (sales w2).
Proof.
  exact (proj1 (proj2 (proj2 (proj1
    (C2_softDelete_twice_keeps_all_but_the_stamps Demo.world
       "2024-02-01T00:00:00.000Z" "2024-02-01T00:00:00.001Z"
       "2024-02-02T00:00:00.000Z" "2024-02-02T00:00:00.001Z" "s1"
       ready_demo))))).
Defined.

(** ** update on an id without an active row *)

(** The part of C1 the code does satisfy: [updateSale] on an id that no row
    carries throws and leaves the world as it was. *)
Lemma updateSale_missing_throws_unchanged
    (w : World) (now id : string) (data : Sale.Patch.t) :
  ready w -> sale_absent w id ->
  SalesRepo.updateSale now id data w =
  (Throws ("Sale " ++ id ++ " not found after update"), w).
Proof.
  intros H Habs.
  assert (Hno : forall r, In r (sales w) -> SalesRepo.id_is id r = false).
  { intros r Hr. apply String.eqb_neq. now apply Habs. }
  destruct (Sale.values_not_null (SalesRepo.stamped data now)) eqn:Hn.
  - pose proof (SalesFacts.updateSale_run w now id data H Hn) as E.
    cbn zeta in E.
    rewrite E, (update_no_match _ _ _ Hno), with_sales_same.
    rewrite select_no_match; [reflexivity |].
    intros r Hr. now rewrite (Hno r Hr).
  - rewrite (SalesFacts.updateSale_refused w now id data H Hn).
    destruct (existsb (SalesRepo.id_is id) (sales w)) eqn:X; [| reflexivity].
    apply existsb_exists in X as (r & Hr & Er).
    rewrite (Hno r Hr) in Er. discriminate.
Qed.

Lemma updateProduct_missing_throws_unchanged
    (w : World) (now id : string) (data : Product.Patch.t) :
  ready w -> product_absent w id ->
  ProductsRepo.updateProduct now id data w =
  (Throws ("Product " ++ id ++ " not found after update"), w).
Proof.
  intros H Habs.
  assert (Hno : forall r, In r (products w) -> ProductsRepo.id_is id r = false).
  { intros r Hr. apply String.eqb_neq. now apply Habs. }
  destruct (Product.values_not_null (ProductsRepo.stamped data now)) eqn:Hn.
  - pose proof (ProductsFacts.updateProduct_run w now id data H Hn) as E.
    cbn zeta in E.
    rewrite E, (update_no_match _ _ _ Hno), with_products_same.
    rewrite select_no_match; [reflexivity |].
    intros r Hr. now rewrite (Hno r Hr).
  - rewrite (ProductsFacts.updateProduct_refused w now id data H Hn).
    destruct (existsb (ProductsRepo.id_is id) (products w)) eqn:X; [| reflexivity].
    apply existsb_exists in X as (r & Hr & Er).
    rewrite (Hno r Hr) in Er. discriminate.
Qed.

(** Where the code departs from C1: when every row with the id is
    soft-deleted, [updateSale] still throws, but only after its [UPDATE]
    has rewritten those rows. *)
Lemma updateSale_soft_deleted_throws_after_writing
    (w : World) (now id : string) (data : Sale.Patch.t) :
  ready w ->
  Sale.values_not_null data = true ->
  (forall r, In r (sales w) -> Sale.id r = id -> Sale.deleted_at r <> None) ->
  SalesRepo.updateSale now id data w =
  (Throws ("Sale " ++ id ++ " not found after update"),
   with_sales w
     (Sql.update
        (Sale.set (Sale.stored_values (SalesRepo.stamped data now)))
        (SalesRepo.id_is id) (sales w))).
Proof.
  intros H Hn Hdel.
  pose proof (SalesFacts.updateSale_run w now id data H Hn) as E.
  cbn zeta in E.
  rewrite E. cbn [sales with_sales].
  rewrite select_no_match; [reflexivity |].
  intros r Hr. unfold Sql.update in Hr.
  apply in_map_iff in Hr as (r0 & <- & Hr0).
  unfold SalesRepo.id_is, SalesRepo.not_deleted.
  destruct (String.eqb (Sale.id r0) id) eqn:Eid.
  - cbn. rewrite Eid. apply String.eqb_eq in Eid.
    specialize (Hdel r0 Hr0 Eid). now destruct (Sale.deleted_at r0).
  - now rewrite Eid.
Qed.

(** C1: the code departs from the claim on a soft-deleted row. In the demo
    database sale [s2] and product [p2] are soft-deleted; [updateSale] and
    [updateProduct] on them throw the not-found error, yet the stored rows
    have been rewritten (patched columns, [updated_at], [sync_status]) by
    the time they throw, so the world after the failed call differs from the
    world before it. *)
Theorem C1_update_of_soft_deleted_row_writes_then_throws :
  SalesRepo.updateSale "2024-02-01T00:00:00.000Z" "s2"
    DemoInput.sale_patch Demo.world =
  (Throws "Sale s2 not found after update",
   with_sales Demo.world
     [ Demo.sale1;
       {| Sale.id := "s2"; Sale.product_id := "p1"; Sale.quantity := 7;
          Sale.total := 69.93;
          Sale.created_at := "2024-01-02 10:00:00";
          Sale.updated_at := "2024-02-01T00:00:00.000Z";
          Sale.deleted_at := Some "2024-01-04T12:00:00.000Z";
          Sale.sync_status := pending |} ]) /\
  ProductsRepo.updateProduct "2024-02-01T00:00:00.000Z" "p2"
    DemoInput.product_patch Demo.world =
  (Throws "Product p2 not found after update",
   with_products Demo.world
     [ Demo.widget;
       {| Product.id := "p2"; Product.name := "Widget v2";
          Product.price := 10;
          Product.created_at := "2024-01-02 09:00:00";
          Product.updated_at := "2024-02-01T00:00:00.000Z";
          Product.deleted_at := Some "2024-01-03T08:00:00.000Z";
          Product.sync_status := pending |} ]) /\
  sales (snd (SalesRepo.updateSale "2024-02-01T00:00:00.000Z" "s2"
                DemoInput.sale_patch Demo.world)) <> sales Demo.world /\
  products (snd (ProductsRepo.updateProduct "2024-02-01T00:00:00.000Z" "p2"
                   DemoInput.product_patch Demo.world))
    <> products Demo.world.
Proof.
  split; [reflexivity |]. split; [reflexivity |].
  split; cbn; discriminate.
Qed.

(** ** Initialization that fails *)

(** C3, as stated, fails: after a failed [initializeDatabase] (here the
    second migration statement fails) the readiness wait fails, but a second
    call to [initializeDatabase] in the same process, on a platform that now
    works, succeeds and the readiness wait succeeds after it. *)
Lemma C3_retry_reaches_ready :
  let s1 := snd (Client.initializeDatabase Client.broken_migrations
                   Client.initial) in
  let s2 := snd (Client.initializeDatabase Client.working s1) in
  fst (Client.initializeDatabase Client.broken_migrations Client.initial)
    = Throws "Failed to initialize database" /\
  Client.ensureDBReady s1
    = Throws "[Database] Not ready. Call initializeDatabase() in App.tsx first." /\
  fst (Client.initializeDatabase Client.working s1) = Returns tt /\
  Client.ensureDBReady s2 = Returns tt.
Proof. cbn. repeat split. Qed.

(** C3, amended: when [initializeDatabase] fails in a reachable state, the
    four module variables are back at their initial values; the readiness
    wait fails in that state; a further failing [initializeDatabase] leaves
    the state there; and an [initializeDatabase] whose open and migrations
    succeed makes the client ready, so that the readiness wait succeeds. *)
Theorem C3_failed_init_resets_and_allows_retry
    (p : Client.platform) (s : Client.state) (m : string) :
  reachable s ->
  fst (Client.initializeDatabase p s) = Throws m ->
  let s1 := snd (Client.initializeDatabase p s) in
  s1 = Client.initial /\
  (exists m', Client.ensureDBReady s1 = Throws m') /\
  (forall p' m',
     fst (Client.initializeDatabase p' s1) = Throws m' ->
     snd (Client.initializeDatabase p' s1) = Client.initial) /\
  (forall p' h,
     Client.openDatabaseAsync p' "app.db" = Returns h ->
     Migrations.runMigrations (Client.execAsync p') = Returns tt ->
     fst (Client.initializeDatabase p' s1) = Returns tt /\
     Client.ensureDBReady (snd (Client.initializeDatabase p' s1)) = Returns tt).
Proof.
  intros Hs Hfail s1.
  assert (E : s1 = Client.initial).
  { subst s1. destruct (reachable_inv s Hs) as [-> | (Hi & Hp & _)].
    - cbn in *.
      destruct (runInitialization_cases p)
        as [[m1 E] | [h E]]; rewrite E in *; [reflexivity | discriminate].
    - rewrite (initializeDatabase_fulfilled p s Hp) in Hfail.
      discriminate. }
  rewrite E. split; [reflexivity |]. split.
  - eexists. apply ensureDBReady_initial.
  - split.
    + intros p' m' H. cbn in *.
      destruct (runInitialization_cases p')
        as [[m1 E1] | [h E1]]; rewrite E1 in *; [reflexivity | discriminate].
    + intros p' h Ho Hm. cbn. unfold Client.runInitialization.
      rewrite Ho, Hm. cbn. split; reflexivity.
Qed.

Lemma C3_failed_init_resets_and_allows_retry_witness :
  reachable Client.initial /\
  let s1 := snd (Client.initializeDatabase Client.broken_open
                   Client.initial) in
  s1 = Client.initial /\
  fst (Client.initializeDatabase Client.working s1) = Returns tt /\
  Client.ensureDBReady (snd (Client.initializeDatabase Client.working s1))
    = Returns tt.
Proof.
  split; [exact reachable_initial |].
  destruct (C3_failed_init_resets_and_allows_retry Client.broken_open
              Client.initial "Failed to initialize database"
              reachable_initial eq_refl) as (E & _ & _ & Hretry).
  split; [exact E |].
  exact (Hretry Client.working "app.db" eq_refl eq_refl).
Defined.

(** * Further properties of the code *)

(** ** The client and the migrations *)

Lemma execAll_returns (exec : Migrations.statement -> outcome unit)
    (todo : list Migrations.statement) :
  Migrations.execAll exec todo = Returns tt <->
  (forall st, In st todo -> exec st = Returns tt).
Proof.
  induction todo as [| st rest IH]; cbn.
  - split; [intros _ st [] | reflexivity].
  - destruct (exec st) as [[] | m] eqn:E.
    + rewrite IH. split.
      * intros H st' [<- | Hin]; [exact E | now apply H].
      * intros H st' Hin. apply H. now right.
    + split; [discriminate |]. intros H.
      specialize (H st (or_introl eq_refl)). congruence.
Qed.

Lemma execAll_throws (exec : Migrations.statement -> outcome unit)
    (todo : list Migrations.statement) (m : string) :
  Migrations.execAll exec todo = Throws m <->
  (exists done st rest,
     todo = (done ++ st :: rest)%list /\
     (forall s, In s done -> exec s = Returns tt) /\
     exec st = Throws m).
Proof.
  induction todo as [| st rest IH]; cbn.
  - split; [discriminate |]. intros (done & st & rest & E & _).
    now destruct done.
  - destruct (exec st) as [[] | m'] eqn:E.
    + rewrite IH. split.
      * intros (done & st' & rest' & -> & Hd & Hs).
        exists (st :: done), st', rest'. repeat split; trivial.
        intros s [<- | Hin]; [exact E | now apply Hd].
      * intros (done & st' & rest' & Heq & Hd & Hs).
        destruct done as [| d done]; cbn in Heq; injection Heq as <- ->.
        -- congruence.
        -- exists done, st', rest'. repeat split; trivial.
           intros s Hin. apply Hd. now right.
    + split.
      * intros [= ->]. exists [], st, rest. repeat split; trivial.
        intros s [].
      * intros (done & st' & rest' & Heq & Hd & Hs).
        destruct done as [| d done]; cbn in Heq; injection Heq as <- ->.
        -- congruence.
        -- specialize (Hd st (or_introl eq_refl)). congruence.
Qed.

(** X1: [runMigrations] returns exactly when each of its seven statements
    executes without error; when it throws, it throws the error of the first
    statement, in the order of the file, that failed, every statement before
    it having succeeded. *)
Theorem runMigrations_stops_at_first_failure
    (exec : Migrations.statement -> outcome unit) :
  (Migrations.runMigrations exec = Returns tt <->
   forall st, In st Migrations.statements -> exec st = Returns tt) /\
  (forall m,
     Migrations.runMigrations exec = Throws m <->
     exists done st rest,
       Migrations.statements = (done ++ st :: rest)%list /\
       (forall s, In s done -> exec s = Returns tt) /\
       exec st = Throws m).
Proof.
  split.
  - apply execAll_returns.
  - intros m. apply execAll_throws.
Qed.

(** X2: from the uninitialized state, [initializeDatabase] returns exactly
    when the database file opens and every migration statement succeeds, and
    the client is then ready with the opened handle behind both [getDB] and
    [getSQLiteDB]; when it throws, the message is always "Failed to
    initialize database", whatever the platform's error was. *)
Theorem initializeDatabase_succeeds_iff_open_and_migrations
    (p : Client.platform) :
  (fst (Client.initializeDatabase p Client.initial) = Returns tt <->
   (exists h, Client.openDatabaseAsync p "app.db" = Returns h) /\
   (forall st, In st Migrations.statements ->
               Client.execAsync p st = Returns tt)) /\
  (forall h,
     fst (Client.initializeDatabase p Client.initial) = Returns tt ->
     Client.openDatabaseAsync p "app.db" = Returns h ->
     let s := snd (Client.initializeDatabase p Client.initial) in
     Client.ensureDBReady s = Returns tt /\
     Client.getDB s = Returns h /\ Client.getSQLiteDB s = Returns h) /\
  (forall m,
     fst (Client.initializeDatabase p Client.initial) = Throws m ->
     m = "Failed to initialize database").
Proof.
  cbn. unfold Client.runInitialization.
  pose proof (execAll_returns (Client.execAsync p) Migrations.statements)
    as Hall.
  fold (Migrations.runMigrations (Client.execAsync p)) in Hall.
  destruct (Client.openDatabaseAsync p "app.db") as [h | m0].
  - destruct (Migrations.runMigrations (Client.execAsync p)) as [[] | m1];
      cbn.
    + split; [| split].
      * split; [| reflexivity]. intros _. split; [now exists h |].
        now apply Hall.
      * intros h' _ [= ->]. repeat split.
      * discriminate.
    + split; [| split].
      * split; [discriminate |]. intros [_ H]. apply Hall in H.
        discriminate.
      * discriminate.
      * now intros m [= <-].
  - cbn. split; [| split].
    + split; [discriminate |]. now intros [[h [=]] _].
    + discriminate.
    + now intros m [= <-].
Qed.

Lemma reachable_handles (s : Client.state) :
  reachable s ->
  s = Client.initial \/
  (exists h,
     s = {| Client.sqliteDb := Some h; Client.drizzleDb := Some h;
            Client.isInitialized := true;
            Client.initializationPromise := Some Client.fulfilled |}).
Proof.
  induction 1 as [| p s Hs IH].
  - now left.
  - destruct IH as [-> | (h & ->)].
    + cbn. destruct (runInitialization_cases p) as [[m ->] | [h ->]]; cbn.
      * now left.
      * right. now exists h.
    + right. now exists h.
Qed.

(** X3: once the client is ready, [initializeDatabase] is a no-op: in any
    state reached by calls to [initializeDatabase] in which the readiness
    wait succeeds, a further call returns without error and leaves the four
    module variables as they are, whatever the platform would now answer
    (the file is not opened again and no migration is run again). *)
Theorem initializeDatabase_is_a_noop_once_ready
    (s : Client.state) (p : Client.platform) :
  reachable s ->
  Client.ensureDBReady s = Returns tt ->
  Client.initializeDatabase p s = (Returns tt, s).
Proof.
  intros Hs Hr. destruct (reachable_handles s Hs) as [-> | (h & ->)].
  - discriminate.
  - reflexivity.
Qed.

Lemma initializeDatabase_is_a_noop_once_ready_witness :
  Client.initializeDatabase Client.broken_open Demo.ready_client
    = (Returns tt, Demo.ready_client).
Proof.
  apply initializeDatabase_is_a_noop_once_ready.
  - exact (reachable_init Client.working Client.initial reachable_initial).
  - reflexivity.
Defined.


(** The readiness wait on an initialization in progress has its outcome. *)
Lemma ensureDBReady_in_progress (p : Client.platform) :
  Client.ensureDBReady (Client.startInitialization p Client.initial)
    = fst (Client.runInitialization p).
Proof.
  unfold Client.ensureDBReady, Client.waitIfInProgress,
    Client.awaitInitialization.
  cbn [Client.startInitialization Client.initial
       Client.initializationPromise Client.isInitialized negb].
  now destruct (runInitialization_cases p) as [[m ->] | [h ->]].
Qed.




(** ** Reads of the repositories *)

Section SqlReads.
Context {R : Type}.
Implicit Types (t : list R) (cond : R -> bool) (change : R -> R).

Lemma first_limit_select cond t :
  Sql.first (Sql.limit 1 (Sql.select cond t)) = find cond t.
Proof.
  unfold Sql.first, Sql.limit, Sql.select.
  induction t as [| r t IH]; cbn; [reflexivity |].
  now destruct (cond r).
Qed.

Lemma in_update change cond t (r : R) :
  In r (Sql.update change cond t) <->
  exists r0, In r0 t /\ r = if cond r0 then change r0 else r0.
Proof.
  unfold Sql.update. rewrite in_map_iff. split.
  - intros (r0 & <- & H). now exists r0.
  - intros (r0 & H & ->). now exists r0.
Qed.

Lemma in_delete cond t (r : R) :
  In r (Sql.delete cond t) <-> In r t /\ cond r = false.
Proof.
  unfold Sql.delete. rewrite filter_In.
  now rewrite negb_true_iff.
Qed.

Lemma update_keys {K : Type} (key : R -> K) change cond t :
  (forall r, key (change r) = key r) ->
  map key (Sql.update change cond t) = map key t.
Proof.
  intros H. unfold Sql.update. rewrite map_map. apply map_ext.
  intros r. now destruct (cond r).
Qed.

Lemma delete_keys_NoDup {K : Type} (key : R -> K) cond t :
  NoDup (map key t) -> NoDup (map key (Sql.delete cond t)).
Proof.
  unfold Sql.delete. induction t as [| r t IH]; cbn; intros H.
  - constructor.
  - inversion H as [| k ks Hk Hks]; subst.
    destruct (cond r); cbn; [now apply IH |].
    constructor; [| now apply IH].
    intros Hin. apply Hk. apply in_map_iff in Hin as (r' & E & Hr').
    apply filter_In in Hr' as [Hr' _]. apply in_map_iff. now exists r'.
Qed.

Lemma Forall2_same (P : R -> R -> Prop) t :
  (forall r, P r r) -> Forall2 P t t.
Proof. intros H. induction t; constructor; auto. Qed.
End SqlReads.

(** X5: on a ready client [getAllSales] / [getAllProducts] change nothing
    and return exactly the rows whose [deleted_at] is NULL: a soft-deleted
    row is never returned and no active row is left out. *)
Theorem getAll_returns_exactly_the_active_rows (w : World) :
  ready w ->
  (exists result,
     SalesRepo.getAllSales w = (Returns result, w) /\
     forall r, In r result <-> In r (sales w) /\ Sale.deleted_at r = None) /\
  (exists result,
     ProductsRepo.getAllProducts w = (Returns result, w) /\
     forall r, In r result <->
               In r (products w) /\ Product.deleted_at r = None).
Proof.
  intros H. split.
  - eexists. split.
    + unfold SalesRepo.getAllSales. now rewrite ready_prelude.
    + intros r. unfold Sql.select, SalesRepo.not_deleted.
      rewrite filter_In. destruct (Sale.deleted_at r); cbn;
        intuition discriminate.
  - eexists. split.
    + unfold ProductsRepo.getAllProducts. now rewrite ready_prelude.
    + intros r. unfold Sql.select, ProductsRepo.not_deleted.
      rewrite filter_In. destruct (Product.deleted_at r); cbn;
        intuition discriminate.
Qed.

Lemma getAll_returns_exactly_the_active_rows_witness :
  SalesRepo.getAllSales Demo.world = (Returns [Demo.sale1], Demo.world) /\
  exists result,
    ProductsRepo.getAllProducts Demo.world = (Returns result, Demo.world) /\
    forall r, In r result <->
              In r (products Demo.world) /\ Product.deleted_at r = None.
Proof.
  split; [reflexivity |].
  exact (proj2 (getAll_returns_exactly_the_active_rows Demo.world ready_demo)).
Defined.

Lemma getSaleById_any_run (w : World) (id : string) (includeDeleted : bool) :
  ready w ->
  SalesRepo.getSaleById id includeDeleted w =
  (Returns
     (find (fun r => SalesRepo.id_is id r
                     && (includeDeleted || SalesRepo.not_deleted r))
        (sales w)), w).
Proof.
  intros H. unfold SalesRepo.getSaleById. rewrite ready_prelude by exact H.
  destruct includeDeleted; unfold bind, SalesRepo.query, ret;
    rewrite first_limit_select; cbn [orb]; do 2 f_equal.
  induction (sales w) as [| r t IH]; cbn; [reflexivity |].
  rewrite andb_true_r. now rewrite IH.
Qed.

Lemma getProductById_any_run (w : World) (id : string)
    (includeDeleted : bool) :
  ready w ->
  ProductsRepo.getProductById id includeDeleted w =
  (Returns
     (find (fun r => ProductsRepo.id_is id r
                     && (includeDeleted || ProductsRepo.not_deleted r))
        (products w)), w).
Proof.
  intros H. unfold ProductsRepo.getProductById.
  rewrite ready_prelude by exact H.
  destruct includeDeleted; unfold bind, ProductsRepo.query, ret;
    rewrite first_limit_select; cbn [orb]; do 2 f_equal.
  induction (products w) as [| r t IH]; cbn; [reflexivity |].
  rewrite andb_true_r. now rewrite IH.
Qed.

(** X6: on a ready client [getSaleById] / [getProductById] change nothing;
    a row they return is a row of the table with the requested id, active
    unless [includeDeleted] was passed; and they return [undefined] exactly
    when the table has no such row, that is when every row with the id is
    soft-deleted and [includeDeleted] was not passed. *)
Theorem getById_finds_a_matching_row_or_nothing
    (w : World) (id : string) (includeDeleted : bool) :
  ready w ->
  (exists result,
     SalesRepo.getSaleById id includeDeleted w = (Returns result, w) /\
     (forall r, result = Some r ->
        In r (sales w) /\ Sale.id r = id /\
        (includeDeleted = false -> Sale.deleted_at r = None)) /\
     (result = None <->
      forall r, In r (sales w) -> Sale.id r = id ->
                includeDeleted = false /\ Sale.deleted_at r <> None)) /\
  (exists result,
     ProductsRepo.getProductById id includeDeleted w = (Returns result, w) /\
     (forall r, result = Some r ->
        In r (products w) /\ Product.id r = id /\
        (includeDeleted = false -> Product.deleted_at r = None)) /\
     (result = None <->
      forall r, In r (products w) -> Product.id r = id ->
                includeDeleted = false /\ Product.deleted_at r <> None)).
Proof.
  intros H. split.
  - eexists. split; [apply getSaleById_any_run, H |]. split.
    + intros r Hr. apply find_some in Hr as [Hin Hc].
      apply andb_true_iff in Hc as [Hid Hdel].
      apply String.eqb_eq in Hid. repeat split; trivial.
      intros ->. cbn in Hdel. unfold SalesRepo.not_deleted in Hdel.
      now destruct (Sale.deleted_at r).
    + split.
      * intros Hnone r Hin Hid.
        pose proof (find_none _ _ Hnone r Hin) as Hc. cbn in Hc.
        unfold SalesRepo.id_is, SalesRepo.not_deleted in Hc.
        apply String.eqb_eq in Hid. rewrite Hid in Hc. cbn in Hc.
        destruct includeDeleted; [discriminate |].
        split; [reflexivity |]. now destruct (Sale.deleted_at r).
      * intros Hall.
        destruct (find _ (sales w)) as [r |] eqn:E; [| reflexivity].
        apply find_some in E as [Hin Hc].
        apply andb_true_iff in Hc as [Hid Hdel].
        apply String.eqb_eq in Hid.
        destruct (Hall r Hin Hid) as [-> Hd]. cbn in Hdel.
        unfold SalesRepo.not_deleted in Hdel.
        now destruct (Sale.deleted_at r).
  - eexists. split; [apply getProductById_any_run, H |]. split.
    + intros r Hr. apply find_some in Hr as [Hin Hc].
      apply andb_true_iff in Hc as [Hid Hdel].
      apply String.eqb_eq in Hid. repeat split; trivial.
      intros ->. cbn in Hdel. unfold ProductsRepo.not_deleted in Hdel.
      now destruct (Product.deleted_at r).
    + split.
      * intros Hnone r Hin Hid.
        pose proof (find_none _ _ Hnone r Hin) as Hc. cbn in Hc.
        unfold ProductsRepo.id_is, ProductsRepo.not_deleted in Hc.
        apply String.eqb_eq in Hid. rewrite Hid in Hc. cbn in Hc.
        destruct includeDeleted; [discriminate |].
        split; [reflexivity |]. now destruct (Product.deleted_at r).
      * intros Hall.
        destruct (find _ (products w)) as [r |] eqn:E; [| reflexivity].
        apply find_some in E as [Hin Hc].
        apply andb_true_iff in Hc as [Hid Hdel].
        apply String.eqb_eq in Hid.
        destruct (Hall r Hin Hid) as [-> Hd]. cbn in Hdel.
        unfold ProductsRepo.not_deleted in Hdel.
        now destruct (Product.deleted_at r).
Qed.

Lemma getById_finds_a_matching_row_or_nothing_witness :
  fst (SalesRepo.getSaleById "s2" false Demo.world) = Returns None /\
  fst (SalesRepo.getSaleById "s2" true Demo.world)
    = Returns (Some Demo.sale2) /\
  exists result,
    SalesRepo.getSaleById "s2" false Demo.world
      = (Returns result, Demo.world) /\
    forall r, result = Some r ->
      In r (sales Demo.world) /\ Sale.id r = "s2" /\
      (false = false -> Sale.deleted_at r = None).
Proof.
  split; [reflexivity |]. split; [reflexivity |].
  destruct (proj1 (getById_finds_a_matching_row_or_nothing Demo.world "s2"
                     false ready_demo)) as (result & E & Hsome & _).
  exists result. split; [exact E | exact Hsome].
Defined.

(** ** Mutations of the repositories *)

Lemma createProduct_ready_cases (w : World) (uuid_v4 datetime_now : string)
    (data : Product.New.t) :
  ready w ->
  let row := ProductsRepo.newProduct uuid_v4 datetime_now data in
  (product_absent w uuid_v4 /\ Product.not_null row = true /\
   ProductsRepo.createProduct uuid_v4 datetime_now data w =
   (Returns (Some (Product.stored row)),
    with_products w (products w ++ [Product.stored row]))) \/
  ProductsRepo.createProduct uuid_v4 datetime_now data w
    = (Throws "NOT NULL constraint failed", w) \/
  ProductsRepo.createProduct uuid_v4 datetime_now data w
    = (Throws "UNIQUE constraint failed", w).
Proof.
  intros H row.
  destruct (Product.not_null row) eqn:Hn.
  2:{ right. left. unfold ProductsRepo.createProduct.
      rewrite ready_prelude by exact H.
      unfold bind at 1. unfold ProductsRepo.execute, Sql.insert.
      fold row. now rewrite Hn. }
  destruct (existsb (fun r => String.eqb (Product.id r) (Product.id row))
              (products w)) eqn:E.
  - right. right. unfold ProductsRepo.createProduct.
    rewrite ready_prelude by exact H.
    unfold bind at 1. unfold ProductsRepo.execute, Sql.insert.
    fold row. now rewrite Hn, E.
  - left.
    assert (Habs : product_absent w uuid_v4).
    { intros r Hr Hid.
      assert (X : existsb (fun r => String.eqb (Product.id r) (Product.id row))
                    (products w) = true).
      { apply existsb_exists. exists r. split; [exact Hr |].
        now apply String.eqb_eq. }
      congruence. }
    split; [exact Habs |]. split; [reflexivity |].
    now apply ProductsFacts.createProduct_run.
Qed.

Lemma createSale_ready_cases (w : World) (uuid_v4 datetime_now : string)
    (data : Sale.New.t) :
  ready w ->
  let row := SalesRepo.newSale uuid_v4 datetime_now data in
  (sale_absent w uuid_v4 /\ Sale.not_null row = true /\
   SalesRepo.createSale uuid_v4 datetime_now data w =
   (Returns (Some (Sale.stored row)),
    with_sales w (sales w ++ [Sale.stored row]))) \/
  SalesRepo.createSale uuid_v4 datetime_now data w
    = (Throws "NOT NULL constraint failed", w) \/
  SalesRepo.createSale uuid_v4 datetime_now data w
    = (Throws "UNIQUE constraint failed", w).
Proof.
  intros H row.
  destruct (Sale.not_null row) eqn:Hn.
  2:{ right. left. unfold SalesRepo.createSale.
      rewrite ready_prelude by exact H.
      unfold bind at 1. unfold SalesRepo.execute, Sql.insert.
      fold row. now rewrite Hn. }
  destruct (existsb (fun r => String.eqb (Sale.id r) (Sale.id row))
              (sales w)) eqn:E.
  - right. right. unfold SalesRepo.createSale.
    rewrite ready_prelude by exact H.
    unfold bind at 1. unfold SalesRepo.execute, Sql.insert.
    fold row. now rewrite Hn, E.
  - left.
    assert (Habs : sale_absent w uuid_v4).
    { intros r Hr Hid.
      assert (X : existsb (fun r => String.eqb (Sale.id r) (Sale.id row))
                    (sales w) = true).
      { apply existsb_exists. exists r. split; [exact Hr |].
        now apply String.eqb_eq. }
      congruence. }
    split; [exact Habs |]. split; [reflexivity |].
    now apply SalesFacts.createSale_run.
Qed.

Lemma deleteSale_cases (w : World) (now1 now2 id : string) :
  (ready (settled w) /\
   SalesRepo.deleteSale now1 now2 id w =
   (Returns tt,
    with_sales (settled w)
      (Sql.update (SalesRepo.mark_deleted now1 now2) (SalesRepo.id_is id)
         (sales w)))) \/
  (exists m, SalesRepo.deleteSale now1 now2 id w = (Throws m, settled w)).
Proof.
  unfold SalesRepo.deleteSale.
  destruct (prelude_cases w
              (SalesRepo.execute (fun t =>
                 Returns (Sql.update (SalesRepo.mark_deleted now1 now2)
                            (SalesRepo.id_is id) t))))
    as [[H ->] | [_ X]]; [left | now right].
  split; [exact H | reflexivity].
Qed.

Lemma markSaleAsSynced_cases (w : World) (id : string) :
  (ready (settled w) /\
   SalesRepo.markSaleAsSynced id w =
   (Returns tt,
    with_sales (settled w)
      (Sql.update (Sale.set SalesRepo.synced_only) (SalesRepo.id_is id)
         (sales w)))) \/
  (exists m, SalesRepo.markSaleAsSynced id w = (Throws m, settled w)).
Proof.
  unfold SalesRepo.markSaleAsSynced.
  destruct (prelude_cases w
              (SalesRepo.execute (fun t =>
                 Returns (Sql.update (Sale.set SalesRepo.synced_only)
                            (SalesRepo.id_is id) t))))
    as [[H ->] | [_ X]]; [left | now right].
  split; [exact H | reflexivity].
Qed.

Lemma hardDeleteSale_cases (w : World) (id : string) :
  (ready (settled w) /\
   SalesRepo.hardDeleteSale id w =
   (Returns tt,
    with_sales (settled w) (Sql.delete (SalesRepo.id_is id) (sales w)))) \/
  (exists m, SalesRepo.hardDeleteSale id w = (Throws m, settled w)).
Proof.
  unfold SalesRepo.hardDeleteSale.
  destruct (prelude_cases w
              (SalesRepo.execute (fun t =>
                 Returns (Sql.delete (SalesRepo.id_is id) t))))
    as [[H ->] | [_ X]]; [left | now right].
  split; [exact H | reflexivity].
Qed.

Lemma updateSale_cases (w : World) (now id : string) (data : Sale.Patch.t) :
  (ready (settled w) /\
   SalesRepo.updateSale now id data w
     = SalesRepo.updateSale now id data (settled w) /\
   snd (SalesRepo.updateSale now id data w) =
   with_sales (settled w)
     (if Sale.values_not_null data
      then Sql.update
             (Sale.set (Sale.stored_values (SalesRepo.stamped data now)))
             (SalesRepo.id_is id) (sales w)
      else sales w)) \/
  (exists m, SalesRepo.updateSale now id data w = (Throws m, settled w)).
Proof.
  unfold SalesRepo.updateSale at 1 3.
  match goal with
  | |- context [(ensureDBReady ;; _ <- getDB ;; ?k) w] =>
      destruct (prelude_cases w k) as [[H ->] | [_ X]]; [left | now right]
  end.
  split; [exact H |].
  rewrite <- (ready_prelude (settled w) _ H).
  fold (SalesRepo.updateSale now id data (settled w)).
  split; [reflexivity |].
  now rewrite SalesFacts.updateSale_table.
Qed.

Lemma createSale_cases (w : World) (uuid_v4 datetime_now : string)
    (data : Sale.New.t) :
  let row := SalesRepo.newSale uuid_v4 datetime_now data in
  (ready (settled w) /\ sale_absent w uuid_v4 /\ Sale.not_null row = true /\
   SalesRepo.createSale uuid_v4 datetime_now data w =
   (Returns (Some (Sale.stored row)),
    with_sales (settled w) (sales w ++ [Sale.stored row]))) \/
  (exists m, SalesRepo.createSale uuid_v4 datetime_now data w
             = (Throws m, settled w)).
Proof.
  intros row.
  assert (E : (ready (settled w) /\
               SalesRepo.createSale uuid_v4 datetime_now data w =
               SalesRepo.createSale uuid_v4 datetime_now data (settled w)) \/
              (exists m, SalesRepo.createSale uuid_v4 datetime_now data w
                         = (Throws m, settled w))).
  { unfold SalesRepo.createSale.
    match goal with
    | |- context [(ensureDBReady ;; _ <- getDB ;; ?k) w] =>
        destruct (prelude_cases w k) as [[H ->] | [_ X]]; [left | now right]
    end.
    split; [exact H |]. now rewrite (ready_prelude (settled w) _ H). }
  destruct E as [[H ->] | X]; [| now right].
  destruct (createSale_ready_cases (settled w) uuid_v4 datetime_now data H)
    as [(Ha & Hn & ->) | [-> | ->]].
  - left. split; [exact H |]. split; [exact Ha |]. split; [exact Hn |].
    reflexivity.
  - right. now eexists.
  - right. now eexists.
Qed.

Lemma deleteProduct_cases (w : World) (now1 now2 id : string) :
  (ready (settled w) /\
   ProductsRepo.deleteProduct now1 now2 id w =
   (Returns tt,
    with_products (settled w)
      (Sql.update (ProductsRepo.mark_deleted now1 now2) (ProductsRepo.id_is id)
         (products w)))) \/
  (exists m, ProductsRepo.deleteProduct now1 now2 id w = (Throws m, settled w)).
Proof.
  unfold ProductsRepo.deleteProduct.
  destruct (prelude_cases w
              (ProductsRepo.execute (fun t =>
                 Returns (Sql.update (ProductsRepo.mark_deleted now1 now2)
                            (ProductsRepo.id_is id) t))))
    as [[H ->] | [_ X]]; [left | now right].
  split; [exact H | reflexivity].
Qed.

Lemma markProductAsSynced_cases (w : World) (id : string) :
  (ready (settled w) /\
   ProductsRepo.markProductAsSynced id w =
   (Returns tt,
    with_products (settled w)
      (Sql.update (Product.set ProductsRepo.synced_only) (ProductsRepo.id_is id)
         (products w)))) \/
  (exists m, ProductsRepo.markProductAsSynced id w = (Throws m, settled w)).
Proof.
  unfold ProductsRepo.markProductAsSynced.
  destruct (prelude_cases w
              (ProductsRepo.execute (fun t =>
                 Returns (Sql.update (Product.set ProductsRepo.synced_only)
                            (ProductsRepo.id_is id) t))))
    as [[H ->] | [_ X]]; [left | now right].
  split; [exact H | reflexivity].
Qed.

Lemma hardDeleteProduct_cases (w : World) (id : string) :
  (ready (settled w) /\
   ProductsRepo.hardDeleteProduct id w =
   (Returns tt,
    with_products (settled w) (Sql.delete (ProductsRepo.id_is id) (products w)))) \/
  (exists m, ProductsRepo.hardDeleteProduct id w = (Throws m, settled w)).
Proof.
  unfold ProductsRepo.hardDeleteProduct.
  destruct (prelude_cases w
              (ProductsRepo.execute (fun t =>
                 Returns (Sql.delete (ProductsRepo.id_is id) t))))
    as [[H ->] | [_ X]]; [left | now right].
  split; [exact H | reflexivity].
Qed.

Lemma updateProduct_cases (w : World) (now id : string) (data : Product.Patch.t) :
  (ready (settled w) /\
   ProductsRepo.updateProduct now id data w
     = ProductsRepo.updateProduct now id data (settled w) /\
   snd (ProductsRepo.updateProduct now id data w) =
   with_products (settled w)
     (if Product.values_not_null data
      then Sql.update
             (Product.set (Product.stored_values (ProductsRepo.stamped data now)))
             (ProductsRepo.id_is id) (products w)
      else products w)) \/
  (exists m, ProductsRepo.updateProduct now id data w = (Throws m, settled w)).
Proof.
  unfold ProductsRepo.updateProduct at 1 3.
  match goal with
  | |- context [(ensureDBReady ;; _ <- getDB ;; ?k) w] =>
      destruct (prelude_cases w k) as [[H ->] | [_ X]]; [left | now right]
  end.
  split; [exact H |].
  rewrite <- (ready_prelude (settled w) _ H).
  fold (ProductsRepo.updateProduct now id data (settled w)).
  split; [reflexivity |].
  now rewrite ProductsFacts.updateProduct_table.
Qed.

Lemma createProduct_cases (w : World) (uuid_v4 datetime_now : string)
    (data : Product.New.t) :
  let row := ProductsRepo.newProduct uuid_v4 datetime_now data in
  (ready (settled w) /\ product_absent w uuid_v4 /\ Product.not_null row = true /\
   ProductsRepo.createProduct uuid_v4 datetime_now data w =
   (Returns (Some (Product.stored row)),
    with_products (settled w) (products w ++ [Product.stored row]))) \/
  (exists m, ProductsRepo.createProduct uuid_v4 datetime_now data w
             = (Throws m, settled w)).
Proof.
  intros row.
  assert (E : (ready (settled w) /\
               ProductsRepo.createProduct uuid_v4 datetime_now data w =
               ProductsRepo.createProduct uuid_v4 datetime_now data (settled w)) \/
              (exists m, ProductsRepo.createProduct uuid_v4 datetime_now data w
                         = (Throws m, settled w))).
  { unfold ProductsRepo.createProduct.
    match goal with
    | |- context [(ensureDBReady ;; _ <- getDB ;; ?k) w] =>
        destruct (prelude_cases w k) as [[H ->] | [_ X]]; [left | now right]
    end.
    split; [exact H |]. now rewrite (ready_prelude (settled w) _ H). }
  destruct E as [[H ->] | X]; [| now right].
  destruct (createProduct_ready_cases (settled w) uuid_v4 datetime_now data H)
    as [(Ha & Hn & ->) | [-> | ->]].
  - left. split; [exact H |]. split; [exact Ha |]. split; [exact Hn |].
    reflexivity.
  - right. now eexists.
  - right. now eexists.
Qed.

Lemma sale_rows_after_delete (w : World) (now1 now2 id : string) (r : Sale.t) :
  In r (Sql.update (SalesRepo.mark_deleted now1 now2) (SalesRepo.id_is id)
          (sales w)) ->
  Sale.id r = id ->
  exists r0, In r0 (sales w) /\ Sale.id r0 = id /\
             r = SalesRepo.mark_deleted now1 now2 r0.
Proof.
  intros Hin Hid. apply in_update in Hin as (r0 & H0 & ->).
  unfold SalesRepo.id_is in *.
  destruct (String.eqb (Sale.id r0) id) eqn:E.
  - apply String.eqb_eq in E. now exists r0.
  - apply String.eqb_neq in E. congruence.
Qed.

Lemma sale_softDelete_then_reads (w : World) (now1 now2 id : string) :
  ready w ->
  let w' := snd (SalesRepo.deleteSale now1 now2 id w) in
  SalesRepo.getSaleById id false w' = (Returns None, w') /\
  (exists active,
     SalesRepo.getAllSales w' = (Returns active, w') /\
     forall r, In r active -> Sale.id r <> id) /\
  (exists unsynced,
     SalesRepo.getUnsyncedSales w' = (Returns unsynced, w') /\
     forall r, In r (sales w') -> Sale.id r = id ->
               In r unsynced /\ Sale.deleted_at r = Some now1) /\
  (forall r0, In r0 (sales w) -> Sale.id r0 = id ->
     exists r,
       SalesRepo.getSaleById id true w' = (Returns (Some r), w') /\
       Sale.id r = id /\ Sale.deleted_at r = Some now1).
Proof.
  intros H w'. subst w'. rewrite SalesFacts.deleteSale_run by exact H.
  cbn [snd].
  set (w' := with_sales w _).
  assert (H' : ready w') by exact H.
  split; [| split; [| split]].
  - rewrite getSaleById_any_run by exact H'. do 2 f_equal.
    destruct (find _ (sales w')) as [r |] eqn:E; [| reflexivity].
    apply find_some in E as [Hin Hc].
    apply andb_true_iff in Hc as [Hid Hdel]. apply String.eqb_eq in Hid.
    destruct (sale_rows_after_delete w now1 now2 id r Hin Hid)
      as (r0 & _ & _ & ->).
    discriminate.
  - eexists. split.
    + unfold SalesRepo.getAllSales. rewrite ready_prelude by exact H'.
      reflexivity.
    + intros r Hr Hid. apply filter_In in Hr as [Hin Hdel].
      destruct (sale_rows_after_delete w now1 now2 id r Hin Hid)
        as (r0 & _ & _ & ->).
      discriminate.
  - eexists. split; [apply SalesFacts.getUnsyncedSales_run, H' |].
    intros r Hin Hid.
    destruct (sale_rows_after_delete w now1 now2 id r Hin Hid)
      as (r0 & _ & _ & ->).
    split; [| reflexivity]. apply filter_In. now split.
  - intros r0 H0 Hid0. rewrite getSaleById_any_run by exact H'.
    destruct (find _ (sales w')) as [r |] eqn:E.
    + apply find_some in E as [Hin Hc].
      apply andb_true_iff in Hc as [Hid _]. apply String.eqb_eq in Hid.
      exists r. split; [reflexivity |]. split; [exact Hid |].
      destruct (sale_rows_after_delete w now1 now2 id r Hin Hid)
        as (r1 & _ & _ & ->).
      reflexivity.
    + exfalso.
      assert (Hin : In (SalesRepo.mark_deleted now1 now2 r0) (sales w')).
      { apply in_update. exists r0. split; [exact H0 |].
        unfold SalesRepo.id_is. apply String.eqb_eq in Hid0.
        now rewrite Hid0. }
      pose proof (find_none _ _ E _ Hin) as Hc. cbn in Hc.
      unfold SalesRepo.id_is in Hc. cbn in Hc.
      apply String.eqb_eq in Hid0. rewrite Hid0 in Hc. discriminate.
Qed.

Lemma sale_hardDelete_removes_exactly (w : World) (id : string) :
  ready w ->
  let w' := snd (SalesRepo.hardDeleteSale id w) in
  fst (SalesRepo.hardDeleteSale id w) = Returns tt /\
  (forall r, In r (sales w') <-> In r (sales w) /\ Sale.id r <> id) /\
  SalesRepo.getSaleById id true w' = (Returns None, w').
Proof.
  intros H w'. subst w'. rewrite SalesFacts.hardDeleteSale_run by exact H.
  cbn [fst snd]. set (w' := with_sales w _).
  assert (H' : ready w') by exact H.
  assert (Hrows : forall r, In r (sales w') <->
                            In r (sales w) /\ Sale.id r <> id).
  { intros r. unfold w'. cbn [sales with_sales]. rewrite in_delete.
    unfold SalesRepo.id_is. now rewrite String.eqb_neq. }
  split; [reflexivity |]. split; [exact Hrows |].
  rewrite getSaleById_any_run by exact H'. do 2 f_equal.
  destruct (find _ (sales w')) as [r |] eqn:E; [| reflexivity].
  apply find_some in E as [Hin Hc].
  apply andb_true_iff in Hc as [Hid _]. apply String.eqb_eq in Hid.
  apply Hrows in Hin as [_ Hne]. contradiction.
Qed.

Lemma sale_markSynced_leaves_the_rest_unsynced (w : World) (id : string) :
  ready w ->
  let w' := snd (SalesRepo.markSaleAsSynced id w) in
  exists before after,
    SalesRepo.getUnsyncedSales w = (Returns before, w) /\
    SalesRepo.getUnsyncedSales w' = (Returns after, w') /\
    forall r, In r after <-> In r before /\ Sale.id r <> id.
Proof.
  intros H w'. subst w'. rewrite SalesFacts.markSaleAsSynced_run by exact H.
  cbn [snd]. set (w' := with_sales w _).
  assert (H' : ready w') by exact H.
  do 2 eexists. split; [apply SalesFacts.getUnsyncedSales_run, H |].
  split; [apply SalesFacts.getUnsyncedSales_run, H' |].
  intros r. unfold Sql.select. rewrite !filter_In. unfold w'.
  cbn [sales with_sales]. rewrite in_update. unfold SalesRepo.id_is. split.
  - intros [(r0 & H0 & ->) Hp].
    destruct (String.eqb (Sale.id r0) id) eqn:E; [discriminate |].
    apply String.eqb_neq in E. auto.
  - intros [[Hin Hp] Hne]. split; [| exact Hp]. exists r.
    split; [exact Hin |]. apply String.eqb_neq in Hne. now rewrite Hne.
Qed.

Lemma NoDup_snoc {K : Type} (l : list K) (k : K) :
  NoDup l -> ~ In k l -> NoDup (l ++ [k]).
Proof.
  induction 1 as [| x l Hx Hl IH]; cbn; intros Hk.
  - constructor; [intros [] | constructor].
  - constructor.
    + rewrite in_app_iff. cbn. intuition congruence.
    + apply IH. intuition.
Qed.

Lemma sale_mutations_keep_ids_unique
    (w : World) (uuid_v4 datetime_now now now1 now2 id : string)
    (fields : Sale.New.t) (patch : Sale.Patch.t) :
  sales_keyed w ->
  sales_keyed (snd (SalesRepo.createSale uuid_v4 datetime_now fields w)) /\
  sales_keyed (snd (SalesRepo.updateSale now id patch w)) /\
  sales_keyed (snd (SalesRepo.deleteSale now1 now2 id w)) /\
  sales_keyed (snd (SalesRepo.markSaleAsSynced id w)) /\
  sales_keyed (snd (SalesRepo.hardDeleteSale id w)).
Proof.
  intros K. unfold sales_keyed in *. repeat split.
  - destruct (createSale_cases w uuid_v4 datetime_now fields)
      as [(_ & Hf & _ & ->) | [m ->]]; [| exact K].
    cbn [snd sales with_sales]. rewrite map_app. cbn.
    apply NoDup_snoc; [exact K |].
    intros Hin. apply in_map_iff in Hin as (r & E & Hr).
    now apply (Hf r Hr).
  - destruct (updateSale_cases w now id patch) as [(_ & _ & ->) | [m ->]];
      [| exact K].
    cbn [sales with_sales].
    destruct (Sale.values_not_null patch); [| exact K].
    now rewrite update_keys.
  - destruct (deleteSale_cases w now1 now2 id) as [(_ & ->) | [m ->]];
      [| exact K].
    cbn [snd sales with_sales]. now rewrite update_keys.
  - destruct (markSaleAsSynced_cases w id) as [(_ & ->) | [m ->]];
      [| exact K].
    cbn [snd sales with_sales]. now rewrite update_keys.
  - destruct (hardDeleteSale_cases w id) as [(_ & ->) | [m ->]];
      [| exact K].
    cbn [snd sales with_sales]. now apply delete_keys_NoDup.
Qed.

Lemma sale_create_with_used_id_throws
    (w : World) (uuid_v4 datetime_now : string) (fields : Sale.New.t) :
  ready w ->
  (exists r, In r (sales w) /\ Sale.id r = uuid_v4) ->
  exists m,
    SalesRepo.createSale uuid_v4 datetime_now fields w = (Throws m, w).
Proof.
  intros H (r & Hr & Hid).
  destruct (createSale_ready_cases w uuid_v4 datetime_now fields H)
    as [(Hf & _) | [X | X]]; [| eexists; exact X ..].
  now destruct (Hf r Hr).
Qed.

Lemma sale_mutations_keep_identity
    (w : World) (now now1 now2 id : string) (patch : Sale.Patch.t) :
  Forall2 sale_identity_kept (sales w)
    (sales (snd (SalesRepo.updateSale now id patch w))) /\
  Forall2 sale_identity_kept (sales w)
    (sales (snd (SalesRepo.deleteSale now1 now2 id w))) /\
  Forall2 sale_identity_kept (sales w)
    (sales (snd (SalesRepo.markSaleAsSynced id w))).
Proof.
  assert (Hsame : Forall2 sale_identity_kept (sales w) (sales w)).
  { apply Forall2_same. intros r. now repeat split. }
  repeat split.
  - destruct (updateSale_cases w now id patch) as [(_ & _ & ->) | [m ->]];
      [| exact Hsame].
    cbn [sales with_sales].
    destruct (Sale.values_not_null patch); [| exact Hsame].
    eapply Forall2_weaken; [| apply update_rows].
    intros old new _ ->. destruct (SalesRepo.id_is id old);
      now repeat split.
  - destruct (deleteSale_cases w now1 now2 id) as [(_ & ->) | [m ->]];
      [| exact Hsame].
    cbn [snd sales with_sales].
    eapply Forall2_weaken; [| apply update_rows].
    intros old new _ ->. destruct (SalesRepo.id_is id old);
      now repeat split.
  - destruct (markSaleAsSynced_cases w id) as [(_ & ->) | [m ->]];
      [| exact Hsame].
    cbn [snd sales with_sales].
    eapply Forall2_weaken; [| apply update_rows].
    intros old new _ ->. destruct (SalesRepo.id_is id old);
      now repeat split.
Qed.

Lemma product_rows_after_delete (w : World) (now1 now2 id : string) (r : Product.t) :
  In r (Sql.update (ProductsRepo.mark_deleted now1 now2) (ProductsRepo.id_is id)
          (products w)) ->
  Product.id r = id ->
  exists r0, In r0 (products w) /\ Product.id r0 = id /\
             r = ProductsRepo.mark_deleted now1 now2 r0.
Proof.
  intros Hin Hid. apply in_update in Hin as (r0 & H0 & ->).
  unfold ProductsRepo.id_is in *.
  destruct (String.eqb (Product.id r0) id) eqn:E.
  - apply String.eqb_eq in E. now exists r0.
  - apply String.eqb_neq in E. congruence.
Qed.

Lemma product_softDelete_then_reads (w : World) (now1 now2 id : string) :
  ready w ->
  let w' := snd (ProductsRepo.deleteProduct now1 now2 id w) in
  ProductsRepo.getProductById id false w' = (Returns None, w') /\
  (exists active,
     ProductsRepo.getAllProducts w' = (Returns active, w') /\
     forall r, In r active -> Product.id r <> id) /\
  (exists unsynced,
     ProductsRepo.getUnsyncedProducts w' = (Returns unsynced, w') /\
     forall r, In r (products w') -> Product.id r = id ->
               In r unsynced /\ Product.deleted_at r = Some now1) /\
  (forall r0, In r0 (products w) -> Product.id r0 = id ->
     exists r,
       ProductsRepo.getProductById id true w' = (Returns (Some r), w') /\
       Product.id r = id /\ Product.deleted_at r = Some now1).
Proof.
  intros H w'. subst w'. rewrite ProductsFacts.deleteProduct_run by exact H.
  cbn [snd].
  set (w' := with_products w _).
  assert (H' : ready w') by exact H.
  split; [| split; [| split]].
  - rewrite getProductById_any_run by exact H'. do 2 f_equal.
    destruct (find _ (products w')) as [r |] eqn:E; [| reflexivity].
    apply find_some in E as [Hin Hc].
    apply andb_true_iff in Hc as [Hid Hdel]. apply String.eqb_eq in Hid.
    destruct (product_rows_after_delete w now1 now2 id r Hin Hid)
      as (r0 & _ & _ & ->).
    discriminate.
  - eexists. split.
    + unfold ProductsRepo.getAllProducts. rewrite ready_prelude by exact H'.
      reflexivity.
    + intros r Hr Hid. apply filter_In in Hr as [Hin Hdel].
      destruct (product_rows_after_delete w now1 now2 id r Hin Hid)
        as (r0 & _ & _ & ->).
      discriminate.
  - eexists. split; [apply ProductsFacts.getUnsyncedProducts_run, H' |].
    intros r Hin Hid.
    destruct (product_rows_after_delete w now1 now2 id r Hin Hid)
      as (r0 & _ & _ & ->).
    split; [| reflexivity]. apply filter_In. now split.
  - intros r0 H0 Hid0. rewrite getProductById_any_run by exact H'.
    destruct (find _ (products w')) as [r |] eqn:E.
    + apply find_some in E as [Hin Hc].
      apply andb_true_iff in Hc as [Hid _]. apply String.eqb_eq in Hid.
      exists r. split; [reflexivity |]. split; [exact Hid |].
      destruct (product_rows_after_delete w now1 now2 id r Hin Hid)
        as (r1 & _ & _ & ->).
      reflexivity.
    + exfalso.
      assert (Hin : In (ProductsRepo.mark_deleted now1 now2 r0) (products w')).
      { apply in_update. exists r0. split; [exact H0 |].
        unfold ProductsRepo.id_is. apply String.eqb_eq in Hid0.
        now rewrite Hid0. }
      pose proof (find_none _ _ E _ Hin) as Hc. cbn in Hc.
      unfold ProductsRepo.id_is in Hc. cbn in Hc.
      apply String.eqb_eq in Hid0. rewrite Hid0 in Hc. discriminate.
Qed.

Lemma product_hardDelete_removes_exactly (w : World) (id : string) :
  ready w ->
  let w' := snd (ProductsRepo.hardDeleteProduct id w) in
  fst (ProductsRepo.hardDeleteProduct id w) = Returns tt /\
  (forall r, In r (products w') <-> In r (products w) /\ Product.id r <> id) /\
  ProductsRepo.getProductById id true w' = (Returns None, w').
Proof.
  intros H w'. subst w'. rewrite ProductsFacts.hardDeleteProduct_run by exact H.
  cbn [fst snd]. set (w' := with_products w _).
  assert (H' : ready w') by exact H.
  assert (Hrows : forall r, In r (products w') <->
                            In r (products w) /\ Product.id r <> id).
  { intros r. unfold w'. cbn [products with_products]. rewrite in_delete.
    unfold ProductsRepo.id_is. now rewrite String.eqb_neq. }
  split; [reflexivity |]. split; [exact Hrows |].
  rewrite getProductById_any_run by exact H'. do 2 f_equal.
  destruct (find _ (products w')) as [r |] eqn:E; [| reflexivity].
  apply find_some in E as [Hin Hc].
  apply andb_true_iff in Hc as [Hid _]. apply String.eqb_eq in Hid.
  apply Hrows in Hin as [_ Hne]. contradiction.
Qed.

Lemma product_markSynced_leaves_the_rest_unsynced (w : World) (id : string) :
  ready w ->
  let w' := snd (ProductsRepo.markProductAsSynced id w) in
  exists before after,
    ProductsRepo.getUnsyncedProducts w = (Returns before, w) /\
    ProductsRepo.getUnsyncedProducts w' = (Returns after, w') /\
    forall r, In r after <-> In r before /\ Product.id r <> id.
Proof.
  intros H w'. subst w'. rewrite ProductsFacts.markProductAsSynced_run by exact H.
  cbn [snd]. set (w' := with_products w _).
  assert (H' : ready w') by exact H.
  do 2 eexists. split; [apply ProductsFacts.getUnsyncedProducts_run, H |].
  split; [apply ProductsFacts.getUnsyncedProducts_run, H' |].
  intros r. unfold Sql.select. rewrite !filter_In. unfold w'.
  cbn [products with_products]. rewrite in_update. unfold ProductsRepo.id_is. split.
  - intros [(r0 & H0 & ->) Hp].
    destruct (String.eqb (Product.id r0) id) eqn:E; [discriminate |].
    apply String.eqb_neq in E. auto.
  - intros [[Hin Hp] Hne]. split; [| exact Hp]. exists r.
    split; [exact Hin |]. apply String.eqb_neq in Hne. now rewrite Hne.
Qed.

Lemma product_mutations_keep_ids_unique
    (w : World) (uuid_v4 datetime_now now now1 now2 id : string)
    (fields : Product.New.t) (patch : Product.Patch.t) :
  products_keyed w ->
  products_keyed (snd (ProductsRepo.createProduct uuid_v4 datetime_now fields w)) /\
  products_keyed (snd (ProductsRepo.updateProduct now id patch w)) /\
  products_keyed (snd (ProductsRepo.deleteProduct now1 now2 id w)) /\
  products_keyed (snd (ProductsRepo.markProductAsSynced id w)) /\
  products_keyed (snd (ProductsRepo.hardDeleteProduct id w)).
Proof.
  intros K. unfold products_keyed in *. repeat split.
  - destruct (createProduct_cases w uuid_v4 datetime_now fields)
      as [(_ & Hf & _ & ->) | [m ->]]; [| exact K].
    cbn [snd products with_products]. rewrite map_app. cbn.
    apply NoDup_snoc; [exact K |].
    intros Hin. apply in_map_iff in Hin as (r & E & Hr).
    now apply (Hf r Hr).
  - destruct (updateProduct_cases w now id patch) as [(_ & _ & ->) | [m ->]];
      [| exact K].
    cbn [products with_products].
    destruct (Product.values_not_null patch); [| exact K].
    now rewrite update_keys.
  - destruct (deleteProduct_cases w now1 now2 id) as [(_ & ->) | [m ->]];
      [| exact K].
    cbn [snd products with_products]. now rewrite update_keys.
  - destruct (markProductAsSynced_cases w id) as [(_ & ->) | [m ->]];
      [| exact K].
    cbn [snd products with_products]. now rewrite update_keys.
  - destruct (hardDeleteProduct_cases w id) as [(_ & ->) | [m ->]];
      [| exact K].
    cbn [snd products with_products]. now apply delete_keys_NoDup.
Qed.

Lemma product_create_with_used_id_throws
    (w : World) (uuid_v4 datetime_now : string) (fields : Product.New.t) :
  ready w ->
  (exists r, In r (products w) /\ Product.id r = uuid_v4) ->
  exists m,
    ProductsRepo.createProduct uuid_v4 datetime_now fields w = (Throws m, w).
Proof.
  intros H (r & Hr & Hid).
  destruct (createProduct_ready_cases w uuid_v4 datetime_now fields H)
    as [(Hf & _) | [X | X]]; [| eexists; exact X ..].
  now destruct (Hf r Hr).
Qed.

Lemma product_mutations_keep_identity
    (w : World) (now now1 now2 id : string) (patch : Product.Patch.t) :
  Forall2 product_identity_kept (products w)
    (products (snd (ProductsRepo.updateProduct now id patch w))) /\
  Forall2 product_identity_kept (products w)
    (products (snd (ProductsRepo.deleteProduct now1 now2 id w))) /\
  Forall2 product_identity_kept (products w)
    (products (snd (ProductsRepo.markProductAsSynced id w))).
Proof.
  assert (Hsame : Forall2 product_identity_kept (products w) (products w)).
  { apply Forall2_same. intros r. now repeat split. }
  repeat split.
  - destruct (updateProduct_cases w now id patch) as [(_ & _ & ->) | [m ->]];
      [| exact Hsame].
    cbn [products with_products].
    destruct (Product.values_not_null patch); [| exact Hsame].
    eapply Forall2_weaken; [| apply update_rows].
    intros old new _ ->. destruct (ProductsRepo.id_is id old);
      now repeat split.
  - destruct (deleteProduct_cases w now1 now2 id) as [(_ & ->) | [m ->]];
      [| exact Hsame].
    cbn [snd products with_products].
    eapply Forall2_weaken; [| apply update_rows].
    intros old new _ ->. destruct (ProductsRepo.id_is id old);
      now repeat split.
  - destruct (markProductAsSynced_cases w id) as [(_ & ->) | [m ->]];
      [| exact Hsame].
    cbn [snd products with_products].
    eapply Forall2_weaken; [| apply update_rows].
    intros old new _ ->. destruct (ProductsRepo.id_is id old);
      now repeat split.
Qed.

(** X7: on a ready client, after [deleteSale] / [deleteProduct] of an id,
    the default [getById] of that id finds nothing, [getAll] returns no row
    with that id, every row with that id is among the unsynced rows with
    [deleted_at] set to the call's first clock reading, and, when the table
    had a row with that id, [getById] with [includeDeleted] still returns
    one, soft-deleted at that reading. *)
Theorem softDelete_hides_the_row_from_reads_but_not_from_sync
    (w : World) (now1 now2 id : string) :
  ready w ->
  (let w' := snd (SalesRepo.deleteSale now1 now2 id w) in
     SalesRepo.getSaleById id false w' = (Returns None, w') /\
     (exists active,
        SalesRepo.getAllSales w' = (Returns active, w') /\
        forall r, In r active -> Sale.id r <> id) /\
     (exists unsynced,
        SalesRepo.getUnsyncedSales w' = (Returns unsynced, w') /\
        forall r, In r (sales w') -> Sale.id r = id ->
                  In r unsynced /\ Sale.deleted_at r = Some now1) /\
     (forall r0, In r0 (sales w) -> Sale.id r0 = id ->
        exists r,
          SalesRepo.getSaleById id true w' = (Returns (Some r), w') /\
          Sale.id r = id /\ Sale.deleted_at r = Some now1)) /\
  (let w' := snd (ProductsRepo.deleteProduct now1 now2 id w) in
     ProductsRepo.getProductById id false w' = (Returns None, w') /\
     (exists active,
        ProductsRepo.getAllProducts w' = (Returns active, w') /\
        forall r, In r active -> Product.id r <> id) /\
     (exists unsynced,
        ProductsRepo.getUnsyncedProducts w' = (Returns unsynced, w') /\
        forall r, In r (products w') -> Product.id r = id ->
                  In r unsynced /\ Product.deleted_at r = Some now1) /\
     (forall r0, In r0 (products w) -> Product.id r0 = id ->
        exists r,
          ProductsRepo.getProductById id true w' = (Returns (Some r), w') /\
          Product.id r = id /\ Product.deleted_at r = Some now1)).
Proof.
  intros H0. split.
  - now apply sale_softDelete_then_reads.
  - now apply product_softDelete_then_reads.
Qed.

Lemma softDelete_hides_the_row_from_reads_but_not_from_sync_witness :
  let w' := snd (SalesRepo.deleteSale "2024-02-01T00:00:00.000Z"
                   "2024-02-01T00:00:00.001Z" "s1" Demo.world) in
  SalesRepo.getSaleById "s1" false w' = (Returns None, w') /\
  exists unsynced,
    SalesRepo.getUnsyncedSales w' = (Returns unsynced, w') /\
    forall r, In r (sales w') -> Sale.id r = "s1" ->
              In r unsynced /\
              Sale.deleted_at r = Some "2024-02-01T00:00:00.000Z".
Proof.
  destruct (proj1 (softDelete_hides_the_row_from_reads_but_not_from_sync Demo.world "2024-02-01T00:00:00.000Z"
                     "2024-02-01T00:00:00.001Z" "s1" ready_demo))
    as (A & _ & B & _).
  split; [exact A | exact B].
Defined.

(** X8: on a ready client [hardDeleteSale] / [hardDeleteProduct] return
    without error and remove exactly the rows with the given id, the other
    rows staying as they are; afterwards even [getById] with
    [includeDeleted] finds nothing under that id. *)
Theorem hardDelete_removes_exactly_the_rows_with_the_id
    (w : World) (id : string) :
  ready w ->
  (let w' := snd (SalesRepo.hardDeleteSale id w) in
     fst (SalesRepo.hardDeleteSale id w) = Returns tt /\
     (forall r, In r (sales w') <-> In r (sales w) /\ Sale.id r <> id) /\
     SalesRepo.getSaleById id true w' = (Returns None, w')) /\
  (let w' := snd (ProductsRepo.hardDeleteProduct id w) in
     fst (ProductsRepo.hardDeleteProduct id w) = Returns tt /\
     (forall r, In r (products w') <-> In r (products w) /\ Product.id r <> id) /\
     ProductsRepo.getProductById id true w' = (Returns None, w')).
Proof.
  intros H0. split.
  - now apply sale_hardDelete_removes_exactly.
  - now apply product_hardDelete_removes_exactly.
Qed.

Lemma hardDelete_removes_exactly_the_rows_with_the_id_witness :
  let w' := snd (SalesRepo.hardDeleteSale "s2" Demo.world) in
  sales w' = [Demo.sale1] /\
  SalesRepo.getSaleById "s2" true w' = (Returns None, w').
Proof.
  split; [reflexivity |].
  exact (proj2 (proj2 (proj1 (hardDelete_removes_exactly_the_rows_with_the_id Demo.world "s2" ready_demo)))).
Defined.

(** X9: on a ready client, what [getUnsynced] returns after [markSynced]
    of an id is what it returned before, less the rows with that id: the
    acknowledged rows leave the pending set and no other row does. *)
Theorem markSynced_takes_only_its_rows_out_of_the_unsynced
    (w : World) (id : string) :
  ready w ->
  (let w' := snd (SalesRepo.markSaleAsSynced id w) in
     exists before after,
       SalesRepo.getUnsyncedSales w = (Returns before, w) /\
       SalesRepo.getUnsyncedSales w' = (Returns after, w') /\
       forall r, In r after <-> In r before /\ Sale.id r <> id) /\
  (let w' := snd (ProductsRepo.markProductAsSynced id w) in
     exists before after,
       ProductsRepo.getUnsyncedProducts w = (Returns before, w) /\
       ProductsRepo.getUnsyncedProducts w' = (Returns after, w') /\
       forall r, In r after <-> In r before /\ Product.id r <> id).
Proof.
  intros H0. split.
  - now apply sale_markSynced_leaves_the_rest_unsynced.
  - now apply product_markSynced_leaves_the_rest_unsynced.
Qed.

Lemma markSynced_takes_only_its_rows_out_of_the_unsynced_witness :
  fst (SalesRepo.getUnsyncedSales Demo.world) = Returns [Demo.sale1] /\
  let w' := snd (ProductsRepo.markProductAsSynced "p2" Demo.world) in
  exists before after,
    ProductsRepo.getUnsyncedProducts Demo.world
      = (Returns before, Demo.world) /\
    ProductsRepo.getUnsyncedProducts w' = (Returns after, w') /\
    forall r, In r after <-> In r before /\ Product.id r <> "p2".
Proof.
  split; [reflexivity |].
  exact (proj2 (markSynced_takes_only_its_rows_out_of_the_unsynced Demo.world "p2" ready_demo)).
Defined.

(** X10: the primary key is an invariant of the repositories: if no two
    rows of a table share an id, the same holds after [create] (with
    whatever id [uuid.v4()] gives), [update], [softDelete], [markSynced] and
    [hardDelete], whether they return or throw. *)
Theorem mutations_keep_ids_unique
    (w : World) (uuid_v4 datetime_now now now1 now2 id : string)
    (sale_fields : Sale.New.t) (sale_patch : Sale.Patch.t)
    (product_fields : Product.New.t) (product_patch : Product.Patch.t) :
  sales_keyed w ->
  products_keyed w ->
  (sales_keyed (snd (SalesRepo.createSale uuid_v4 datetime_now sale_fields w)) /\
     sales_keyed (snd (SalesRepo.updateSale now id sale_patch w)) /\
     sales_keyed (snd (SalesRepo.deleteSale now1 now2 id w)) /\
     sales_keyed (snd (SalesRepo.markSaleAsSynced id w)) /\
     sales_keyed (snd (SalesRepo.hardDeleteSale id w))) /\
  (products_keyed (snd (ProductsRepo.createProduct uuid_v4 datetime_now product_fields w)) /\
     products_keyed (snd (ProductsRepo.updateProduct now id product_patch w)) /\
     products_keyed (snd (ProductsRepo.deleteProduct now1 now2 id w)) /\
     products_keyed (snd (ProductsRepo.markProductAsSynced id w)) /\
     products_keyed (snd (ProductsRepo.hardDeleteProduct id w))).
Proof.
  intros H0 H1. split.
  - now apply sale_mutations_keep_ids_unique.
  - now apply product_mutations_keep_ids_unique.
Qed.

Lemma mutations_keep_ids_unique_witness :
  sales_keyed Demo.world /\
  sales_keyed (snd (SalesRepo.createSale "s1" "2024-02-01 00:00:00"
                      DemoInput.sale_fields Demo.world)) /\
  sales_keyed (snd (SalesRepo.createSale "s3" "2024-02-01 00:00:00"
                      DemoInput.sale_fields Demo.world)).
Proof.
  assert (Ks : sales_keyed Demo.world).
  { unfold sales_keyed. cbn. repeat constructor; cbn; intuition discriminate. }
  assert (Kp : products_keyed Demo.world).
  { unfold products_keyed. cbn.
    repeat constructor; cbn; intuition discriminate. }
  split; [exact Ks |]. split.
  - exact (proj1 (proj1 (mutations_keep_ids_unique Demo.world "s1" "2024-02-01 00:00:00"
      "2024-02-01T00:00:00.000Z" "2024-02-01T00:00:00.000Z"
      "2024-02-01T00:00:00.001Z" "s1" DemoInput.sale_fields
      DemoInput.sale_patch DemoInput.product_fields DemoInput.product_patch
      Ks Kp))).
  - exact (proj1 (proj1 (mutations_keep_ids_unique Demo.world "s3" "2024-02-01 00:00:00"
      "2024-02-01T00:00:00.000Z" "2024-02-01T00:00:00.000Z"
      "2024-02-01T00:00:00.001Z" "s1" DemoInput.sale_fields
      DemoInput.sale_patch DemoInput.product_fields DemoInput.product_patch
      Ks Kp))).
Defined.

(** X11: on a ready client, [create] with a generated id that a row of the
    table already carries throws (the primary key rejects the insert) and
    leaves the world as it was: nothing is stored and the existing row is
    not overwritten. *)
Theorem create_with_a_used_id_throws_and_stores_nothing
    (w : World) (uuid_v4 datetime_now : string)
    (sale_fields : Sale.New.t) (product_fields : Product.New.t) :
  ready w ->
  ((exists r, In r (sales w) /\ Sale.id r = uuid_v4) ->
     exists m,
       SalesRepo.createSale uuid_v4 datetime_now sale_fields w = (Throws m, w)) /\
  ((exists r, In r (products w) /\ Product.id r = uuid_v4) ->
     exists m,
       ProductsRepo.createProduct uuid_v4 datetime_now product_fields w = (Throws m, w)).
Proof.
  intros H0. split.
  - now apply sale_create_with_used_id_throws.
  - now apply product_create_with_used_id_throws.
Qed.

Lemma create_with_a_used_id_throws_and_stores_nothing_witness :
  exists m,
    SalesRepo.createSale "s2" "2024-02-01 00:00:00" DemoInput.sale_fields
      Demo.world = (Throws m, Demo.world).
Proof.
  apply (proj1 (create_with_a_used_id_throws_and_stores_nothing Demo.world "s2" "2024-02-01 00:00:00"
                  DemoInput.sale_fields DemoInput.product_fields ready_demo)).
  exists Demo.sale2. split; [right; left; reflexivity | reflexivity].
Defined.

(** X12: [update] with any patch, [softDelete] and [markSynced] never add,
    remove or reorder rows, never change a row's [id] or [created_at], and
    never clear a [deleted_at] that is set; this holds on every world,
    whether the call returns or throws. *)
Theorem mutations_keep_id_created_at_and_deletion
    (w : World) (now now1 now2 id : string)
    (sale_patch : Sale.Patch.t) (product_patch : Product.Patch.t) :
  (Forall2 sale_identity_kept (sales w)
       (sales (snd (SalesRepo.updateSale now id sale_patch w))) /\
     Forall2 sale_identity_kept (sales w)
       (sales (snd (SalesRepo.deleteSale now1 now2 id w))) /\
     Forall2 sale_identity_kept (sales w)
       (sales (snd (SalesRepo.markSaleAsSynced id w)))) /\
  (Forall2 product_identity_kept (products w)
       (products (snd (ProductsRepo.updateProduct now id product_patch w))) /\
     Forall2 product_identity_kept (products w)
       (products (snd (ProductsRepo.deleteProduct now1 now2 id w))) /\
     Forall2 product_identity_kept (products w)
       (products (snd (ProductsRepo.markProductAsSynced id w)))).
Proof.
  split.
  - apply sale_mutations_keep_identity.
  - apply product_mutations_keep_identity.
Qed.

(** ** update returns the merged row *)

Lemma find_update {R : Type} (c u : R -> bool) (f : R -> R) (t : list R) :
  (forall r, c (f r) = c r) ->
  (forall r, c r = true -> u r = true) ->
  find c (Sql.update f u t) = option_map f (find c t).
Proof.
  intros Hc Hu. unfold Sql.update.
  induction t as [| r t IH]; cbn; [reflexivity |].
  destruct (u r) eqn:Eu.
  - rewrite Hc. now destruct (c r).
  - destruct (c r) eqn:Ec; [| exact IH].
    rewrite (Hu r Ec) in Eu. discriminate.
Qed.

Lemma sale_update_succeeds (w : World) (now id : string)
    (patch : Sale.Patch.t) (cur : Sale.t) :
  ready w ->
  fst (SalesRepo.getSaleById id false w) = Returns (Some cur) ->
  Sale.values_not_null patch = true ->
  let values := Sale.stored_values (SalesRepo.stamped patch now) in
  let w' := with_sales w
              (Sql.update (Sale.set values) (SalesRepo.id_is id) (sales w)) in
  Sale.deleted_at cur = None /\
  SalesRepo.updateSale now id patch w = (Returns (Sale.set values cur), w') /\
  SalesRepo.getSaleById id false w' =
    (Returns (Some (Sale.set values cur)), w').
Proof.
  intros H Hr Hn values w'.
  rewrite getSaleById_any_run in Hr by exact H. cbn [fst orb] in Hr.
  injection Hr as Hr.
  assert (Hdel : Sale.deleted_at cur = None).
  { apply find_some in Hr as [_ Hc]. apply andb_true_iff in Hc as [_ Hd].
    unfold SalesRepo.not_deleted in Hd. now destruct (Sale.deleted_at cur). }
  assert (Hfind :
    find (fun r => SalesRepo.id_is id r && SalesRepo.not_deleted r)
      (sales w') = Some (Sale.set values cur)).
  { unfold w'. cbn [sales with_sales].
    rewrite find_update, Hr; [reflexivity | reflexivity |].
    intros x Hx. now apply andb_true_iff in Hx as [Hx _]. }
  split; [exact Hdel |]. split.
  - pose proof (SalesFacts.updateSale_run w now id patch H Hn) as R.
    cbn zeta in R. rewrite R. fold values. fold w'.
    now rewrite first_limit_select, Hfind.
  - rewrite getSaleById_any_run by exact H. cbn [orb]. now rewrite Hfind.
Qed.

(** With an active row under the id, a patch that holds a NaN makes the
    [UPDATE] fail: [updateSale] throws the database's error and nothing is
    written. *)
Lemma sale_update_refused (w : World) (now id : string)
    (patch : Sale.Patch.t) (cur : Sale.t) :
  ready w ->
  fst (SalesRepo.getSaleById id false w) = Returns (Some cur) ->
  Sale.values_not_null patch = false ->
  SalesRepo.updateSale now id patch w
    = (Throws "NOT NULL constraint failed", w).
Proof.
  intros H Hr Hn.
  rewrite getSaleById_any_run in Hr by exact H. cbn [fst orb] in Hr.
  injection Hr as Hr. apply find_some in Hr as [Hin Hc].
  apply andb_true_iff in Hc as [Hid _].
  rewrite (SalesFacts.updateSale_refused w now id patch H Hn).
  replace (existsb (SalesRepo.id_is id) (sales w)) with true; [reflexivity |].
  symmetry. apply existsb_exists. now exists cur.
Qed.

Lemma product_update_succeeds (w : World) (now id : string)
    (patch : Product.Patch.t) (cur : Product.t) :
  ready w ->
  fst (ProductsRepo.getProductById id false w) = Returns (Some cur) ->
  Product.values_not_null patch = true ->
  let values := Product.stored_values (ProductsRepo.stamped patch now) in
  let w' := with_products w
              (Sql.update (Product.set values) (ProductsRepo.id_is id) (products w)) in
  Product.deleted_at cur = None /\
  ProductsRepo.updateProduct now id patch w = (Returns (Product.set values cur), w') /\
  ProductsRepo.getProductById id false w' =
    (Returns (Some (Product.set values cur)), w').
Proof.
  intros H Hr Hn values w'.
  rewrite getProductById_any_run in Hr by exact H. cbn [fst orb] in Hr.
  injection Hr as Hr.
  assert (Hdel : Product.deleted_at cur = None).
  { apply find_some in Hr as [_ Hc]. apply andb_true_iff in Hc as [_ Hd].
    unfold ProductsRepo.not_deleted in Hd. now destruct (Product.deleted_at cur). }
  assert (Hfind :
    find (fun r => ProductsRepo.id_is id r && ProductsRepo.not_deleted r)
      (products w') = Some (Product.set values cur)).
  { unfold w'. cbn [products with_products].
    rewrite find_update, Hr; [reflexivity | reflexivity |].
    intros x Hx. now apply andb_true_iff in Hx as [Hx _]. }
  split; [exact Hdel |]. split.
  - pose proof (ProductsFacts.updateProduct_run w now id patch H Hn) as R.
    cbn zeta in R. rewrite R. fold values. fold w'.
    now rewrite first_limit_select, Hfind.
  - rewrite getProductById_any_run by exact H. cbn [orb]. now rewrite Hfind.
Qed.

(** With an active row under the id, a patch that holds a NaN makes the
    [UPDATE] fail: [updateProduct] throws the database's error and nothing is
    written. *)
Lemma product_update_refused (w : World) (now id : string)
    (patch : Product.Patch.t) (cur : Product.t) :
  ready w ->
  fst (ProductsRepo.getProductById id false w) = Returns (Some cur) ->
  Product.values_not_null patch = false ->
  ProductsRepo.updateProduct now id patch w
    = (Throws "NOT NULL constraint failed", w).
Proof.
  intros H Hr Hn.
  rewrite getProductById_any_run in Hr by exact H. cbn [fst orb] in Hr.
  injection Hr as Hr. apply find_some in Hr as [Hin Hc].
  apply andb_true_iff in Hc as [Hid _].
  rewrite (ProductsFacts.updateProduct_refused w now id patch H Hn).
  replace (existsb (ProductsRepo.id_is id) (products w)) with true; [reflexivity |].
  symmetry. apply existsb_exists. now exists cur.
Qed.

(** X13: on a ready client, when the default [getById] finds the active row
    [r] under an id, [update] of that id with a patch the database accepts
    returns without error the merged row: the columns named in the patch
    take the patch's values as the columns keep them, except [updated_at],
    which is the call's clock reading, and [sync_status], which is
    [pending]; [id], [created_at] and the columns the patch does not name
    are those of [r]; and [getById] reads the same row back. With a patch
    that holds a NaN the database refuses the [UPDATE]: [update] throws and
    the world is as it was. *)
Theorem update_returns_the_merged_row
    (w : World) (now id : string)
    (sale_patch : Sale.Patch.t) (product_patch : Product.Patch.t) :
  ready w ->
  (forall r,
     fst (SalesRepo.getSaleById id false w) = Returns (Some r) ->
     let merged :=
       {| Sale.id := Sale.id r;
          Sale.product_id :=
            or_else (Sale.Patch.product_id sale_patch) (Sale.product_id r);
          Sale.quantity :=
            or_else (option_map Number.stored (Sale.Patch.quantity sale_patch))
              (Sale.quantity r);
          Sale.total :=
            or_else (option_map Number.stored (Sale.Patch.total sale_patch))
              (Sale.total r);
          Sale.created_at := Sale.created_at r;
          Sale.updated_at := now;
          Sale.deleted_at := None;
          Sale.sync_status := pending |} in
     let w' := snd (SalesRepo.updateSale now id sale_patch w) in
     if Sale.values_not_null sale_patch
     then fst (SalesRepo.updateSale now id sale_patch w) = Returns merged /\
          SalesRepo.getSaleById id false w' = (Returns (Some merged), w')
     else exists m,
            SalesRepo.updateSale now id sale_patch w = (Throws m, w)) /\
  (forall r,
     fst (ProductsRepo.getProductById id false w) = Returns (Some r) ->
     let merged :=
       {| Product.id := Product.id r;
          Product.name :=
            or_else (Product.Patch.name product_patch) (Product.name r);
          Product.price :=
            or_else
              (option_map Number.stored (Product.Patch.price product_patch))
              (Product.price r);
          Product.created_at := Product.created_at r;
          Product.updated_at := now;
          Product.deleted_at := None;
          Product.sync_status := pending |} in
     let w' := snd (ProductsRepo.updateProduct now id product_patch w) in
     if Product.values_not_null product_patch
     then fst (ProductsRepo.updateProduct now id product_patch w)
            = Returns merged /\
          ProductsRepo.getProductById id false w'
            = (Returns (Some merged), w')
     else exists m,
            ProductsRepo.updateProduct now id product_patch w
            = (Throws m, w)).
Proof.
  intros H. split.
  - intros r Hr merged w'.
    destruct (Sale.values_not_null sale_patch) eqn:Hn;
      [| eexists; now apply (sale_update_refused w now id sale_patch r)].
    destruct (sale_update_succeeds w now id sale_patch r H Hr Hn)
      as (Hdel & Eu & Eg).
    assert (Em : Sale.set (Sale.stored_values
                             (SalesRepo.stamped sale_patch now)) r = merged).
    { unfold merged, Sale.set. cbn. now rewrite Hdel. }
    subst w'. rewrite Eu. cbn [fst snd]. now rewrite Eg, Em.
  - intros r Hr merged w'.
    destruct (Product.values_not_null product_patch) eqn:Hn;
      [| eexists;
         now apply (product_update_refused w now id product_patch r)].
    destruct (product_update_succeeds w now id product_patch r H Hr Hn)
      as (Hdel & Eu & Eg).
    assert (Em : Product.set (Product.stored_values
                                (ProductsRepo.stamped product_patch now)) r
                 = merged).
    { unfold merged, Product.set. cbn. now rewrite Hdel. }
    subst w'. rewrite Eu. cbn [fst snd]. now rewrite Eg, Em.
Qed.

Lemma update_returns_the_merged_row_witness :
  fst (SalesRepo.updateSale "2024-02-01T00:00:00.000Z" "s1"
         DemoInput.sale_patch Demo.world) =
  Returns
    {| Sale.id := "s1"; Sale.product_id := "p1"; Sale.quantity := 7;
       Sale.total := 69.93;
       Sale.created_at := "2024-01-01 10:00:00";
       Sale.updated_at := "2024-02-01T00:00:00.000Z";
       Sale.deleted_at := None; Sale.sync_status := pending |}.
Proof.
  exact (proj1 (proj1 (update_returns_the_merged_row Demo.world
    "2024-02-01T00:00:00.000Z" "s1" DemoInput.sale_patch
    DemoInput.product_patch ready_demo) Demo.sale1 eq_refl)).
Defined.

(** ** Sales of one product and sales joined with their products *)

(** X14: on a ready client [getSalesByProductId] changes nothing and
    returns exactly those rows of [getAllSales] whose [product_id] is the
    one asked for; soft-deleted sales of the product are left out. *)
Theorem getSalesByProductId_is_getAllSales_for_the_product
    (w : World) (productId : string) :
  ready w ->
  exists result active,
    SalesRepo.getSalesByProductId productId w = (Returns result, w) /\
    SalesRepo.getAllSales w = (Returns active, w) /\
    (forall r, In r result <-> In r active /\ Sale.product_id r = productId).
Proof.
  intros H. do 2 eexists. split; [| split].
  - unfold SalesRepo.getSalesByProductId. rewrite ready_prelude by exact H.
    reflexivity.
  - unfold SalesRepo.getAllSales. rewrite ready_prelude by exact H.
    reflexivity.
  - intros r. unfold Sql.select. rewrite !filter_In, andb_true_iff.
    rewrite String.eqb_eq. tauto.
Qed.

Lemma getSalesByProductId_is_getAllSales_for_the_product_witness :
  fst (SalesRepo.getSalesByProductId "p1" Demo.world)
    = Returns [Demo.sale1] /\
  exists result active,
    SalesRepo.getSalesByProductId "p1" Demo.world
      = (Returns result, Demo.world) /\
    SalesRepo.getAllSales Demo.world = (Returns active, Demo.world) /\
    (forall r, In r result <-> In r active /\ Sale.product_id r = "p1").
Proof.
  split; [reflexivity |].
  exact (getSalesByProductId_is_getAllSales_for_the_product Demo.world "p1"
           ready_demo).
Defined.

Lemma in_leftJoin (ss : list Sale.t) (ps : list Product.t)
    (s : Sale.t) (op : option Product.t) :
  In (s, op) (SalesRepo.leftJoin ss ps) <->
  In s ss /\
  match op with
  | Some p => In p ps /\ Sale.product_id s = Product.id p
  | None => forall p, In p ps -> Sale.product_id s <> Product.id p
  end.
Proof.
  unfold SalesRepo.leftJoin. rewrite in_flat_map. split.
  - intros (s0 & Hs0 & Hin).
    destruct (Sql.select _ ps) as [| p0 l] eqn:E.
    + destruct Hin as [[= <- <-] | []]. split; [exact Hs0 |].
      intros p Hp Heq. apply String.eqb_eq in Heq.
      assert (X : In p (Sql.select
                (fun p => String.eqb (Sale.product_id s0) (Product.id p)) ps))
        by (apply filter_In; now split).
      rewrite E in X. destruct X.
    + apply in_map_iff in Hin as (p & [= <- <-] & Hp).
      rewrite <- E in Hp. apply filter_In in Hp as [Hp Heq].
      apply String.eqb_eq in Heq. now repeat split.
  - intros [Hs Hop]. exists s. split; [exact Hs |].
    destruct op as [p |].
    + destruct Hop as [Hp Heq].
      assert (X : In p (Sql.select
                (fun p => String.eqb (Sale.product_id s) (Product.id p)) ps)).
      { apply filter_In. split; [exact Hp | now apply String.eqb_eq]. }
      destruct (Sql.select _ ps) as [| p0 l]; [destruct X |].
      apply in_map_iff. now exists p.
    + rewrite select_no_match; [now left |].
      intros p Hp. apply String.eqb_neq. now apply Hop.
Qed.

(** X15: on a ready client [getAllSalesWithProducts] changes nothing and
    returns one row for each pair of an active sale and an active product
    with the id the sale references, carrying that product's [id], [name]
    and [price], and one row without product columns for each active sale
    that references no row of [products]; nothing else. So a soft-deleted
    sale never appears, and an active sale whose product is soft-deleted
    does not appear either, although [getAllSales] returns it. *)
Theorem getAllSalesWithProducts_joins_active_sales_with_active_products
    (w : World) :
  ready w ->
  exists rows,
    SalesRepo.getAllSalesWithProducts w = (Returns rows, w) /\
    (forall row,
       In row rows <->
       In (SalesRepo.sale row) (sales w) /\
       Sale.deleted_at (SalesRepo.sale row) = None /\
       ((exists p,
           In p (products w) /\
           Product.id p = Sale.product_id (SalesRepo.sale row) /\
           Product.deleted_at p = None /\
           SalesRepo.product row =
           Some {| SalesRepo.info_id := Product.id p;
                   SalesRepo.info_name := Product.name p;
                   SalesRepo.info_price := Product.price p |}) \/
        (SalesRepo.product row = None /\
         forall p, In p (products w) ->
                   Product.id p <> Sale.product_id (SalesRepo.sale row)))) /\
    (forall s,
       (exists p, In p (products w) /\ Product.id p = Sale.product_id s) ->
       (forall p, In p (products w) -> Product.id p = Sale.product_id s ->
                  Product.deleted_at p <> None) ->
       forall row, In row rows -> SalesRepo.sale row <> s).
Proof.
  intros H. eexists. split.
  { unfold SalesRepo.getAllSalesWithProducts.
    rewrite ready_prelude by exact H. reflexivity. }
  assert (Hrows : forall row,
    In row (map SalesRepo.project
              (Sql.select SalesRepo.both_not_deleted
                 (SalesRepo.leftJoin (sales w) (products w)))) <->
    In (SalesRepo.sale row) (sales w) /\
    Sale.deleted_at (SalesRepo.sale row) = None /\
    ((exists p,
        In p (products w) /\
        Product.id p = Sale.product_id (SalesRepo.sale row) /\
        Product.deleted_at p = None /\
        SalesRepo.product row =
        Some {| SalesRepo.info_id := Product.id p;
                SalesRepo.info_name := Product.name p;
                SalesRepo.info_price := Product.price p |}) \/
     (SalesRepo.product row = None /\
      forall p, In p (products w) ->
                Product.id p <> Sale.product_id (SalesRepo.sale row)))).
  { intros row. rewrite in_map_iff. split.
    - intros ([s op] & <- & Hin). apply filter_In in Hin as [Hin Hc].
      apply in_leftJoin in Hin as [Hs Hop].
      unfold SalesRepo.both_not_deleted in Hc. cbn in Hc.
      apply andb_true_iff in Hc as [Hsd Hpd]. cbn.
      split; [exact Hs |]. split.
      { unfold SalesRepo.not_deleted in Hsd.
        now destruct (Sale.deleted_at s). }
      destruct op as [p |].
      + left. destruct Hop as [Hp Heq]. exists p. repeat split; auto.
        now destruct (Product.deleted_at p).
      + right. split; [reflexivity |]. intros p Hp E.
        now apply (Hop p Hp).
    - destruct row as [s info]. cbn. intros (Hs & Hsd & Hcase).
      destruct Hcase as [(p & Hp & Hid & Hpd & ->) | [-> Hno]].
      + exists (s, Some p). split; [reflexivity |].
        apply filter_In. split.
        * apply in_leftJoin. now repeat split.
        * unfold SalesRepo.both_not_deleted, SalesRepo.not_deleted. cbn.
          now rewrite Hsd, Hpd.
      + exists (s, None). split; [reflexivity |].
        apply filter_In. split.
        * apply in_leftJoin. split; [exact Hs |]. intros p Hp E.
          now apply (Hno p Hp).
        * unfold SalesRepo.both_not_deleted, SalesRepo.not_deleted. cbn.
          now rewrite Hsd. }
  split; [exact Hrows |].
  intros s (p0 & Hp0 & Hid0) Hall row Hrow <-.
  apply Hrows in Hrow as (_ & _ & [(p & Hp & Hid & Hpd & _) | [_ Hno]]).
  - now apply (Hall p Hp Hid).
  - now apply (Hno p0 Hp0).
Qed.

Lemma getAllSalesWithProducts_joins_active_sales_with_active_products_witness :
  let w1 := snd (ProductsRepo.deleteProduct "2024-02-01T00:00:00.000Z"
                   "2024-02-01T00:00:00.001Z" "p1" Demo.world) in
  fst (SalesRepo.getAllSales w1) = Returns [Demo.sale1] /\
  fst (SalesRepo.getAllSalesWithProducts w1) = Returns [] /\
  exists rows,
    SalesRepo.getAllSalesWithProducts w1 = (Returns rows, w1) /\
    forall row, In row rows -> SalesRepo.sale row <> Demo.sale1.
Proof.
  cbv zeta. split; [reflexivity |]. split; [reflexivity |].
  destruct (getAllSalesWithProducts_joins_active_sales_with_active_products
              (snd (ProductsRepo.deleteProduct "2024-02-01T00:00:00.000Z"
                      "2024-02-01T00:00:00.001Z" "p1" Demo.world))
              eq_refl) as (rows & E & _ & Hnot).
  exists rows. split; [exact E |].
  apply Hnot.
  - eexists. split; [left; reflexivity | reflexivity].
  - intros p [<- | [<- | []]]; cbn; intros; discriminate.
Defined.

(** ** Sale totals *)

Lemma stored_sale_reads_back
    (w : World) (uuid_v4 datetime_now : string) (data : Sale.New.t) :
  ready w -> sale_absent w uuid_v4 ->
  let row := Sale.stored (SalesRepo.newSale uuid_v4 datetime_now data) in
  let w' := with_sales w (sales w ++ [row]) in
  SalesRepo.getSaleById uuid_v4 false w' = (Returns (Some row), w').
Proof.
  intros H Habs row w'.
  rewrite SalesFacts.getSaleById_run by exact H. subst w'.
  cbn [sales with_sales].
  rewrite (select_appended _ row); [reflexivity | |].
  - intros r Hr. unfold SalesRepo.id_is.
    replace (String.eqb (Sale.id r) uuid_v4) with false; [reflexivity |].
    symmetry. apply String.eqb_neq. now apply Habs.
  - unfold SalesRepo.id_is. cbn. now rewrite String.eqb_refl.
Qed.

(** C9: on a ready client, every sale that the service's [createSale]
    creates is stored with, as [total], the binary64 product of the
    quantity and the price of the active product [p] that the repository
    finds under [productId], as the column keeps it: equal to that product
    as a number, a zero being read as 0. The sale carries the given product
    and quantity, and [getSaleById] reads it back. A sale is created
    whenever the product is found, the quantity passes the check, the
    product of quantity and price is a number (not NaN) and [uuid.v4()]
    gives an unused id; and for quantity 5 and price 9.99 the stored total
    is the binary64 number 49.95. *)
Theorem C9_sale_total_is_quantity_times_price
    (w : World) (uuid_v4 datetime_now productId : string)
    (quantity : float) :
  ready w ->
  let r := SalesService.createSale uuid_v4 datetime_now productId
             quantity w in
  (forall created,
     fst r = Returns created ->
     exists sale p,
       created = Some sale /\
       fst (ProductsRepo.getProductById productId false w)
         = Returns (Some p) /\
       snd r = with_sales w (sales w ++ [sale]) /\
       fst (SalesRepo.getSaleById uuid_v4 false (snd r))
         = Returns (Some sale) /\
       Sale.product_id sale = productId /\
       Sale.quantity sale = quantity /\
       Sale.total sale
         = Number.stored (PrimFloat.mul quantity (Product.price p)) /\
       read_back (PrimFloat.mul quantity (Product.price p))
         (Sale.total sale)) /\
  (forall p,
     fst (ProductsRepo.getProductById productId false w)
       = Returns (Some p) ->
     PrimFloat.leb quantity 0 = false ->
     PrimFloat.is_nan (PrimFloat.mul quantity (Product.price p)) = false ->
     sale_absent w uuid_v4 ->
     exists sale,
       fst r = Returns (Some sale) /\
       Sale.total sale
         = Number.stored (PrimFloat.mul quantity (Product.price p)) /\
       (quantity = 5%float -> Product.price p = 9.99%float ->
        Sale.total sale = 49.95%float)).
Proof.
  intros H r. subst r. unfold SalesService.createSale. split.
  - intros created.
    destruct (PrimFloat.leb quantity 0) eqn:Hq; [discriminate |].
    unfold try_catch, bind.
    rewrite getProductById_any_run by exact H. cbn [fst orb].
    destruct (find _ (products w)) as [p |]; [| discriminate].
    destruct (createSale_ready_cases w uuid_v4 datetime_now
                {| Sale.New.product_id := productId;
                   Sale.New.quantity := quantity;
                   Sale.New.total :=
                     PrimFloat.mul quantity (Product.price p) |} H)
      as [(Ha & Hn & ->) | [-> | ->]]; [| discriminate ..].
    cbn [fst snd]. intros [= <-].
    eexists. exists p. split; [reflexivity |]. split; [reflexivity |].
    split; [reflexivity |]. split.
    { now rewrite stored_sale_reads_back by assumption. }
    split; [reflexivity |]. split.
    { cbn. now apply stored_positive. }
    split; [reflexivity |].
    cbn. apply stored_read_back.
    unfold Sale.not_null in Hn. cbn in Hn.
    apply andb_true_iff in Hn as [_ Hn]. now apply negb_true_iff in Hn.
  - intros p Hp Hq Hnan Habs. rewrite Hq. unfold try_catch, bind.
    rewrite getProductById_any_run in * by exact H. cbn [fst orb] in *.
    injection Hp as ->.
    rewrite SalesFacts.createSale_run; [| exact H | | exact Habs].
    + cbn [fst]. eexists. split; [reflexivity |].
      split; [reflexivity |]. intros -> Hprice. cbn. now rewrite Hprice.
    + unfold Sale.not_null, Number.is_null. cbn.
      now rewrite (mul_not_nan _ _ Hnan), Hnan.
Qed.

Lemma C9_sale_total_is_quantity_times_price_witness :
  fst (ProductsRepo.getProductById "p1" false Demo.world)
    = Returns (Some Demo.widget) /\
  Product.price Demo.widget = 9.99%float /\
  exists sale,
    fst (SalesService.createSale "s3" "2024-02-01 00:00:00" "p1" 5
           Demo.world) = Returns (Some sale) /\
    Sale.total sale = 49.95%float.
Proof.
  assert (Hs : sale_absent Demo.world "s3")
    by (apply demo_sale_absent; discriminate).
  split; [reflexivity |]. split; [reflexivity |].
  destruct (proj2 (C9_sale_total_is_quantity_times_price Demo.world "s3"
              "2024-02-01 00:00:00" "p1" 5 ready_demo)
              Demo.widget eq_refl eq_refl eq_refl Hs)
    as (sale & E & _ & T).
  exists sale. split; [exact E | exact (T eq_refl eq_refl)].
Defined.

(** ** The service layer *)

(** X16: the products service checks before it stores. [createProduct]
    throws "Product name is required" exactly when the name is empty or
    trims to the empty string, and "Product price must be greater than 0"
    exactly when the name passes and [price <= 0]; whenever it throws, the
    message is one of these two or "Failed to create product. Please try
    again." and no row has been stored: the world is as it was, or, when
    the repository was reached while an initialization was in progress, as
    it was with the client settled. *)
Theorem service_createProduct_checks_before_it_stores
    (trim : string -> string) (w : World)
    (uuid_v4 datetime_now name : string) (price : float) :
  let r := ProductsService.createProduct trim uuid_v4 datetime_now name
             price w in
  (fst r = Throws "Product name is required" <->
   name = "" \/ trim name = "") /\
  (fst r = Throws "Product price must be greater than 0" <->
   name <> "" /\ trim name <> "" /\ PrimFloat.leb price 0 = true) /\
  (forall m, fst r = Throws m ->
     (snd r = w \/ snd r = settled w) /\
     (idle w -> snd r = w) /\
     (m = "Product name is required" \/
      m = "Product price must be greater than 0" \/
      m = "Failed to create product. Please try again.")).
Proof.
  intros r. subst r. unfold ProductsService.createProduct.
  destruct (String.eqb name "") eqn:E1;
    destruct (String.eqb (trim name) "") eqn:E2; cbn [orb].
  1: apply String.eqb_eq in E1, E2.
  2: apply String.eqb_eq in E1; apply String.eqb_neq in E2.
  3: apply String.eqb_neq in E1; apply String.eqb_eq in E2.
  1-3: cbn; split;
       [ split; [intros _; tauto | reflexivity]
       | split;
         [ split; [discriminate | intros (A & B & _); congruence]
         | intros m [= <-]; auto ] ].
  apply String.eqb_neq in E1, E2.
  destruct (PrimFloat.leb price 0) eqn:E3.
  - cbn. split; [split; [discriminate | tauto] |].
    split; [tauto |]. intros m [= <-]. auto.
  - unfold try_catch.
    destruct (createProduct_cases w uuid_v4 datetime_now
                {| Product.New.name := trim name;
                   Product.New.price := price |})
      as [(_ & _ & _ & ->) | [m ->]]; cbn [fst snd throw].
    + split; [split; [discriminate | tauto] |].
      split; [split; [discriminate | intros (_ & _ & [=])] |].
      discriminate.
    + split; [split; [discriminate | tauto] |].
      split; [split; [discriminate | intros (_ & _ & [=])] |].
      intros m' [= <-]. split; [now right |].
      split; [intros I; apply (settled_idle w I) | auto].
Qed.

(** X17: on a ready client, for a name that is not blank, a price that
    passes the check and is a number, and a generated id that is unused,
    the service's [createProduct] stores and returns a pending, active
    product whose name is the trimmed name and whose price is the given
    price, and [getProductById] reads it back. A price that is NaN passes
    the check too, but the database refuses it: the service then throws
    "Failed to create product. Please try again." and stores nothing. *)
Theorem service_createProduct_stores_the_trimmed_name
    (trim : string -> string) (w : World)
    (uuid_v4 datetime_now name : string) (price : float) :
  ready w ->
  name <> "" -> trim name <> "" ->
  PrimFloat.leb price 0 = false ->
  product_absent w uuid_v4 ->
  let created :=
    {| Product.id := uuid_v4; Product.name := trim name;
       Product.price := price;
       Product.created_at := datetime_now;
       Product.updated_at := datetime_now;
       Product.deleted_at := None; Product.sync_status := pending |} in
  let w' := with_products w (products w ++ [created]) in
  if Number.is_null price
  then ProductsService.createProduct trim uuid_v4 datetime_now name price w
       = (Throws "Failed to create product. Please try again.", w)
  else ProductsService.createProduct trim uuid_v4 datetime_now name price w
       = (Returns (Some created), w') /\
       ProductsRepo.getProductById uuid_v4 false w'
       = (Returns (Some created), w').
Proof.
  intros H Hn Ht Hp Habs created w'.
  apply String.eqb_neq in Hn, Ht.
  unfold ProductsService.createProduct. rewrite Hn, Ht, Hp. cbn [orb].
  unfold try_catch.
  destruct (Number.is_null price) eqn:Hnull.
  - destruct (createProduct_ready_cases w uuid_v4 datetime_now
                {| Product.New.name := trim name;
                   Product.New.price := price |} H)
      as [(_ & X & _) | [-> | ->]]; [| reflexivity ..].
    unfold Product.not_null in X. cbn in X. rewrite Hnull in X.
    discriminate.
  - rewrite (ProductsFacts.createProduct_run w uuid_v4 datetime_now
               {| Product.New.name := trim name; Product.New.price := price |}
               H);
      [| unfold Product.not_null; cbn; now rewrite Hnull | exact Habs].
    assert (Es : Product.stored
                   (ProductsRepo.newProduct uuid_v4 datetime_now
                      {| Product.New.name := trim name;
                         Product.New.price := price |}) = created).
    { unfold Product.stored, created. cbn.
      now rewrite (stored_positive price Hp). }
    rewrite Es. fold w'. split; [reflexivity |].
    rewrite getProductById_any_run by exact H. cbn [orb]. do 2 f_equal.
    unfold w'. cbn [products with_products].
    rewrite <- first_limit_select.
    rewrite (select_appended _ created); [reflexivity | |].
    + intros r Hr. unfold ProductsRepo.id_is.
      replace (String.eqb (Product.id r) uuid_v4) with false; [reflexivity |].
      symmetry. apply String.eqb_neq. now apply Habs.
    + unfold ProductsRepo.id_is. cbn. now rewrite String.eqb_refl.
Qed.

Lemma service_createProduct_stores_the_trimmed_name_witness :
  fst (ProductsService.createProduct DemoInput.trim "p3"
         "2024-02-01 00:00:00" "  Gizmo " 2.5 Demo.world) =
  Returns
    (Some {| Product.id := "p3"; Product.name := "Gizmo";
             Product.price := 2.5;
             Product.created_at := "2024-02-01 00:00:00";
             Product.updated_at := "2024-02-01 00:00:00";
             Product.deleted_at := None; Product.sync_status := pending |}).
Proof.
  assert (Hp : product_absent Demo.world "p3")
    by (apply demo_product_absent; discriminate).
  assert (Hn : "  Gizmo " <> "") by discriminate.
  assert (Ht : DemoInput.trim "  Gizmo " <> "") by discriminate.
  exact (f_equal fst (proj1 (service_createProduct_stores_the_trimmed_name
    DemoInput.trim Demo.world "p3" "2024-02-01 00:00:00" "  Gizmo " 2.5
    ready_demo Hn Ht eq_refl Hp))).
Defined.

Lemma getProductById_cases (w : World) (id : string) :
  (ready (settled w) /\
   ProductsRepo.getProductById id false w =
   (Returns
      (find (fun r => ProductsRepo.id_is id r && ProductsRepo.not_deleted r)
         (products w)), settled w)) \/
  (exists m, ProductsRepo.getProductById id false w = (Throws m, settled w)).
Proof.
  unfold ProductsRepo.getProductById at 1 2.
  match goal with
  | |- context [(ensureDBReady ;; _ <- getDB ;; ?k) w] =>
      destruct (prelude_cases w k) as [[H ->] | [_ X]]; [left | now right]
  end.
  split; [exact H |].
  rewrite <- (ready_prelude (settled w) _ H).
  fold (ProductsRepo.getProductById id false (settled w)).
  now rewrite getProductById_any_run.
Qed.

Lemma getSaleById_cases (w : World) (id : string) :
  (ready (settled w) /\
   SalesRepo.getSaleById id false w =
   (Returns
      (find (fun r => SalesRepo.id_is id r && SalesRepo.not_deleted r)
         (sales w)), settled w)) \/
  (exists m, SalesRepo.getSaleById id false w = (Throws m, settled w)).
Proof.
  unfold SalesRepo.getSaleById at 1 2.
  match goal with
  | |- context [(ensureDBReady ;; _ <- getDB ;; ?k) w] =>
      destruct (prelude_cases w k) as [[H ->] | [_ X]]; [left | now right]
  end.
  split; [exact H |].
  rewrite <- (ready_prelude (settled w) _ H).
  fold (SalesRepo.getSaleById id false (settled w)).
  now rewrite getSaleById_any_run.
Qed.

(** X18: the services' [getProductById] / [getSaleById] never change the
    tables: the world after them is the world before with the client
    settled, which is the world before unless an initialization was in
    progress; they return a row exactly when the repository's default
    lookup finds it; and whatever goes wrong, a missing or soft-deleted
    record included, the message they throw is the generic "Failed to load
    ..." one: the "Product not found" / "Sale not found" thrown inside the
    [try] is replaced by the [catch]. *)
Theorem service_getById_reports_every_failure_as_failed_to_load
    (w : World) (id : string) :
  (snd (ProductsService.getProductById id w) = settled w /\
   (idle w -> snd (ProductsService.getProductById id w) = w) /\
   (forall p, fst (ProductsService.getProductById id w) = Returns p <->
              fst (ProductsRepo.getProductById id false w)
                = Returns (Some p)) /\
   (forall m, fst (ProductsService.getProductById id w) = Throws m ->
              m = "Failed to load product. Please try again.") /\
   (fst (ProductsRepo.getProductById id false w) = Returns None ->
    fst (ProductsService.getProductById id w)
      = Throws "Failed to load product. Please try again.")) /\
  (snd (SalesService.getSaleById id w) = settled w /\
   (idle w -> snd (SalesService.getSaleById id w) = w) /\
   (forall s, fst (SalesService.getSaleById id w) = Returns s <->
              fst (SalesRepo.getSaleById id false w) = Returns (Some s)) /\
   (forall m, fst (SalesService.getSaleById id w) = Throws m ->
              m = "Failed to load sale. Please try again.") /\
   (fst (SalesRepo.getSaleById id false w) = Returns None ->
    fst (SalesService.getSaleById id w)
      = Throws "Failed to load sale. Please try again.")).
Proof.
  split.
  - unfold ProductsService.getProductById, try_catch, bind.
    pose proof (settled_idle w) as I.
    destruct (getProductById_cases w id) as [[_ ->] | [m ->]].
    + destruct (find _ (products w)) as [p |]; cbn.
      * repeat split; try discriminate; try congruence; auto.
      * repeat split; try discriminate; try congruence; auto.
    + cbn. repeat split; try discriminate; try congruence; auto.
  - unfold SalesService.getSaleById, try_catch, bind.
    pose proof (settled_idle w) as I.
    destruct (getSaleById_cases w id) as [[_ ->] | [m ->]].
    + destruct (find _ (sales w)) as [s |]; cbn.
      * repeat split; try discriminate; try congruence; auto.
      * repeat split; try discriminate; try congruence; auto.
    + cbn. repeat split; try discriminate; try congruence; auto.
Qed.

(** X19: on a ready client the sales service's [createSale] throws
    "Quantity must be greater than 0" exactly when [quantity <= 0], and
    "Product not found" exactly when the quantity passes and the
    repository's default lookup finds no active product; whenever it
    throws, the message is one of these two or "Failed to create sale.
    Please try again." and the world is as it was. *)
Theorem service_createSale_failure_modes
    (w : World) (uuid_v4 datetime_now productId : string)
    (quantity : float) :
  ready w ->
  let r := SalesService.createSale uuid_v4 datetime_now productId
             quantity w in
  (fst r = Throws "Quantity must be greater than 0" <->
   PrimFloat.leb quantity 0 = true) /\
  (fst r = Throws "Product not found" <->
   PrimFloat.leb quantity 0 = false /\
   fst (ProductsRepo.getProductById productId false w) = Returns None) /\
  (forall m, fst r = Throws m ->
     snd r = w /\
     (m = "Quantity must be greater than 0" \/
      m = "Product not found" \/
      m = "Failed to create sale. Please try again.")).
Proof.
  intros H r. subst r. unfold SalesService.createSale.
  destruct (PrimFloat.leb quantity 0) eqn:Eq.
  - cbn. split; [tauto |]. split.
    + split; [discriminate | intros [[=] _]].
    + intros m [= <-]. auto.
  - unfold try_catch, bind.
    rewrite getProductById_any_run by exact H. cbn [fst orb].
    destruct (find _ (products w)) as [p |].
    + destruct (createSale_ready_cases w uuid_v4 datetime_now
                  {| Sale.New.product_id := productId;
                     Sale.New.quantity := quantity;
                     Sale.New.total :=
                       PrimFloat.mul quantity (Product.price p) |} H)
        as [(_ & _ & ->) | [-> | ->]]; cbn.
      * split; [split; discriminate |].
        split; [split; [discriminate | intros [_ [=]]] |]. discriminate.
      * split; [split; discriminate |].
        split; [split; [discriminate | intros [_ [=]]] |].
        intros m [= <-]. auto.
      * split; [split; discriminate |].
        split; [split; [discriminate | intros [_ [=]]] |].
        intros m [= <-]. auto.
    + cbn. split; [split; discriminate |].
      split; [tauto |]. intros m [= <-]. auto.
Qed.

Lemma service_createSale_failure_modes_witness :
  SalesService.createSale "s3" "2024-02-01 00:00:00" "p2" 5 Demo.world
    = (Throws "Product not found", Demo.world) /\
  SalesService.createSale "s3" "2024-02-01 00:00:00" "p1" 0 Demo.world
    = (Throws "Quantity must be greater than 0", Demo.world) /\
  forall m,
    fst (SalesService.createSale "s1" "2024-02-01 00:00:00" "p1" 5
           Demo.world) = Throws m ->
    snd (SalesService.createSale "s1" "2024-02-01 00:00:00" "p1" 5
           Demo.world) = Demo.world /\
    (m = "Quantity must be greater than 0" \/
     m = "Product not found" \/
     m = "Failed to create sale. Please try again.").
Proof.
  split; [reflexivity |]. split; [reflexivity |].
  exact (proj2 (proj2 (service_createSale_failure_modes Demo.world "s1"
           "2024-02-01 00:00:00" "p1" 5 ready_demo))).
Defined.

(** X20: on a ready client the sales service's [updateSale] writes nothing
    unless it succeeds. It throws "Quantity must be greater than 0" exactly
    when a quantity is given and is [<= 0], and "Sale not found" exactly
    when the quantity passes and the default lookup finds no active sale
    under the id (a soft-deleted sale counts as not found); whenever it
    throws, the message is one of these two, "Product not found", or
    "Failed to update sale. Please try again." (the database refused the
    update: a quantity or a total that is NaN), and the world is as it
    was. *)
Theorem service_updateSale_writes_nothing_when_it_throws
    (w : World) (now id : string) (updates : SalesService.SaleUpdates) :
  ready w ->
  let r := SalesService.updateSale now id updates w in
  (fst r = Throws "Quantity must be greater than 0" <->
   exists q, SalesService.upd_quantity updates = Some q /\
             PrimFloat.leb q 0 = true) /\
  (fst r = Throws "Sale not found" <->
   (forall q, SalesService.upd_quantity updates = Some q ->
              PrimFloat.leb q 0 = false) /\
   fst (SalesRepo.getSaleById id false w) = Returns None) /\
  (forall m, fst r = Throws m ->
     snd r = w /\
     (m = "Quantity must be greater than 0" \/
      m = "Sale not found" \/ m = "Product not found" \/
      m = "Failed to update sale. Please try again.")).
Proof.
  intros H r. subst r. unfold SalesService.updateSale.
  destruct (SalesService.upd_quantity updates) as [q |] eqn:Eq.
  - destruct (PrimFloat.leb q 0) eqn:Eq0.
    + cbn. split; [split; [intros _; now exists q | reflexivity] |].
      split.
      * split; [discriminate |]. intros [Hq _].
        specialize (Hq q eq_refl). congruence.
      * intros m [= <-]. auto.
    + unfold try_catch, bind.
      rewrite getSaleById_any_run by exact H. cbn [fst orb].
      destruct (find _ (sales w)) as [cur |] eqn:Ec.
      * rewrite getProductById_any_run by exact H. cbn [orb].
        assert (Hc : fst (SalesRepo.getSaleById id false w)
                     = Returns (Some cur)).
        { rewrite getSaleById_any_run by exact H. cbn [fst orb].
          now rewrite Ec. }
        destruct (find _ (products w)) as [p |].
        -- destruct (Sale.values_not_null
                       (SalesService.updateData updates cur p)) eqn:Hn.
           ++ destruct (sale_update_succeeds w now id
                          (SalesService.updateData updates cur p) cur H Hc Hn)
                as (_ & -> & _).
              cbn. split.
              ** split; [discriminate |].
                 intros (q' & [= <-] & X). congruence.
              ** split; [split; [discriminate | intros [_ [=]]] |].
                 discriminate.
           ++ rewrite (sale_update_refused w now id
                         (SalesService.updateData updates cur p) cur H Hc Hn).
              cbn. split.
              ** split; [discriminate |].
                 intros (q' & [= <-] & X). congruence.
              ** split; [split; [discriminate | intros [_ [=]]] |].
                 intros m [= <-]. auto 6.
        -- cbn. split.
           ++ split; [discriminate |]. intros (q' & [= <-] & X). congruence.
           ++ split; [split; [discriminate | intros [_ [=]]] |].
              intros m [= <-]. auto.
      * cbn. split.
        -- split; [discriminate |]. intros (q' & [= <-] & X). congruence.
        -- split.
           ++ split; [| reflexivity]. intros _. split; [| reflexivity].
              now intros q' [= <-].
           ++ intros m [= <-]. auto.
  - unfold try_catch, bind.
    rewrite getSaleById_any_run by exact H. cbn [fst orb].
    destruct (find _ (sales w)) as [cur |] eqn:Ec.
    + rewrite getProductById_any_run by exact H. cbn [orb].
      assert (Hc : fst (SalesRepo.getSaleById id false w)
                   = Returns (Some cur)).
      { rewrite getSaleById_any_run by exact H. cbn [fst orb].
        now rewrite Ec. }
      destruct (find _ (products w)) as [p |].
      * destruct (Sale.values_not_null
                    (SalesService.updateData updates cur p)) eqn:Hn.
        -- destruct (sale_update_succeeds w now id
                       (SalesService.updateData updates cur p) cur H Hc Hn)
             as (_ & -> & _).
           cbn. split.
           ++ split; [discriminate |]. now intros (q' & [=] & _).
           ++ split; [split; [discriminate | intros [_ [=]]] |].
              discriminate.
        -- rewrite (sale_update_refused w now id
                      (SalesService.updateData updates cur p) cur H Hc Hn).
           cbn. split.
           ++ split; [discriminate |]. now intros (q' & [=] & _).
           ++ split; [split; [discriminate | intros [_ [=]]] |].
              intros m [= <-]. auto 6.
      * cbn. split.
        -- split; [discriminate |]. now intros (q' & [=] & _).
        -- split; [split; [discriminate | intros [_ [=]]] |].
           intros m [= <-]. auto.
    + cbn. split.
      * split; [discriminate |]. now intros (q' & [=] & _).
      * split.
        -- split; [| reflexivity]. intros _. split; [| reflexivity].
           discriminate.
        -- intros m [= <-]. auto.
Qed.

Lemma service_updateSale_writes_nothing_when_it_throws_witness :
  SalesService.updateSale "2024-02-01T00:00:00.000Z" "s2"
    DemoInput.sale_updates Demo.world
    = (Throws "Sale not found", Demo.world) /\
  forall m,
    fst (SalesService.updateSale "2024-02-01T00:00:00.000Z" "s2"
           DemoInput.sale_updates Demo.world) = Throws m ->
    snd (SalesService.updateSale "2024-02-01T00:00:00.000Z" "s2"
           DemoInput.sale_updates Demo.world) = Demo.world /\
    (m = "Quantity must be greater than 0" \/
     m = "Sale not found" \/ m = "Product not found" \/
     m = "Failed to update sale. Please try again.").
Proof.
  split; [reflexivity |].
  exact (proj2 (proj2 (service_updateSale_writes_nothing_when_it_throws
           Demo.world "2024-02-01T00:00:00.000Z" "s2" DemoInput.sale_updates
           ready_demo))).
Defined.

(** X21: on a ready client, when the default lookups find the active sale
    [cur] under the id and the active product [p] under
    [updates.product_id || cur.product_id], and a given quantity passes the
    check, the sales service's [updateSale] builds a patch with the given
    keys and, when a quantity or a product was given, a total that is the
    binary64 product of the resulting quantity and [p]'s price. When no
    number of that patch is NaN it returns the stored sale: the given
    [product_id] and [quantity] in place of the old ones where given,
    [updated_at] at the clock reading, [sync_status = pending], and as
    [total] that product as the column keeps it, or the old total when
    neither key was given. When one is NaN the database refuses the update
    and the service throws "Failed to update sale. Please try again."
    without a change. *)
Theorem service_updateSale_recomputes_the_total
    (w : World) (now id : string) (updates : SalesService.SaleUpdates)
    (cur : Sale.t) (p : Product.t) :
  ready w ->
  fst (SalesRepo.getSaleById id false w) = Returns (Some cur) ->
  fst (ProductsRepo.getProductById
         (SalesService.product_for updates cur) false w)
    = Returns (Some p) ->
  (forall q, SalesService.upd_quantity updates = Some q ->
             PrimFloat.leb q 0 = false) ->
  let quantity :=
    or_else (SalesService.upd_quantity updates) (Sale.quantity cur) in
  let updated :=
    {| Sale.id := Sale.id cur;
       Sale.product_id :=
         or_else (SalesService.upd_product_id updates) (Sale.product_id cur);
       Sale.quantity := quantity;
       Sale.total :=
         match SalesService.upd_quantity updates,
               SalesService.upd_product_id updates with
         | None, None => Sale.total cur
         | _, _ => Number.stored (PrimFloat.mul quantity (Product.price p))
         end;
       Sale.created_at := Sale.created_at cur;
       Sale.updated_at := now;
       Sale.deleted_at := None;
       Sale.sync_status := pending |} in
  if Number.given_not_null (SalesService.upd_quantity updates)
     && Number.given_not_null
          (Sale.Patch.total (SalesService.updateData updates cur p))
  then fst (SalesService.updateSale now id updates w) = Returns updated /\
       SalesRepo.getSaleById id false
         (snd (SalesService.updateSale now id updates w))
       = (Returns (Some updated),
          snd (SalesService.updateSale now id updates w))
  else SalesService.updateSale now id updates w
       = (Throws "Failed to update sale. Please try again.", w).
Proof.
  intros H Hc Hp Hq quantity updated.
  assert (Ev : match SalesService.upd_quantity updates with
               | Some q => PrimFloat.leb q 0
               | None => false
               end = false).
  { destruct (SalesService.upd_quantity updates) as [q |];
      [now apply Hq | reflexivity]. }
  assert (E : SalesService.updateSale now id updates w =
              try_catch
                (SalesRepo.updateSale now id
                   (SalesService.updateData updates cur p))
                (fun message =>
                   if String.eqb message "Sale not found"
                      || String.eqb message "Product not found"
                   then throw message
                   else throw "Failed to update sale. Please try again.")
                w).
  { unfold SalesService.updateSale. rewrite Ev. unfold try_catch, bind.
    rewrite getSaleById_any_run in * by exact H. cbn [fst orb] in *.
    injection Hc as ->.
    rewrite getProductById_any_run in * by exact H. cbn [fst orb] in *.
    now injection Hp as ->. }
  change (Number.given_not_null (SalesService.upd_quantity updates)
          && Number.given_not_null
               (Sale.Patch.total (SalesService.updateData updates cur p)))
    with (Sale.values_not_null (SalesService.updateData updates cur p)).
  destruct (Sale.values_not_null (SalesService.updateData updates cur p))
    eqn:Hn.
  - destruct (sale_update_succeeds w now id
                (SalesService.updateData updates cur p) cur H Hc Hn)
      as (Hdel & Eu & Eg).
    assert (Em : Sale.set
                   (Sale.stored_values
                      (SalesRepo.stamped
                         (SalesService.updateData updates cur p) now)) cur
                 = updated).
    { unfold updated, quantity, Sale.set, SalesService.updateData. cbn.
      rewrite Hdel.
      destruct (SalesService.upd_quantity updates) as [q |] eqn:Eq,
               (SalesService.upd_product_id updates); cbn;
        try rewrite (stored_positive q (Hq q eq_refl)); reflexivity. }
    rewrite E. unfold try_catch. rewrite Eu. cbn [fst snd].
    now rewrite Eg, Em.
  - rewrite E. unfold try_catch.
    now rewrite (sale_update_refused w now id
                   (SalesService.updateData updates cur p) cur H Hc Hn).
Qed.

Lemma service_updateSale_recomputes_the_total_witness :
  fst (SalesService.updateSale "2024-02-01T00:00:00.000Z" "s1"
         DemoInput.sale_updates Demo.world) =
  Returns
    {| Sale.id := "s1"; Sale.product_id := "p1"; Sale.quantity := 5;
       Sale.total := 49.95;
       Sale.created_at := "2024-01-01 10:00:00";
       Sale.updated_at := "2024-02-01T00:00:00.000Z";
       Sale.deleted_at := None; Sale.sync_status := pending |}.
Proof.
  assert (Hq : forall q,
            SalesService.upd_quantity DemoInput.sale_updates = Some q ->
            PrimFloat.leb q 0 = false)
    by (now intros q [= <-]).
  exact (proj1 (service_updateSale_recomputes_the_total Demo.world
    "2024-02-01T00:00:00.000Z" "s1" DemoInput.sale_updates Demo.sale1
    Demo.widget ready_demo eq_refl eq_refl Hq)).
Defined.

Lemma not_ready_bind (w : World) :
  is_ready (client (settled w)) = false ->
  exists m, forall (A : Type) (f : unit -> M A),
    bind ensureDBReady f w = (Throws m, settled w).
Proof.
  intros E. destruct (ensureDBReady_cases (client w)) as [[H _] | [_ [m Hm]]].
  - unfold settled in E. cbn [client with_client] in E. congruence.
  - exists m. intros A f. unfold bind, ensureDBReady. now rewrite Hm.
Qed.

(** X22: on a client that is not ready when the readiness wait is over
    (it was never initialized, its last initialization failed, or the one
    in progress fails), the read and delete functions of both services
    throw their own fixed message, not the client's error text, and leave
    the tables as they were: the world after them is the world before with
    the client settled. *)
Theorem services_mask_an_unready_client
    (w : World) (now1 now2 id productId : string) :
  is_ready (client (settled w)) = false ->
  SalesService.getAllSales w
    = (Throws "Failed to load sales. Please try again.", settled w) /\
  SalesService.getAllSalesWithProducts w
    = (Throws "Failed to load sales. Please try again.", settled w) /\
  SalesService.getSaleById id w
    = (Throws "Failed to load sale. Please try again.", settled w) /\
  SalesService.getSalesByProductId productId w
    = (Throws "Failed to load product sales. Please try again.", settled w) /\
  SalesService.deleteSale now1 now2 id w
    = (Throws "Failed to delete sale. Please try again.", settled w) /\
  SalesService.getUnsyncedSales w
    = (Throws "Failed to load unsynced sales.", settled w) /\
  ProductsService.getAllProducts w
    = (Throws "Failed to load products. Please try again.", settled w) /\
  ProductsService.getProductById id w
    = (Throws "Failed to load product. Please try again.", settled w) /\
  ProductsService.deleteProduct now1 now2 id w
    = (Throws "Failed to delete product. Please try again.", settled w) /\
  ProductsService.getUnsyncedProducts w
    = (Throws "Failed to load unsynced products.", settled w).
Proof.
  intros E. destruct (not_ready_bind w E) as [m Hm].
  repeat split.
  - unfold SalesService.getAllSales, try_catch, SalesRepo.getAllSales.
    now rewrite Hm.
  - unfold SalesService.getAllSalesWithProducts, try_catch,
      SalesRepo.getAllSalesWithProducts. now rewrite Hm.
  - unfold SalesService.getSaleById, try_catch, SalesRepo.getSaleById.
    unfold bind at 1. now rewrite Hm.
  - unfold SalesService.getSalesByProductId, try_catch,
      SalesRepo.getSalesByProductId. now rewrite Hm.
  - unfold SalesService.deleteSale, try_catch, SalesRepo.deleteSale.
    now rewrite Hm.
  - unfold SalesService.getUnsyncedSales, try_catch,
      SalesRepo.getUnsyncedSales. now rewrite Hm.
  - unfold ProductsService.getAllProducts, try_catch,
      ProductsRepo.getAllProducts. now rewrite Hm.
  - unfold ProductsService.getProductById, try_catch,
      ProductsRepo.getProductById. unfold bind at 1. now rewrite Hm.
  - unfold ProductsService.deleteProduct, try_catch,
      ProductsRepo.deleteProduct. now rewrite Hm.
  - unfold ProductsService.getUnsyncedProducts, try_catch,
      ProductsRepo.getUnsyncedProducts. now rewrite Hm.
Qed.

Lemma services_mask_an_unready_client_witness :
  SalesService.getAllSales DemoInput.cold_world
    = (Throws "Failed to load sales. Please try again.",
       DemoInput.cold_world) /\
  ProductsService.getProductById "p1" DemoInput.failing_world
    = (Throws "Failed to load product. Please try again.",
       with_client Demo.world Client.initial).
Proof.
  split.
  - exact (proj1 (services_mask_an_unready_client DemoInput.cold_world
      "2024-02-01T00:00:00.000Z" "2024-02-01T00:00:00.001Z" "p1" "p1"
      eq_refl)).
  - pose proof (services_mask_an_unready_client DemoInput.failing_world
      "2024-02-01T00:00:00.000Z" "2024-02-01T00:00:00.001Z" "p1" "p1"
      eq_refl) as S.
    exact (proj1 (proj2 (proj2 (proj2 (proj2 (proj2 (proj2 (proj2 S)))))))).
Defined.

Lemma waitIfInProgress_in_progress (p : Client.platform) :
  Client.waitIfInProgress (Client.startInitialization p Client.initial)
    = Client.runInitialization p.
Proof. reflexivity. Qed.

(** X24: a repository call made while an initialization is in progress
    (called, not yet awaited) waits for it. When the initialization
    succeeds the call runs its query on the client made ready, as if the
    initialization had been awaited first; when it fails the call throws
    the initialization's error, the client is back in its initial state,
    the tables are untouched, and the services report their own message. *)
Theorem repository_call_waits_for_an_initialization_in_progress
    (w : World) (p : Client.platform) :
  client w = Client.startInitialization p Client.initial ->
  let w' := with_client w (snd (Client.runInitialization p)) in
  (fst (Client.runInitialization p) = Returns tt ->
   ready w' /\
   SalesRepo.getAllSales w
     = (Returns (Sql.select SalesRepo.not_deleted (sales w)), w') /\
   ProductsRepo.getAllProducts w
     = (Returns (Sql.select ProductsRepo.not_deleted (products w)), w')) /\
  (forall m,
     fst (Client.runInitialization p) = Throws m ->
     w' = with_client w Client.initial /\
     SalesRepo.getAllSales w = (Throws m, w') /\
     ProductsRepo.getAllProducts w = (Throws m, w') /\
     SalesService.getAllSales w
       = (Throws "Failed to load sales. Please try again.", w')).
Proof.
  intros Hc w'.
  assert (Hs : settled w = w').
  { unfold settled. now rewrite Hc, waitIfInProgress_in_progress. }
  assert (He : Client.ensureDBReady (client w)
               = fst (Client.runInitialization p)).
  { rewrite Hc. apply ensureDBReady_in_progress. }
  split.
  - intros Hr.
    assert (Hready : ready w').
    { rewrite <- Hs.
      destruct (ensureDBReady_cases (client w)) as [[X _] | [_ [m X]]];
        [exact X | congruence]. }
    split; [exact Hready |].
    unfold SalesRepo.getAllSales, ProductsRepo.getAllProducts.
    destruct (prelude_cases w (SalesRepo.query (Sql.select SalesRepo.not_deleted)))
      as [[_ ->] | [X _]];
      [| rewrite Hs in X; unfold ready in Hready; congruence].
    destruct (prelude_cases w
                (ProductsRepo.query (Sql.select ProductsRepo.not_deleted)))
      as [[_ ->] | [X _]];
      [| rewrite Hs in X; unfold ready in Hready; congruence].
    rewrite Hs. split; reflexivity.
  - intros m Hm.
    assert (Hw : w' = with_client w Client.initial).
    { unfold w'.
      destruct (runInitialization_cases p) as [[m' E] | [h E]];
        rewrite E in *; [reflexivity | discriminate]. }
    split; [exact Hw |].
    assert (Hb : forall (A : Type) (f : unit -> M A),
              bind ensureDBReady f w = (Throws m, w')).
    { intros A f. unfold bind, ensureDBReady. fold (settled w).
      now rewrite He, Hm, Hs. }
    unfold SalesService.getAllSales, try_catch, SalesRepo.getAllSales,
      ProductsRepo.getAllProducts.
    rewrite !Hb. repeat split.
Qed.

Lemma repository_call_waits_for_an_initialization_in_progress_witness :
  SalesRepo.getAllSales DemoInput.starting_world
    = (Returns [Demo.sale1], Demo.world) /\
  SalesRepo.getAllSales DemoInput.failing_world
    = (Throws "Failed to initialize database",
       with_client Demo.world Client.initial).
Proof.
  split.
  - exact (proj1 (proj2 (proj1
      (repository_call_waits_for_an_initialization_in_progress
         DemoInput.starting_world Client.working eq_refl) eq_refl))).
  - exact (proj1 (proj2 (proj2
      (repository_call_waits_for_an_initialization_in_progress
         DemoInput.failing_world Client.broken_migrations eq_refl)
      "Failed to initialize database" eq_refl))).
Defined.

Lemma updateProduct_not_found (w : World) (now id : string)
    (patch : Product.Patch.t) :
  ready w ->
  fst (ProductsRepo.getProductById id false w) = Returns None ->
  exists m, fst (ProductsRepo.updateProduct now id patch w) = Throws m.
Proof.
  intros H Hn.
  rewrite getProductById_any_run in Hn by exact H. cbn [fst orb] in Hn.
  injection Hn as Hn.
  destruct (Product.values_not_null (ProductsRepo.stamped patch now)) eqn:Hv.
  - pose proof (ProductsFacts.updateProduct_run w now id patch H Hv) as R.
    cbn zeta in R. rewrite R. rewrite first_limit_select.
    cbn [products with_products].
    rewrite find_update, Hn; [now eexists | reflexivity |].
    intros x Hx. now apply andb_true_iff in Hx as [Hx _].
  - rewrite (ProductsFacts.updateProduct_refused w now id patch H Hv).
    now eexists.
Qed.

(** The repository call of the service's [updateProduct], under its
    [catch]. *)
Lemma service_updateProduct_run (trim : string -> string) (w : World)
    (now id : string) (updates : ProductsService.ProductUpdates) :
  ready w ->
  (forall pr, ProductsService.upd_price updates = Some pr ->
              PrimFloat.leb pr 0 = false) ->
  let r :=
    try_catch
      (ProductsRepo.updateProduct now id
         {| Product.Patch.name :=
              option_map trim (ProductsService.upd_name updates);
            Product.Patch.price := ProductsService.upd_price updates;
            Product.Patch.updated_at := None;
            Product.Patch.sync_status := None |})
      (fun _ => throw "Failed to update product. Please try again.") w in
  ((exists p, fst r = Returns p) \/
   fst r = Throws "Failed to update product. Please try again.") /\
  (forall cur,
     fst (ProductsRepo.getProductById id false w) = Returns (Some cur) ->
     if Number.given_not_null (ProductsService.upd_price updates)
     then fst r =
          Returns
            {| Product.id := Product.id cur;
               Product.name :=
                 or_else (option_map trim (ProductsService.upd_name updates))
                         (Product.name cur);
               Product.price :=
                 or_else (ProductsService.upd_price updates)
                         (Product.price cur);
               Product.created_at := Product.created_at cur;
               Product.updated_at := now;
               Product.deleted_at := None;
               Product.sync_status := pending |}
     else r = (Throws "Failed to update product. Please try again.", w)) /\
  (fst (ProductsRepo.getProductById id false w) = Returns None ->
   fst r = Throws "Failed to update product. Please try again.").
Proof.
  intros H Hp. cbn zeta. unfold try_catch.
  set (patch := {| Product.Patch.name :=
                     option_map trim (ProductsService.upd_name updates);
                   Product.Patch.price := ProductsService.upd_price updates;
                   Product.Patch.updated_at := None;
                   Product.Patch.sync_status := None |}).
  change (Number.given_not_null (ProductsService.upd_price updates))
    with (Product.values_not_null patch).
  split; [| split].
  - destruct (ProductsRepo.updateProduct now id patch w) as [[p | m] w'];
      cbn; [left; now exists p | now right].
  - intros cur Hc. destruct (Product.values_not_null patch) eqn:Hn.
    + destruct (product_update_succeeds w now id patch cur H Hc Hn)
        as (Hdel & -> & _).
      cbn [fst]. f_equal.
      unfold Product.set, Product.stored_values, ProductsRepo.stamped, patch.
      cbn. rewrite Hdel.
      destruct (ProductsService.upd_price updates) as [pr |] eqn:Ep; cbn;
        [now rewrite (stored_positive pr (Hp pr eq_refl)) | reflexivity].
    + now rewrite (product_update_refused w now id patch cur H Hc Hn).
  - intros Hc. destruct (updateProduct_not_found w now id patch H Hc)
      as [m Hm].
    destruct (ProductsRepo.updateProduct now id patch w) as [[p | m'] w'];
      [discriminate | reflexivity].
Qed.

Ltac bad_price pr :=
  split;
  [ split; [discriminate | intros (n' & E' & X); congruence]
  | split;
    [ split;
      [ intros _; split; [intros n' E' X; congruence | now exists pr]
      | reflexivity ]
    | split;
      [ intros cur _ Hp; specialize (Hp pr eq_refl); congruence
      | intros _ Hp; specialize (Hp pr eq_refl); congruence ] ] ].

Ltac valid_update S :=
  let Hp := fresh "Hp" in
  let S1 := fresh "S" in
  let S2 := fresh "S" in
  let S3 := fresh "S" in
  match type of S with
  | ?P -> _ => assert (Hp : P) by (intros ? ?; congruence)
  end;
  destruct (S Hp) as (S1 & S2 & S3);
  split;
  [ split;
    [ destruct S1 as [[? S1] | S1]; rewrite S1; discriminate
    | intros (n' & E' & X); congruence ]
  | split;
    [ split;
      [ destruct S1 as [[? S1] | S1]; rewrite S1; discriminate
      | intros [_ (pr' & E' & X)]; congruence ]
    | split;
      [ intros cur _ _ Hc; exact (S2 cur Hc)
      | intros _ _ Hc; exact (S3 Hc) ] ] ].

(** X23: on a ready client the products service's [updateProduct] throws
    "Product name cannot be empty" exactly when a name is given and trims
    to the empty string, and "Product price must be greater than 0" exactly
    when the name passes and a price is given with [price <= 0]. When both
    pass and the default lookup finds the active product [cur], it returns
    the stored product with the trimmed name and the price in place of the
    old ones where given, [updated_at] at the clock reading and
    [sync_status = pending], unless the given price is NaN, which passes
    the check and which the database refuses: it then throws "Failed to
    update product. Please try again." and the world is as it was. When
    the lookup finds nothing, it throws that message too. *)
Theorem service_updateProduct_checks_trims_and_merges
    (trim : string -> string) (w : World) (now id : string)
    (updates : ProductsService.ProductUpdates) :
  ready w ->
  let r := ProductsService.updateProduct trim now id updates w in
  let name_ok :=
    forall n, ProductsService.upd_name updates = Some n -> trim n <> "" in
  let price_ok :=
    forall pr, ProductsService.upd_price updates = Some pr ->
               PrimFloat.leb pr 0 = false in
  (fst r = Throws "Product name cannot be empty" <->
   exists n, ProductsService.upd_name updates = Some n /\ trim n = "") /\
  (fst r = Throws "Product price must be greater than 0" <->
   name_ok /\
   exists pr, ProductsService.upd_price updates = Some pr /\
              PrimFloat.leb pr 0 = true) /\
  (forall cur,
     name_ok -> price_ok ->
     fst (ProductsRepo.getProductById id false w) = Returns (Some cur) ->
     if Number.given_not_null (ProductsService.upd_price updates)
     then fst r =
          Returns
            {| Product.id := Product.id cur;
               Product.name :=
                 or_else (option_map trim (ProductsService.upd_name updates))
                         (Product.name cur);
               Product.price :=
                 or_else (ProductsService.upd_price updates)
                         (Product.price cur);
               Product.created_at := Product.created_at cur;
               Product.updated_at := now;
               Product.deleted_at := None;
               Product.sync_status := pending |}
     else r = (Throws "Failed to update product. Please try again.", w)) /\
  (name_ok -> price_ok ->
   fst (ProductsRepo.getProductById id false w) = Returns None ->
   fst r = Throws "Failed to update product. Please try again.").
Proof.
  intros H r name_ok price_ok. subst r name_ok price_ok.
  pose proof (service_updateProduct_run trim w now id updates H) as S.
  cbn zeta in S.
  unfold ProductsService.updateProduct.
  destruct (ProductsService.upd_name updates) as [n |] eqn:En;
    [destruct (String.eqb (trim n) "") eqn:Et;
       [apply String.eqb_eq in Et | apply String.eqb_neq in Et] |].
  - cbn. split; [| split; [| split]].
    + split; [intros _; now exists n | reflexivity].
    + split; [discriminate | intros [Hn _]; now destruct (Hn n eq_refl)].
    + intros cur Hn. now destruct (Hn n eq_refl).
    + intros Hn. now destruct (Hn n eq_refl).
  - destruct (ProductsService.upd_price updates) as [pr |] eqn:Ep;
      [destruct (PrimFloat.leb pr 0) eqn:El |].
    + cbn. bad_price pr.
    + valid_update S.
    + valid_update S.
  - destruct (ProductsService.upd_price updates) as [pr |] eqn:Ep;
      [destruct (PrimFloat.leb pr 0) eqn:El |].
    + cbn. bad_price pr.
    + valid_update S.
    + valid_update S.
Qed.

Lemma service_updateProduct_checks_trims_and_merges_witness :
  fst (ProductsService.updateProduct DemoInput.trim
         "2024-02-01T00:00:00.000Z" "p1" DemoInput.product_updates
         Demo.world) =
  Returns
    {| Product.id := "p1"; Product.name := "Widget v2";
       Product.price := 9.99;
       Product.created_at := "2024-01-01 09:00:00";
       Product.updated_at := "2024-02-01T00:00:00.000Z";
       Product.deleted_at := None; Product.sync_status := pending |}.
Proof.
  refine (proj1 (proj2 (proj2
    (service_updateProduct_checks_trims_and_merges DemoInput.trim Demo.world
       "2024-02-01T00:00:00.000Z" "p1" DemoInput.product_updates
       ready_demo))) Demo.widget _ _ eq_refl).
  - intros n [= <-]. discriminate.
  - intros pr [=].
Defined.
